(** * The ADB (Apple Desktop Bus) protocol decoder of libsigrokdecode

    A shallow embedding of [decoders/adb/pd.py]: the timing table, the
    tolerance check, and the [decode] state machine, written as a small
    state-and-exception monad over the decoder object.

    Python [float]s are IEEE 754 binary64 numbers and are embedded as Rocq's
    primitive floats, which are the same numbers with the same rounding.
    Python [int]s are embedded as [Z]. *)

From Stdlib Require Import ZArith List String Ascii Bool Lia.
From Stdlib Require Import DecimalString HexadecimalString.
From Stdlib Require Import Floats.
Import ListNotations.

#[local] Set Warnings "-inexact-float".
#[local] Open Scope Z_scope.

(** ** Python numbers and strings *)

(** [float(z)] for a Python int.  The conversion is exact below [2^53] and
    is meant for sample numbers and sample rates, which stay far below
    [2^63]. *)
Definition float_of_int (z : Z) : float :=
  match z with
  | Z0 => 0%float
  | Zpos _ => PrimFloat.of_uint63 (Uint63.of_Z z)
  | Zneg p => (- PrimFloat.of_uint63 (Uint63.of_Z (Zpos p)))%float
  end.

(** [str(z)] for a Python int. *)
Definition str (z : Z) : string :=
  DecimalString.NilZero.string_of_int (Z.to_int z).

(** [hex(z)] for a Python int: ["0x5"], ["-0x1f"]. *)
Definition hex (z : Z) : string :=
  match z with
  | Zneg p => "-0x" ++ HexadecimalString.NilZero.string_of_uint (N.to_hex_uint (Npos p))
  | _ => "0x" ++ HexadecimalString.NilZero.string_of_uint (N.to_hex_uint (Z.to_N z))
  end.

(** [n] zeros. *)
Fixpoint zeros (n : nat) : string :=
  match n with
  | O => EmptyString
  | S k => String "0" (zeros k)
  end.

(** [s] padded on the left with zeros to [width] characters; a string that
    is as long or longer is left as it is. *)
Definition zfill (width : nat) (s : string) : string :=
  zeros (width - String.length s) ++ s.

(** ["{:04x}".format(z)]: lower-case hexadecimal, zero-padded to width 4,
    the sign counting in the width. *)
Definition format_04x (z : Z) : string :=
  match z with
  | Zneg p => "-" ++ zfill 3 (HexadecimalString.NilZero.string_of_uint (N.to_hex_uint (Npos p)))
  | _ => zfill 4 (HexadecimalString.NilZero.string_of_uint (N.to_hex_uint (Z.to_N z)))
  end.

(** ** Timing values in us for the signal (the [timing] dictionary) *)

Module Timing.

Inductive key : Set :=
| RESET | ATTENTION | SYNC | BIT_CELL | BIT_0_LOW | BIT_1_LOW
| STOP | STOP_SREQ | TLT.

(** [timing[type]] *)
Definition timing (type : key) : float :=
  match type with
  | RESET => 3000
  | ATTENTION => 800
  | SYNC => 65
  | BIT_CELL => 100
  | BIT_0_LOW => 65
  | BIT_1_LOW => 35
  | STOP => 70
  | STOP_SREQ => 300
  | TLT => 200
  end%float.

(** [timing[type + '_TOL']] *)
Definition timing_TOL (type : key) : float :=
  match type with
  | RESET => 100
  | ATTENTION => 24
  | SYNC => 2
  | BIT_CELL => 30
  | BIT_0_LOW => 5
  | BIT_1_LOW => 5
  | STOP => 21
  | STOP_SREQ => 90
  | TLT => 60
  end%float.

End Timing.

Import Timing(timing, timing_TOL).

(** ** Annotations *)

(** [annotations]: the annotation classes, by index. *)
Definition annotations : list (string * string) :=
  [ ("reset", "Bus reset");                 (* 0 *)
    ("attention", "Attention condition");   (* 1 *)
    ("sync", "Sync condition");             (* 2 *)
    ("start", "Start bit");                 (* 3 *)
    ("stop", "Stop bit");                   (* 4 *)
    ("addr", "Address bit");                (* 5 *)
    ("cmd", "Command bit");                 (* 6 *)
    ("reg", "Register bit");                (* 7 *)
    ("dat", "Data bit");                    (* 8 *)
    ("tlt", "Stop-bit-to-start-bit delay"); (* 9 *)
    ("srq", "Service request");             (* 10 *)
    ("command", "Command");                 (* 11 *)
    ("address", "Device address");          (* 12 *)
    ("register", "Register");               (* 13 *)
    ("data", "Data");                       (* 14 *)
    ("warning", "Warning") ]%string.        (* 15 *)

(** [annotation_rows]: row id, row name, classes shown in the row. *)
Definition annotation_rows : list (string * string * list Z) :=
  [ ("bus", "Bus", [0; 1; 2; 3; 4; 5; 6; 7; 8; 9; 10]);
    ("transactions", "Transactions", [11; 12; 13; 14]);
    ("warnings", "Warnings", [15]) ]%string.

(** The id of the class an annotation index stands for. *)
Definition class_id (idx : Z) : option string :=
  option_map fst (nth_error annotations (Z.to_nat idx)).

(** The id of the row an annotation index is displayed in. *)
Definition row_of (idx : Z) : option string :=
  option_map (fun row => fst (fst row))
    (find (fun row => existsb (Z.eqb idx) (snd row)) annotation_rows).

(** One call [self.put(ss, es, self.out_ann, [idx, texts])]. *)
Record Annotation : Set := mkAnn {
  ann_ss : Z;
  ann_es : Z;
  ann_idx : Z;
  ann_texts : list string
}.

(** ** The sample stream, seen through [self.wait] *)

Inductive Direction : Set := Rising | Falling.

(** An edge of the ADB line: its direction and the sample number at which
    the line has the new level. *)
Record Edge : Set := mkEdge {
  direction : Direction;
  sample_index : Z
}.

(** Modelled from the spec: the EdgeCursor, which is part of the sigrok
    runtime and not of this decoder.  Sample [0] is the starting position;
    an edge sits at every later sample whose level differs from the sample
    before it. *)
Fixpoint edges_from (prev : bool) (pos : Z) (samples : list bool) : list Edge :=
  match samples with
  | [] => []
  | x :: rest =>
      match prev, x with
      | true, false => mkEdge Falling pos :: edges_from x (pos + 1) rest
      | false, true => mkEdge Rising pos :: edges_from x (pos + 1) rest
      | _, _ => edges_from x (pos + 1) rest
      end
  end.

Definition edges_of_samples (samples : list bool) : list Edge :=
  match samples with
  | [] => []
  | x :: rest => edges_from x 1 rest
  end.

(** Modelled from the spec: "advance to next rising/falling edge, returning
    the sample index where it occurred or signaling end-of-stream". *)
Fixpoint next_edge (want : Direction) (ahead : list Edge) : option (Z * list Edge) :=
  match ahead with
  | [] => None
  | e :: rest =>
      match want, direction e with
      | Rising, Rising | Falling, Falling => Some (sample_index e, rest)
      | _, _ => next_edge want rest
      end
  end.

(** A sample stream given by the lengths of its runs of equal level. *)
Fixpoint runs (level : bool) (lengths : list nat) : list bool :=
  match lengths with
  | [] => []
  | n :: rest => repeat level n ++ runs (negb level) rest
  end.

(** ** The decoder object *)

(** [self.state] *)
Inductive State : Set :=
| ATTENTION | SYNC | COMMAND | STOP_CMD | TLT | START_DATA | DATA | STOP_DATA.

(** [self.options['tolerance']] *)
Inductive Tolerance : Set := strict | relaxed.

Inductive Exception : Set :=
| SamplerateError      (* raised by [decode] itself *)
| UnboundLocalError    (* a local of [decode] read before any assignment *)
| ZeroDivisionError    (* [/] by zero *)
| TypeError.           (* arithmetic on [None] *)

(** The attributes of [Decoder] that [decode] touches, then the runtime's
    side ([samplenum], the edges still ahead, the annotations put so far),
    then the two locals of [decode] that live across loop iterations. *)
Record Decoder : Set := mkDecoder {
  options_tolerance : Tolerance;
  samplerate : option Z;
  state : State;
  bit : Z;
  bit_count : Z;
  address : Z;
  command : Z;
  reg : Z;
  data_word : Z;
  fall : Z;
  rise : Z;
  tstart : Z;
  tend : Z;
  sample_addr_start : Z;
  sample_cmd_start : Z;
  sample_reg_start : Z;
  sample_data_start : Z;
  done : bool;
  samplenum : Z;
  ahead : list Edge;
  emitted : list Annotation;
  local_ann_id : option Z;
  local_command : option (list string)
}.

Definition set_samplerate (v : option Z) (d : Decoder) : Decoder :=
  mkDecoder (options_tolerance d) v (state d) (bit d) (bit_count d)
    (address d) (command d) (reg d) (data_word d) (fall d) (rise d)
    (tstart d) (tend d) (sample_addr_start d) (sample_cmd_start d)
    (sample_reg_start d) (sample_data_start d) (done d) (samplenum d)
    (ahead d) (emitted d) (local_ann_id d) (local_command d).

Definition set_state (v : State) (d : Decoder) : Decoder :=
  mkDecoder (options_tolerance d) (samplerate d) v (bit d) (bit_count d)
    (address d) (command d) (reg d) (data_word d) (fall d) (rise d)
    (tstart d) (tend d) (sample_addr_start d) (sample_cmd_start d)
    (sample_reg_start d) (sample_data_start d) (done d) (samplenum d)
    (ahead d) (emitted d) (local_ann_id d) (local_command d).

Definition set_bit (v : Z) (d : Decoder) : Decoder :=
  mkDecoder (options_tolerance d) (samplerate d) (state d) v (bit_count d)
    (address d) (command d) (reg d) (data_word d) (fall d) (rise d)
    (tstart d) (tend d) (sample_addr_start d) (sample_cmd_start d)
    (sample_reg_start d) (sample_data_start d) (done d) (samplenum d)
    (ahead d) (emitted d) (local_ann_id d) (local_command d).

Definition set_bit_count (v : Z) (d : Decoder) : Decoder :=
  mkDecoder (options_tolerance d) (samplerate d) (state d) (bit d) v
    (address d) (command d) (reg d) (data_word d) (fall d) (rise d)
    (tstart d) (tend d) (sample_addr_start d) (sample_cmd_start d)
    (sample_reg_start d) (sample_data_start d) (done d) (samplenum d)
    (ahead d) (emitted d) (local_ann_id d) (local_command d).

Definition set_address (v : Z) (d : Decoder) : Decoder :=
  mkDecoder (options_tolerance d) (samplerate d) (state d) (bit d)
    (bit_count d) v (command d) (reg d) (data_word d) (fall d) (rise d)
    (tstart d) (tend d) (sample_addr_start d) (sample_cmd_start d)
    (sample_reg_start d) (sample_data_start d) (done d) (samplenum d)
    (ahead d) (emitted d) (local_ann_id d) (local_command d).

Definition set_command (v : Z) (d : Decoder) : Decoder :=
  mkDecoder (options_tolerance d) (samplerate d) (state d) (bit d)
    (bit_count d) (address d) v (reg d) (data_word d) (fall d) (rise d)
    (tstart d) (tend d) (sample_addr_start d) (sample_cmd_start d)
    (sample_reg_start d) (sample_data_start d) (done d) (samplenum d)
    (ahead d) (emitted d) (local_ann_id d) (local_command d).

Definition set_reg (v : Z) (d : Decoder) : Decoder :=
  mkDecoder (options_tolerance d) (samplerate d) (state d) (bit d)
    (bit_count d) (address d) (command d) v (data_word d) (fall d) (rise d)
    (tstart d) (tend d) (sample_addr_start d) (sample_cmd_start d)
    (sample_reg_start d) (sample_data_start d) (done d) (samplenum d)
    (ahead d) (emitted d) (local_ann_id d) (local_command d).

Definition set_data_word (v : Z) (d : Decoder) : Decoder :=
  mkDecoder (options_tolerance d) (samplerate d) (state d) (bit d)
    (bit_count d) (address d) (command d) (reg d) v (fall d) (rise d)
    (tstart d) (tend d) (sample_addr_start d) (sample_cmd_start d)
    (sample_reg_start d) (sample_data_start d) (done d) (samplenum d)
    (ahead d) (emitted d) (local_ann_id d) (local_command d).

Definition set_fall (v : Z) (d : Decoder) : Decoder :=
  mkDecoder (options_tolerance d) (samplerate d) (state d) (bit d)
    (bit_count d) (address d) (command d) (reg d) (data_word d) v (rise d)
    (tstart d) (tend d) (sample_addr_start d) (sample_cmd_start d)
    (sample_reg_start d) (sample_data_start d) (done d) (samplenum d)
    (ahead d) (emitted d) (local_ann_id d) (local_command d).

Definition set_rise (v : Z) (d : Decoder) : Decoder :=
  mkDecoder (options_tolerance d) (samplerate d) (state d) (bit d)
    (bit_count d) (address d) (command d) (reg d) (data_word d) (fall d) v
    (tstart d) (tend d) (sample_addr_start d) (sample_cmd_start d)
    (sample_reg_start d) (sample_data_start d) (done d) (samplenum d)
    (ahead d) (emitted d) (local_ann_id d) (local_command d).

Definition set_tstart (v : Z) (d : Decoder) : Decoder :=
  mkDecoder (options_tolerance d) (samplerate d) (state d) (bit d)
    (bit_count d) (address d) (command d) (reg d) (data_word d) (fall d)
    (rise d) v (tend d) (sample_addr_start d) (sample_cmd_start d)
    (sample_reg_start d) (sample_data_start d) (done d) (samplenum d)
    (ahead d) (emitted d) (local_ann_id d) (local_command d).

Definition set_tend (v : Z) (d : Decoder) : Decoder :=
  mkDecoder (options_tolerance d) (samplerate d) (state d) (bit d)
    (bit_count d) (address d) (command d) (reg d) (data_word d) (fall d)
    (rise d) (tstart d) v (sample_addr_start d) (sample_cmd_start d)
    (sample_reg_start d) (sample_data_start d) (done d) (samplenum d)
    (ahead d) (emitted d) (local_ann_id d) (local_command d).

Definition set_sample_addr_start (v : Z) (d : Decoder) : Decoder :=
  mkDecoder (options_tolerance d) (samplerate d) (state d) (bit d)
    (bit_count d) (address d) (command d) (reg d) (data_word d) (fall d)
    (rise d) (tstart d) (tend d) v (sample_cmd_start d) (sample_reg_start d)
    (sample_data_start d) (done d) (samplenum d) (ahead d) (emitted d)
    (local_ann_id d) (local_command d).

Definition set_sample_cmd_start (v : Z) (d : Decoder) : Decoder :=
  mkDecoder (options_tolerance d) (samplerate d) (state d) (bit d)
    (bit_count d) (address d) (command d) (reg d) (data_word d) (fall d)
    (rise d) (tstart d) (tend d) (sample_addr_start d) v (sample_reg_start d)
    (sample_data_start d) (done d) (samplenum d) (ahead d) (emitted d)
    (local_ann_id d) (local_command d).

Definition set_sample_reg_start (v : Z) (d : Decoder) : Decoder :=
  mkDecoder (options_tolerance d) (samplerate d) (state d) (bit d)
    (bit_count d) (address d) (command d) (reg d) (data_word d) (fall d)
    (rise d) (tstart d) (tend d) (sample_addr_start d) (sample_cmd_start d) v
    (sample_data_start d) (done d) (samplenum d) (ahead d) (emitted d)
    (local_ann_id d) (local_command d).

Definition set_sample_data_start (v : Z) (d : Decoder) : Decoder :=
  mkDecoder (options_tolerance d) (samplerate d) (state d) (bit d)
    (bit_count d) (address d) (command d) (reg d) (data_word d) (fall d)
    (rise d) (tstart d) (tend d) (sample_addr_start d) (sample_cmd_start d)
    (sample_reg_start d) v (done d) (samplenum d) (ahead d) (emitted d)
    (local_ann_id d) (local_command d).

Definition set_done (v : bool) (d : Decoder) : Decoder :=
  mkDecoder (options_tolerance d) (samplerate d) (state d) (bit d)
    (bit_count d) (address d) (command d) (reg d) (data_word d) (fall d)
    (rise d) (tstart d) (tend d) (sample_addr_start d) (sample_cmd_start d)
    (sample_reg_start d) (sample_data_start d) v (samplenum d) (ahead d)
    (emitted d) (local_ann_id d) (local_command d).

Definition set_emitted (v : list Annotation) (d : Decoder) : Decoder :=
  mkDecoder (options_tolerance d) (samplerate d) (state d) (bit d)
    (bit_count d) (address d) (command d) (reg d) (data_word d) (fall d)
    (rise d) (tstart d) (tend d) (sample_addr_start d) (sample_cmd_start d)
    (sample_reg_start d) (sample_data_start d) (done d) (samplenum d)
    (ahead d) v (local_ann_id d) (local_command d).

Definition set_local_ann_id (v : option Z) (d : Decoder) : Decoder :=
  mkDecoder (options_tolerance d) (samplerate d) (state d) (bit d)
    (bit_count d) (address d) (command d) (reg d) (data_word d) (fall d)
    (rise d) (tstart d) (tend d) (sample_addr_start d) (sample_cmd_start d)
    (sample_reg_start d) (sample_data_start d) (done d) (samplenum d)
    (ahead d) (emitted d) v (local_command d).

Definition set_local_command (v : option (list string)) (d : Decoder) : Decoder :=
  mkDecoder (options_tolerance d) (samplerate d) (state d) (bit d)
    (bit_count d) (address d) (command d) (reg d) (data_word d) (fall d)
    (rise d) (tstart d) (tend d) (sample_addr_start d) (sample_cmd_start d)
    (sample_reg_start d) (sample_data_start d) (done d) (samplenum d)
    (ahead d) (emitted d) (local_ann_id d) v.

Definition set_cursor (n : Z) (rest : list Edge) (d : Decoder) : Decoder :=
  mkDecoder (options_tolerance d) (samplerate d) (state d) (bit d)
    (bit_count d) (address d) (command d) (reg d) (data_word d) (fall d)
    (rise d) (tstart d) (tend d) (sample_addr_start d) (sample_cmd_start d)
    (sample_reg_start d) (sample_data_start d) (done d) n rest (emitted d)
    (local_ann_id d) (local_command d).

(** ** The monad of [decode]: decoder state, exceptions, end of stream *)

Inductive Outcome (A : Type) : Type :=
| Return (a : A) (d : Decoder)
| EndOfStream (d : Decoder)            (* [self.wait] found no further edge *)
| Raised (e : Exception) (d : Decoder) (* an exception left [decode] *)
| OutOfFuel (d : Decoder).             (* a loop bound of the model was hit *)

Arguments Return {A} a d.
Arguments EndOfStream {A} d.
Arguments Raised {A} e d.
Arguments OutOfFuel {A} d.

Definition M (A : Type) : Type := Decoder -> Outcome A.

Definition ret {A} (a : A) : M A := fun d => Return a d.

Definition bind {A B} (c : M A) (k : A -> M B) : M B :=
  fun d =>
    match c d with
    | Return a d' => k a d'
    | EndOfStream d' => EndOfStream d'
    | Raised e d' => Raised e d'
    | OutOfFuel d' => OutOfFuel d'
    end.

Definition raise {A} (e : Exception) : M A := fun d => Raised e d.
Definition get {A} (field : Decoder -> A) : M A := fun d => Return (field d) d.
Definition assign (upd : Decoder -> Decoder) : M unit := fun d => Return tt (upd d).

Declare Scope decode_scope.
Delimit Scope decode_scope with decode.
Notation "x <- c ;; k" := (bind c (fun x => k))
  (at level 61, c at next level, right associativity) : decode_scope.
Notation "c ;; k" := (bind c (fun _ => k))
  (at level 61, right associativity) : decode_scope.
#[local] Open Scope decode_scope.

(** [while cond: body], with a bound on the number of iterations. *)
Fixpoint while (fuel : nat) (cond : Decoder -> bool) (body : M unit) : M unit :=
  fun d =>
    match fuel with
    | O => OutOfFuel d
    | S fuel' =>
        if cond d then (body ;; while fuel' cond body) d else Return tt d
    end.

(** The final decoder object, whichever way the run ended. *)
Definition final {A} (o : Outcome A) : Decoder :=
  match o with
  | Return _ d | EndOfStream d | Raised _ d | OutOfFuel d => d
  end.

(** Reading a local of [decode] that may not have been assigned yet. *)
Definition read_local {A} (var : Decoder -> option A) : M A :=
  fun d =>
    match var d with
    | Some v => Return v d
    | None => Raised UnboundLocalError d
    end.

(** Reading [self.samplerate] as a number. *)
Definition read_samplerate : M Z :=
  fun d =>
    match samplerate d with
    | Some v => Return v d
    | None => Raised TypeError d
    end.

(** [x / y] on floats. *)
Definition float_div (x y : float) : Exception + float :=
  if (y =? 0)%float then inl ZeroDivisionError else inr (x / y)%float.

(** A computation that touches no attribute: its value, or its exception. *)
Definition lift {A} (r : Exception + A) : M A :=
  fun d =>
    match r with
    | inl e => Raised e d
    | inr a => Return a d
    end.

(** [((b - a) / samplerate) * 1000000.0] once the sample rate is known. *)
Definition interval_us (delta sr : Z) : float :=
  (float_of_int delta / float_of_int sr * 1000000)%float.

(** [((b - a) / self.samplerate) * 1000000.0] *)
Definition elapsed_us (a b : Z) : M float :=
  sr <- read_samplerate ;;
  if sr =? 0 then raise ZeroDivisionError else ret (interval_us (b - a) sr).

(** [self.wait({0: 'r'})], [self.wait({0: 'f'})] *)
Definition wait (want : Direction) : M unit :=
  fun d =>
    match next_edge want (ahead d) with
    | Some (n, rest) => Return tt (set_cursor n rest d)
    | None => EndOfStream d
    end.

(** [self.put(ss, es, self.out_ann, data)] *)
Definition put (ss es : Z) (data : Z * list string) : M unit :=
  assign (fun d => set_emitted (emitted d ++ [mkAnn ss es (fst data) (snd data)]) d).

Definition putm (data : Z * list string) : M unit :=
  put 0 0 data.

Definition putfs (data : Z * list string) : M unit :=
  ss <- get fall ;; es <- get samplenum ;; put ss es data.

Definition putfr (data : Z * list string) : M unit :=
  ss <- get fall ;; es <- get rise ;; put ss es data.

Definition putrs (data : Z * list string) : M unit :=
  ss <- get rise ;; es <- get samplenum ;; put ss es data.

(** ** [checks] and [check_tolerance] *)

Definition checks : M unit :=
  sr <- read_samplerate ;;
  if sr <? 400000 then
    putm (1, ["Sampling rate is too low. Must be above " ++
              "400kHz for proper normal mode decoding."]%string)
  else if sr <? 1000000 then
    putm (1, ["Sampling rate is suggested to be above " ++
              "1MHz for proper normal mode decoding."]%string)
  else ret tt.

Definition check_tolerance (opt : Tolerance) (width : float) (type : Timing.key) : bool :=
  let tolerance :=
    match opt with
    | strict => timing_TOL type
    | relaxed => (timing_TOL type * 1.1)%float
    end in
  ((timing type - tolerance <=? width) && (width <=? timing type + tolerance))%float.

(** ** Bit cells *)

Inductive BitClass : Set := Zero | One | Malformed.

(** The three-way test on a bit cell that the COMMAND and DATA loops both
    make: [(bit_low / bit_cell) > 0.6], else [(bit_high / bit_cell) > 0.6],
    else neither. *)
Definition classify_bit (bit_low bit_high : float) : Exception + BitClass :=
  let bit_cell := (bit_low + bit_high)%float in
  match float_div bit_low bit_cell with
  | inl e => inl e
  | inr lo =>
      if (0.6 <? lo)%float then inr Zero
      else
        match float_div bit_high bit_cell with
        | inl e => inl e
        | inr hi => if (0.6 <? hi)%float then inr One else inr Malformed
        end
  end.

(** The edges of one bit cell, falling - rising - falling, starting at the
    falling edge the cursor is on; returns [(bit_low, bit_high)]. *)
Definition read_bit_cell : M (float * float) :=
  bit_start <- get samplenum ;;
  assign (set_fall bit_start) ;;
  wait Rising ;;
  bit_mid <- get samplenum ;;
  assign (set_rise bit_mid) ;;
  wait Falling ;;
  bit_end <- get samplenum ;;
  bit_low <- elapsed_us bit_start bit_mid ;;
  bit_high <- elapsed_us bit_mid bit_end ;;
  ret (bit_low, bit_high).

(** ** The states of [decode] *)

Definition ATTENTION_state : M unit :=
  assign (set_address 0) ;;
  assign (set_command 0) ;;
  assign (set_reg 0) ;;
  assign (set_data_word 0) ;;
  assign (set_bit_count 0) ;;
  dn <- get done ;;
  (if negb dn then
     wait Falling ;;
     sn <- get samplenum ;;
     assign (set_fall sn)
   else ret tt) ;;
  wait Rising ;;
  sn <- get samplenum ;;
  assign (set_rise sn) ;;
  fl <- get fall ;;
  time <- elapsed_us fl sn ;;
  (if (timing Timing.ATTENTION - timing_TOL Timing.ATTENTION <=? time)%float then
     putfs (1, ["Bus Attention"; "Attention"; "ATTN"; "A"]%string) ;;
     assign (set_state SYNC) ;;
     sn' <- get samplenum ;;
     assign (set_tstart sn')
   else ret tt) ;;
  assign (set_done false).

Definition SYNC_state : M unit :=
  wait Falling ;;
  sn <- get samplenum ;;
  assign (set_fall sn) ;;
  ri <- get rise ;;
  time <- elapsed_us ri sn ;;
  opt <- get options_tolerance ;;
  if check_tolerance opt time Timing.SYNC then
    putrs (2, ["Sync"; "SS"]%string) ;;
    assign (set_state COMMAND)
  else
    assign (set_state ATTENTION).

(** One pass of [while self.bit_count < 8]. *)
Definition COMMAND_bit : M unit :=
  bc <- get bit_count ;;
  sn <- get samplenum ;;
  (if bc =? 0 then
     assign (set_local_ann_id (Some 5)) ;;
     assign (set_sample_addr_start sn)
   else if bc =? 4 then
     assign (set_local_ann_id (Some 6)) ;;
     assign (set_sample_cmd_start sn) ;;
     ss <- get sample_addr_start ;;
     a <- get address ;;
     put ss sn (12, ["Address: " ++ hex a]%string)
   else if bc =? 6 then
     assign (set_local_ann_id (Some 7)) ;;
     assign (set_sample_reg_start sn) ;;
     c <- get command ;;
     (if c =? 0 then
        assign (set_local_command (Some ["Flush"; "Flsh"; "Fl"; "F"]%string))
      else if c =? 2 then
        assign (set_local_command (Some ["Listen"; "Lst"; "L"]%string))
      else if c =? 3 then
        assign (set_local_command (Some ["Talk"; "Tlk"; "T"]%string))
      else ret tt) ;;
     ss <- get sample_cmd_start ;;
     label <- read_local local_command ;;
     put ss sn (11, label)
   else ret tt) ;;
  cell <- read_bit_cell ;;
  cls <- lift (classify_bit (fst cell) (snd cell)) ;;
  match cls with
  | Zero =>
      assign (set_bit 0) ;;
      ann_id <- read_local local_ann_id ;;
      b <- get bit ;;
      putfs (ann_id, [str b])
  | One =>
      assign (set_bit 1) ;;
      ann_id <- read_local local_ann_id ;;
      b <- get bit ;;
      putfs (ann_id, [str b])
  | Malformed =>
      assign (set_state ATTENTION)
  end ;;
  sn' <- get samplenum ;;
  assign (set_fall sn') ;;
  b <- get bit ;;
  (if bc <? 4 then
     a <- get address ;;
     assign (set_address (a + Z.shiftl b (3 - bc)))
   else if bc <? 6 then
     c <- get command ;;
     assign (set_command (c + Z.shiftl b (5 - bc)))
   else if bc <? 8 then
     rg <- get reg ;;
     assign (set_reg (rg + Z.shiftl b (7 - bc)))
   else ret tt) ;;
  assign (set_bit_count (bc + 1)).

Definition COMMAND_state : M unit :=
  assign (set_bit_count 0) ;;
  while 9 (fun d => bit_count d <? 8) COMMAND_bit ;;
  ss <- get sample_reg_start ;;
  sn <- get samplenum ;;
  rg <- get reg ;;
  put ss sn (13, ["Register: " ++ hex rg]%string) ;;
  assign (set_state STOP_CMD).

Definition STOP_CMD_state : M unit :=
  wait Rising ;;
  sn <- get samplenum ;;
  assign (set_rise sn) ;;
  fl <- get fall ;;
  time <- elapsed_us fl sn ;;
  opt <- get options_tolerance ;;
  if check_tolerance opt time Timing.STOP then
    putfs (4, ["STOP"; "ST"]%string) ;;
    assign (set_state TLT)
  else if check_tolerance opt time Timing.STOP_SREQ then
    putfs (10, ["Service Request"; "SREQ"; "SR"]%string) ;;
    assign (set_state TLT)
  else
    assign (set_state ATTENTION).

Definition TLT_state : M unit :=
  wait Falling ;;
  sn <- get samplenum ;;
  assign (set_fall sn) ;;
  ri <- get rise ;;
  time <- elapsed_us ri sn ;;
  opt <- get options_tolerance ;;
  if check_tolerance opt time Timing.TLT then
    putrs (9, ["Stop-to-Start"; "TLT"]%string) ;;
    assign (set_state START_DATA)
  else
    assign (set_state ATTENTION) ;;
    assign (set_done true).

Definition START_DATA_state : M unit :=
  cell <- read_bit_cell ;;
  let bit_cell := (fst cell + snd cell)%float in
  hi <- lift (float_div (snd cell) bit_cell) ;;
  (if (0.6 <? hi)%float then
     assign (set_state DATA) ;;
     putfs (3, ["Start"; "St"]%string)
   else
     assign (set_state ATTENTION)) ;;
  sn <- get samplenum ;;
  assign (set_fall sn).

(** One pass of [while self.bit_count < 16]. *)
Definition DATA_bit : M unit :=
  cell <- read_bit_cell ;;
  cls <- lift (classify_bit (fst cell) (snd cell)) ;;
  match cls with
  | Zero =>
      assign (set_bit 0) ;;
      bc <- get bit_count ;;
      assign (set_bit_count (bc + 1)) ;;
      b <- get bit ;;
      putfs (8, [str b])
  | One =>
      assign (set_bit 1) ;;
      bc <- get bit_count ;;
      assign (set_bit_count (bc + 1)) ;;
      b <- get bit ;;
      putfs (8, [str b])
  | Malformed =>
      assign (set_state ATTENTION)
  end ;;
  dw <- get data_word ;;
  b <- get bit ;;
  bc <- get bit_count ;;
  assign (set_data_word (dw + Z.shiftl b (16 - bc))) ;;
  sn <- get samplenum ;;
  assign (set_fall sn).

Definition DATA_state : M unit :=
  assign (set_bit_count 0) ;;
  sn <- get samplenum ;;
  assign (set_sample_data_start sn) ;;
  ah <- get ahead ;;
  while (S (List.length ah)) (fun d => bit_count d <? 16) DATA_bit ;;
  ss <- get sample_data_start ;;
  sn' <- get samplenum ;;
  dw <- get data_word ;;
  put ss sn' (14, ["Data: 0x" ++ format_04x dw]%string) ;;
  assign (set_state STOP_DATA).

Definition STOP_DATA_state : M unit :=
  wait Rising ;;
  sn <- get samplenum ;;
  assign (set_rise sn) ;;
  fl <- get fall ;;
  time <- elapsed_us fl sn ;;
  opt <- get options_tolerance ;;
  (if check_tolerance opt time Timing.STOP then
     putfs (4, ["STOP"; "ST"]%string)
   else if check_tolerance opt time Timing.STOP_SREQ then
     putfs (10, ["Service Request"; "SREQ"; "SR"]%string)
   else
     assign (set_state ATTENTION)) ;;
  assign (set_state ATTENTION).

(** One pass of [while True]. *)
Definition state_machine : M unit :=
  st <- get state ;;
  match st with
  | ATTENTION => ATTENTION_state
  | SYNC => SYNC_state
  | COMMAND => COMMAND_state
  | STOP_CMD => STOP_CMD_state
  | TLT => TLT_state
  | START_DATA => START_DATA_state
  | DATA => DATA_state
  | STOP_DATA => STOP_DATA_state
  end.

(** [not self.samplerate] *)
Definition not_samplerate (d : Decoder) : bool :=
  match samplerate d with
  | None => true
  | Some v => v =? 0
  end.

(** [decode].  Every pass of [while True] that returns has moved the cursor
    over at least one edge, so one pass more than there are edges ahead is
    enough for the loop; the same holds of the DATA loop, and the COMMAND
    loop counts to 8 (all proved below). *)
Definition decode : M unit :=
  fun d =>
    if not_samplerate d then Raised SamplerateError d
    else (checks ;; while (S (List.length (ahead d))) (fun _ => true) state_machine) d.

(** ** [reset], [start], [metadata] *)

(** [__init__]: a fresh object after [reset], with the option chosen by the
    frontend and the edges of the capture ahead of it. *)
Definition reset (opt : Tolerance) (edges : list Edge) : Decoder :=
  {| options_tolerance := opt;
     samplerate := None;
     state := ATTENTION;
     bit := 0;
     bit_count := -1;
     address := 0;
     command := 0;
     reg := 0;
     data_word := 0;
     fall := 0;
     rise := 0;
     tstart := 0;
     tend := 0;
     sample_addr_start := 0;
     sample_cmd_start := 0;
     sample_reg_start := 0;
     sample_data_start := 0;
     done := false;
     samplenum := 0;
     ahead := edges;
     emitted := [];
     local_ann_id := None;
     local_command := None |}.

Definition start (d : Decoder) : Decoder :=
  set_done false
   (set_sample_data_start 0 (set_sample_reg_start 0 (set_sample_cmd_start 0
   (set_sample_addr_start 0 (set_tend 0 (set_tstart 0 (set_rise 0 (set_fall 0
   (set_data_word 0 (set_reg 0 (set_command 0 (set_address 0
   (set_bit_count (-1) (set_bit 0 d)))))))))))))).

(** [srd.SRD_CONF_SAMPLERATE] *)
Definition SRD_CONF_SAMPLERATE : Z := 10000.

Definition metadata (key : Z) (value : Z) (d : Decoder) : Decoder :=
  if negb (key =? SRD_CONF_SAMPLERATE) then d else set_samplerate (Some value) d.

(** A whole session: construct, announce the sample rate (or not), start,
    decode. *)
Definition session (opt : Tolerance) (sr : option Z) (edges : list Edge) : Outcome unit :=
  let d0 := reset opt edges in
  let d1 := match sr with
            | Some v => metadata SRD_CONF_SAMPLERATE v d0
            | None => d0
            end in
  decode (start d1).

(** ** Captures *)

(** The edges of a line that alternates, starting with an edge to [level]
    at sample [pos], each level held for the given number of samples. *)
Fixpoint run_edges (level : bool) (pos : Z) (lengths : list nat) : list Edge :=
  match lengths with
  | [] => []
  | n :: rest =>
      mkEdge (if level then Rising else Falling) pos
        :: run_edges (negb level) (pos + Z.of_nat n) rest
  end.

(** One transaction on the wire, every duration in samples; a bit cell is
    its low time and its high time. *)
Record Transaction : Set := mkTransaction {
  t_attention : nat;
  t_sync : nat;
  t_command : list (nat * nat);
  t_stop : nat;
  t_tlt : nat;
  t_start : nat * nat;
  t_data : list (nat * nat);
  t_stop_data : nat
}.

Definition cell_runs (cells : list (nat * nat)) : list nat :=
  flat_map (fun c => [fst c; snd c]) cells.

(** The runs of a transaction, the first one low. *)
Definition transaction_runs (t : Transaction) : list nat :=
  [t_attention t; t_sync t] ++ cell_runs (t_command t)
    ++ [t_stop t; t_tlt t] ++ cell_runs [t_start t]
    ++ cell_runs (t_data t) ++ [t_stop_data t].

(** A capture: the line idle (high), one transaction, the line idle again. *)
Definition capture (idle : nat) (t : Transaction) (trailing : nat) : list bool :=
  runs true (idle :: transaction_runs t ++ [trailing]).

(** The nominal bit cell at 1 MHz: 100 us, 65 % low for a zero and 65 % high
    for a one. *)
Definition nominal_cell (b : bool) : nat * nat :=
  if b then (35, 65)%nat else (65, 35)%nat.

(** The transaction of the spec at 1 MHz: Attention 800 us, Sync 65 us,
    Stop 70 us, Tlt 200 us, nominal bit cells. *)
Definition nominal_transaction (cmd data : list bool) : Transaction :=
  {| t_attention := 800;
     t_sync := 65;
     t_command := map nominal_cell cmd;
     t_stop := 70;
     t_tlt := 200;
     t_start := nominal_cell true;
     t_data := map nominal_cell data;
     t_stop_data := 70 |}.

(** The [width] low bits of [z], most significant first. *)
Fixpoint bits_of (width : nat) (z : Z) : list bool :=
  match width with
  | O => []
  | S w => Z.testbit z (Z.of_nat w) :: bits_of w z
  end.

(** The number a list of bits spells, most significant first. *)
Definition msb_first (bits : list bool) : Z :=
  fold_left (fun acc (b : bool) => 2 * acc + (if b then 1 else 0)) bits 0.

(** What an annotation says, without its span. *)
Definition event (a : Annotation) : Z * list string :=
  (ann_idx a, ann_texts a).

(** The per-bit classes: address, command, register and data bits. *)
Definition is_bit_class (idx : Z) : bool :=
  (5 <=? idx) && (idx <=? 8).

(** The annotations above bit level. *)
Definition field_events (out : list Annotation) : list (Z * list string) :=
  map event (filter (fun a => negb (is_bit_class (ann_idx a))) out).

(** ** Stating the properties: texts, windows, cells *)

(** The two messages of [checks]. *)
Definition too_low_text : string :=
  "Sampling rate is too low. Must be above 400kHz for proper normal mode decoding.".

Definition suggested_text : string :=
  "Sampling rate is suggested to be above 1MHz for proper normal mode decoding.".

(** [x <= y] on Python floats, as a proposition. *)
Definition float_le (x y : float) : Prop := (x <=? y)%float = true.

(** [x > y] on Python floats, as a proposition. *)
Definition float_gt (x y : float) : Prop := (y <? x)%float = true.

(** The spec's tolerance of a window under a profile: as given under
    strict, times 1.1 under relaxed. *)
Definition window_tolerance (profile : Tolerance) (window_name : Timing.key) : float :=
  match profile with
  | strict => timing_TOL window_name
  | relaxed => (timing_TOL window_name * 1.1)%float
  end.

(** The spec's [in_window]: [nominal - tol <= w <= nominal + tol]. *)
Definition in_window (width_us : float) (window_name : Timing.key) (profile : Tolerance) : Prop :=
  float_le (timing window_name - window_tolerance profile window_name) width_us /\
  float_le width_us (timing window_name + window_tolerance profile window_name).

(** The test of the claim on a measured cell of [lo] low and [hi] high
    samples: the cell is a One exactly when its high ratio exceeds 0.6. *)
Definition one_iff_high_ratio (sr : Z) (lo hi : nat) : bool :=
  let l := interval_us (Z.of_nat lo) sr in
  let h := interval_us (Z.of_nat hi) sr in
  match classify_bit l h with
  | inr One => (0.6 <? h / (l + h))%float
  | inr _ => negb (0.6 <? h / (l + h))%float
  | inl _ => false
  end.

(** A test on every cell whose two halves are between 1 and [n] samples. *)
Definition cells_upto (n : nat) (test : nat -> nat -> bool) : bool :=
  forallb (fun lo => forallb (test lo) (seq 1 n)) (seq 1 n).

(** ** Stating the properties: the ATTENTION state *)

(** The low pulse the ATTENTION state measures: from the next falling edge,
    or from [self.fall] when [self.done] is set, to the rising edge after
    it; with the edges left ahead. *)
Definition attention_pulse (d : Decoder) : option (Z * Z * list Edge) :=
  if done d then
    match next_edge Rising (ahead d) with
    | Some (r, rest) => Some (fall d, r, rest)
    | None => None
    end
  else
    match next_edge Falling (ahead d) with
    | Some (f, ahead') =>
        match next_edge Rising ahead' with
        | Some (r, rest) => Some (f, r, rest)
        | None => None
        end
    | None => None
    end.

(** The texts put with the framing annotations. *)
Definition attention_texts : list string :=
  ["Bus Attention"; "Attention"; "ATTN"; "A"]%string.

(** The accumulators as the ATTENTION state clears them. *)
Definition cleared (d : Decoder) : Decoder :=
  set_bit_count 0 (set_data_word 0 (set_reg 0 (set_command 0 (set_address 0 d)))).

Definition sync_texts : list string := ["Sync"; "SS"]%string.
Definition stop_texts : list string := ["STOP"; "ST"]%string.
Definition tlt_texts : list string := ["Stop-to-Start"; "TLT"]%string.
Definition start_texts : list string := ["Start"; "St"]%string.

(** ** Stating the properties: the captures used as examples *)

(** [l] with its element number [n] replaced by [x]. *)
Fixpoint replace_nth {A} (n : nat) (x : A) (l : list A) : list A :=
  match l, n with
  | [], _ => []
  | _ :: rest, O => x :: rest
  | y :: rest, S k => y :: replace_nth k x rest
  end.

(** Address 5, Talk, register 0, data 0x1234, nominal timing. *)
Definition talk_transaction : Transaction :=
  nominal_transaction (bits_of 8 0x5C) (bits_of 16 0x1234).

(** The same with the third command cell 50 us low, 50 us high. *)
Definition malformed_command_transaction : Transaction :=
  {| t_attention := 800; t_sync := 65;
     t_command := replace_nth 2 (50, 50)%nat (t_command talk_transaction);
     t_stop := 70; t_tlt := 200; t_start := nominal_cell true;
     t_data := t_data talk_transaction; t_stop_data := 70 |}.

(** The same with the tenth data cell 50 us low, 50 us high. *)
Definition malformed_data_transaction : Transaction :=
  {| t_attention := 800; t_sync := 65;
     t_command := t_command talk_transaction;
     t_stop := 70; t_tlt := 200; t_start := nominal_cell true;
     t_data := replace_nth 9 (50, 50)%nat (t_data talk_transaction);
     t_stop_data := 70 |}.

(** Address 5, command bits 01, register 0, data 0x1234. *)
Definition command_one_transaction : Transaction :=
  nominal_transaction (bits_of 8 0x54) (bits_of 16 0x1234).

(** Address 5, Listen, register 0, data 0x1234. *)
Definition listen_transaction : Transaction :=
  nominal_transaction (bits_of 8 0x58) (bits_of 16 0x1234).

(** Two transactions with the line idle before, between and after. *)
Definition capture2 (idle : nat) (t1 : Transaction) (gap : nat) (t2 : Transaction)
    (trailing : nat) : list bool :=
  runs true (idle :: transaction_runs t1 ++ [gap] ++ transaction_runs t2 ++ [trailing]).

(** ** Stating the properties: what a well-formed transaction puts *)

(** The integer and the class a well-formed bit stands for. *)
Definition bit_value (b : bool) : Z := if b then 1 else 0.
Definition class_of (b : bool) : BitClass := if b then One else Zero.

(** The cell is read as the bit [b] at sample rate [sr]. *)
Definition reads (sr : Z) (cell : nat * nat) (b : bool) : Prop :=
  classify_bit (interval_us (Z.of_nat (fst cell)) sr) (interval_us (Z.of_nat (snd cell)) sr)
  = inr (class_of b).

(** The sample at which the last of [cells] ends when the first starts at
    [pos]. *)
Fixpoint cells_end (pos : Z) (cells : list (nat * nat)) : Z :=
  match cells with
  | [] => pos
  | c :: rest => cells_end (pos + Z.of_nat (fst c) + Z.of_nat (snd c)) rest
  end.

(** The per-bit annotations of class [idx] for cells starting at [pos]. *)
Fixpoint bit_annotations (idx : Z) (pos : Z) (cells : list (nat * nat)) (bits : list bool)
    : list Annotation :=
  match cells, bits with
  | c :: cells', b :: bits' =>
      let pos' := pos + Z.of_nat (fst c) + Z.of_nat (snd c) in
      mkAnn pos pos' idx [str (bit_value b)] :: bit_annotations idx pos' cells' bits'
  | _, _ => []
  end.

(** The texts put with the field annotations. *)
Definition data_text (data : Z) : list string := ["Data: 0x" ++ format_04x data]%string.

(** The label the decoder has for a command value; none for 1. *)
Definition command_label (c : Z) : option (list string) :=
  if c =? 0 then Some ["Flush"; "Flsh"; "Fl"; "F"]%string
  else if c =? 2 then Some ["Listen"; "Lst"; "L"]%string
  else if c =? 3 then Some ["Talk"; "Tlk"; "T"]%string
  else None.

Definition address_text (a : Z) : list string := ["Address: " ++ hex a]%string.
Definition register_text (r : Z) : list string := ["Register: " ++ hex r]%string.

(** The annotations of a well-formed command byte that starts at [pos]. *)
Definition COMMAND_annotations (pos : Z) (cells : list (nat * nat)) (bits : list bool)
    (label : list string) : list Annotation :=
  let p4 := cells_end pos (firstn 4 cells) in
  let p6 := cells_end pos (firstn 6 cells) in
  let p8 := cells_end pos cells in
  bit_annotations 5 pos (firstn 4 cells) (firstn 4 bits)
    ++ [mkAnn pos p4 12 (address_text (msb_first (firstn 4 bits)))]
    ++ bit_annotations 6 p4 (firstn 2 (skipn 4 cells)) (firstn 2 (skipn 4 bits))
    ++ [mkAnn p4 p6 11 label]
    ++ bit_annotations 7 p6 (skipn 6 cells) (skipn 6 bits)
    ++ [mkAnn p6 p8 13 (register_text (msb_first (skipn 6 bits)))].

(** The decoder's own conditions on the timing of a transaction that
    carries the command bits [cmd] and the data bits [data]. *)
Definition well_timed (opt : Tolerance) (sr : Z) (t : Transaction)
    (cmd data : list bool) : Prop :=
  (timing Timing.ATTENTION - timing_TOL Timing.ATTENTION
     <=? interval_us (Z.of_nat (t_attention t)) sr)%float = true /\
  check_tolerance opt (interval_us (Z.of_nat (t_sync t)) sr) Timing.SYNC = true /\
  Forall2 (reads sr) (t_command t) cmd /\
  check_tolerance opt (interval_us (Z.of_nat (t_stop t)) sr) Timing.STOP = true /\
  check_tolerance opt (interval_us (Z.of_nat (t_tlt t)) sr) Timing.TLT = true /\
  reads sr (t_start t) true /\
  Forall2 (reads sr) (t_data t) data /\
  check_tolerance opt (interval_us (Z.of_nat (t_stop_data t)) sr) Timing.STOP = true.

(** What [checks] puts for a sample rate. *)
Definition samplerate_warnings (sr : Z) : list Annotation :=
  if sr <? 400000 then [mkAnn 0 0 1 [too_low_text]]
  else if sr <? 1000000 then [mkAnn 0 0 1 [suggested_text]]
  else [].

(** The annotations of a well-formed transaction whose attention pulse
    starts at sample [p0]. *)
Definition transaction_annotations (p0 : Z) (t : Transaction) (cmd data : list bool)
    (label : list string) : list Annotation :=
  let p1 := p0 + Z.of_nat (t_attention t) in
  let p2 := p1 + Z.of_nat (t_sync t) in
  let p3 := cells_end p2 (t_command t) in
  let p4 := p3 + Z.of_nat (t_stop t) in
  let p5 := p4 + Z.of_nat (t_tlt t) in
  let p6 := p5 + Z.of_nat (fst (t_start t)) + Z.of_nat (snd (t_start t)) in
  let p7 := cells_end p6 (t_data t) in
  let p8 := p7 + Z.of_nat (t_stop_data t) in
  [mkAnn p0 p1 1 attention_texts; mkAnn p1 p2 2 sync_texts]
    ++ COMMAND_annotations p2 (t_command t) cmd label
    ++ [mkAnn p3 p4 4 stop_texts; mkAnn p4 p5 9 tlt_texts; mkAnn p5 p6 3 start_texts]
    ++ bit_annotations 8 p6 (t_data t) data
    ++ [mkAnn p6 p7 14 (data_text (msb_first data)); mkAnn p7 p8 4 stop_texts].

(** The ten events of a transaction, as the spec lists them. *)
Definition ten_events (addr : Z) (label : list string) (rg data : Z)
    : list (Z * list string) :=
  [ (1, attention_texts); (2, sync_texts); (12, address_text addr); (11, label);
    (13, register_text rg); (4, stop_texts); (9, tlt_texts); (3, start_texts);
    (14, data_text data); (4, stop_texts) ].

(** The decoder where a nominal transaction at 1 MHz has brought it when the
    state named is entered: the cells of the field are ahead, then a stop
    bit and the idle line. *)
Definition entering (st : State) (bits : list bool) : Decoder :=
  set_state st
    (set_cursor 875
       (tl (run_edges false 875 (cell_runs (map nominal_cell bits) ++ [70; 50]%nat)))
       (start (metadata SRD_CONF_SAMPLERATE 1000000 (reset strict [])))).

(** ** Stating the properties: runs that end *)

(** The number of edges still ahead of the cursor. *)
Definition remaining (d : Decoder) : nat := List.length (ahead d).

(** Started in [d], the computation [c] does not hit a loop bound of the
    model, and [Q] holds of its value and of the decoder if it returns. *)
Definition wp {A} (c : M A) (Q : A -> Decoder -> Prop) (d : Decoder) : Prop :=
  match c d with
  | Return a d' => Q a d'
  | OutOfFuel _ => False
  | _ => True
  end.

(** ** Stating the properties: whole runs *)

(** What holds of a computation started in [d], whichever way it ends: [Q]
    if it returns, [E] if it raises, [S] if the stream ends; a loop bound of
    the model is not hit. *)
Definition post {A} (c : M A) (Q : A -> Decoder -> Prop)
    (E : Exception -> Decoder -> Prop) (S : Decoder -> Prop) (d : Decoder) : Prop :=
  match c d with
  | Return a d' => Q a d'
  | EndOfStream d' => S d'
  | Raised e d' => E e d'
  | OutOfFuel _ => False
  end.

(** The bits still to count in the COMMAND loop. *)
Definition command_bits_left (d : Decoder) : nat := Z.to_nat (8 - bit_count d).

(** What a run leaves alone. *)
Definition unchanged (d0 d : Decoder) : Prop :=
  samplerate d = samplerate d0 /\
  options_tolerance d = options_tolerance d0 /\
  (exists more, emitted d = emitted d0 ++ more) /\
  (exists gone, ahead d0 = gone ++ ahead d).

(** The states a pass of the state machine can lead to. *)
Definition successors (s : State) : list State :=
  match s with
  | ATTENTION => [SYNC; ATTENTION]
  | SYNC => [COMMAND; ATTENTION]
  | COMMAND => [STOP_CMD]
  | STOP_CMD => [TLT; ATTENTION]
  | TLT => [START_DATA; ATTENTION]
  | START_DATA => [DATA; ATTENTION]
  | DATA => [STOP_DATA]
  | STOP_DATA => [ATTENTION]
  end.

(** [self.done] after a pass from [s] to [s']. *)
Definition done_after (s s' : State) (dn : bool) : bool :=
  match s, s' with
  | ATTENTION, _ => false
  | TLT, ATTENTION => true
  | _, _ => dn
  end.

(** No condition on the exception raised, or on the decoder at the end of
    the stream. *)
Definition anything (e : Exception) (d : Decoder) : Prop := True.
Definition anywhere (d : Decoder) : Prop := True.

(** The exceptions that can leave [decode] once the sample rate is known:
    a division by zero, or the local [command] read before any assignment,
    which happens at the Command annotation (bit 6) for a command value
    other than 0, 2 and 3. *)
Definition raise_ok (e : Exception) (d : Decoder) : Prop :=
  e = ZeroDivisionError \/
  (e = UnboundLocalError /\ bit_count d = 6 /\ local_command d = None /\
   ~ In (command d) [0; 2; 3]).

(** Between the passes of the COMMAND loop: [ann_id] is assigned once a bit
    was counted. *)
Definition in_COMMAND_loop (sr : Z) (d : Decoder) : Prop :=
  samplerate d = Some sr /\ (bit_count d <> 0 -> local_ann_id d <> None).

(** The edges lie at increasing samples after [p], none beyond [bound]. *)
Fixpoint increasing (p bound : Z) (edges : list Edge) : Prop :=
  match edges with
  | [] => True
  | e :: rest =>
      p < sample_index e <= bound /\ increasing (sample_index e) bound rest
  end.

(** A span inside the capture, its start not after its end. *)
Definition span_ok (bound : Z) (a : Annotation) : Prop :=
  0 <= ann_ss a <= ann_es a /\ ann_es a <= bound.

(** The sample numbers the decoder has noted lie behind the cursor, the
    edges ahead of it, and every span put so far is in order. *)
Definition marks_behind (bound : Z) (d : Decoder) : Prop :=
  0 <= fall d <= samplenum d /\
  0 <= rise d <= samplenum d /\
  0 <= sample_addr_start d <= samplenum d /\
  0 <= sample_cmd_start d <= samplenum d /\
  0 <= sample_reg_start d <= samplenum d /\
  0 <= sample_data_start d <= samplenum d /\
  samplenum d <= bound /\
  increasing (samplenum d) bound (ahead d) /\
  Forall (span_ok bound) (emitted d).

(** The three command labels of the decoder. *)
Definition command_labels : list (list string) :=
  [ ["Flush"; "Flsh"; "Fl"; "F"]; ["Listen"; "Lst"; "L"]; ["Talk"; "Tlk"; "T"] ]%string.

(** An annotation as the frontend expects it: a class of the bus or of the
    transactions row, at least one text, and for a bit its value. *)
Definition class_ok (a : Annotation) : Prop :=
  1 <= ann_idx a <= 14 /\
  ann_texts a <> [] /\
  (is_bit_class (ann_idx a) = true ->
   ann_texts a = ["0"]%string \/ ann_texts a = ["1"]%string) /\
  (ann_idx a = 11 -> In (ann_texts a) command_labels).

(** The locals of [decode] hold a bit class and a command label, if
    anything, and every annotation put so far is as expected. *)
Definition classes_ok (d : Decoder) : Prop :=
  (forall i, local_ann_id d = Some i -> 5 <= i <= 7) /\
  (forall l, local_command d = Some l -> In l command_labels) /\
  Forall class_ok (emitted d).

(** The low runs of a line that is followed by a rise, the first run being
    low: the pulses the ATTENTION state measures. *)
Fixpoint low_pulses (lengths : list nat) : list nat :=
  match lengths with
  | l :: rest =>
      match rest with
      | _ :: rest' => l :: low_pulses rest'
      | [] => []
      end
  | [] => []
  end.

(** A low pulse of [n] samples is too short for an attention pulse. *)
Definition too_short (sr : Z) (n : nat) : Prop :=
  (timing Timing.ATTENTION - timing_TOL Timing.ATTENTION
     <=? interval_us (Z.of_nat n) sr)%float = false.

(** ** Stating the properties: order, streams and fields *)


(** Every annotation of [out] ends at [p] or before. *)
Definition ends_before (p : Z) (out : list Annotation) : Prop :=
  Forall (fun a => ann_es a <= p) out.

(** No annotation of [out] ends before one put earlier. *)
Fixpoint ends_ascend (out : list Annotation) : Prop :=
  match out with
  | [] => True
  | a :: rest => Forall (fun b => ann_es a <= ann_es b) rest /\ ends_ascend rest
  end.

(** The annotations were put in the order of their end samples, none ending
    beyond the cursor. *)
Definition put_in_order (bound : Z) (d : Decoder) : Prop :=
  marks_behind bound d /\
  ends_before (samplenum d) (emitted d) /\
  ends_ascend (emitted d).

(** One transaction of a stream: what is on the wire, the bits it carries,
    and the samples the line stays idle after it. *)
Record Sent : Set := mkSent {
  s_transaction : Transaction;
  s_cmd : list bool;
  s_data : list bool;
  s_gap : nat
}.

(** The label of a command byte, with no text for the command value 1. *)
Definition label_of (cmd : list bool) : list string :=
  match command_label (msb_first (firstn 2 (skipn 4 cmd))) with
  | Some label => label
  | None => []
  end.

(** The sample at which a transaction that starts at [p0] ends. *)
Definition transaction_end (p0 : Z) (t : Transaction) : Z :=
  cells_end (cells_end (p0 + Z.of_nat (t_attention t) + Z.of_nat (t_sync t)) (t_command t)
             + Z.of_nat (t_stop t) + Z.of_nat (t_tlt t)
             + Z.of_nat (fst (t_start t)) + Z.of_nat (snd (t_start t)))
            (t_data t)
  + Z.of_nat (t_stop_data t).

(** The runs of a stream of transactions, the first one low. *)
Fixpoint stream_runs (ss : list Sent) : list nat :=
  match ss with
  | [] => []
  | s :: rest => transaction_runs (s_transaction s) ++ s_gap s :: stream_runs rest
  end.

(** The annotations of a stream whose first transaction starts at [p]. *)
Fixpoint stream_annotations (p : Z) (ss : list Sent) : list Annotation :=
  match ss with
  | [] => []
  | s :: rest =>
      transaction_annotations p (s_transaction s) (s_cmd s) (s_data s) (label_of (s_cmd s))
        ++ stream_annotations (transaction_end p (s_transaction s) + Z.of_nat (s_gap s)) rest
  end.

(** A transaction of a stream that the decoder accepts: eight command bits
    with a label, sixteen data bits, and timing that passes its tests. *)
Definition well_sent (opt : Tolerance) (sr : Z) (s : Sent) : Prop :=
  List.length (s_cmd s) = 8%nat /\ List.length (s_data s) = 16%nat /\
  well_timed opt sr (s_transaction s) (s_cmd s) (s_data s) /\
  command_label (msb_first (firstn 2 (skipn 4 (s_cmd s)))) <> None.

(** The ten events of each transaction of a stream. *)
Definition stream_events (ss : list Sent) : list (Z * list string) :=
  flat_map (fun s => ten_events (msb_first (firstn 4 (s_cmd s))) (label_of (s_cmd s))
                       (msb_first (skipn 6 (s_cmd s))) (msb_first (s_data s))) ss.

(** The annotations put for a command byte up to its two command bits. *)
Definition COMMAND_annotations_to_bit_6 (pos : Z) (cells : list (nat * nat)) (bits : list bool)
    : list Annotation :=
  let p4 := cells_end pos (firstn 4 cells) in
  bit_annotations 5 pos (firstn 4 cells) (firstn 4 bits)
    ++ [mkAnn pos p4 12 (address_text (msb_first (firstn 4 bits)))]
    ++ bit_annotations 6 p4 (firstn 2 (skipn 4 cells)) (firstn 2 (skipn 4 bits)).

(** The greatest address the COMMAND loop can have built after [bc] bits,
    and the greatest register number. *)
Definition address_room (bc : Z) : Z :=
  if bc <=? 0 then 0 else if bc <=? 1 then 8 else if bc <=? 2 then 12
  else if bc <=? 3 then 14 else 15.

Definition reg_room (bc : Z) : Z :=
  if bc <=? 6 then 0 else if bc <=? 7 then 2 else 3.

(** An Address annotation names one of the sixteen addresses, a Register
    annotation one of the four registers. *)
Definition field_ok (a : Annotation) : Prop :=
  (ann_idx a = 12 -> exists v, 0 <= v <= 15 /\ ann_texts a = address_text v) /\
  (ann_idx a = 13 -> exists v, 0 <= v <= 3 /\ ann_texts a = register_text v).

(** The last bit read is 0 or 1, [ann_id] is a bit class if it is assigned,
    and the Address and Register annotations put so far are as said. *)
Definition fields_core (d : Decoder) : Prop :=
  (bit d = 0 \/ bit d = 1) /\
  (forall i, local_ann_id d = Some i -> 5 <= i <= 7) /\
  Forall field_ok (emitted d).

(** Between the passes of [while True]: the address and the register are
    cleared when a command byte begins. *)
Definition fields_cleared (d : Decoder) : Prop :=
  fields_core d /\
  (state d = SYNC \/ state d = COMMAND -> address d = 0 /\ reg d = 0).

(** In the COMMAND loop when [bc] bits were counted. *)
Definition fields_within (bc : Z) (d : Decoder) : Prop :=
  fields_core d /\
  0 <= address d <= address_room bc /\
  0 <= reg d <= reg_room bc.

(** Between the passes of the COMMAND loop. *)
Definition in_COMMAND_fields (d : Decoder) : Prop :=
  0 <= bit_count d /\ fields_within (bit_count d) d.

(** What holds of the annotations at every way out. *)
Definition fields_anyhow (d : Decoder) : Prop := Forall field_ok (emitted d).

(** * Properties *)

(** ** The sample-rate guard *)

(** C10.  A sample rate of exactly 0 is treated like a missing one: in both
    cases [decode] raises [SamplerateError] at once, with the decoder object
    untouched, so no state was run and no annotation was put. *)
Theorem decode_zero_samplerate_like_missing :
  forall d, samplerate d = None \/ samplerate d = Some 0 ->
    decode d = Raised SamplerateError d.
Proof.
  intros d [H | H]; unfold decode, not_samplerate; rewrite H; reflexivity.
Qed.

Lemma decode_zero_samplerate_like_missing_witness :
  let d := start (metadata SRD_CONF_SAMPLERATE 0 (reset strict [mkEdge Falling 10])) in
  (samplerate d = None \/ samplerate d = Some 0) /\
  decode d = Raised SamplerateError d.
Proof.
  split.
  - right. reflexivity.
  - apply decode_zero_samplerate_like_missing. right. reflexivity.
Defined.

(** The guard is the only place that raises [SamplerateError] up front: a
    non-zero rate passes it. *)
Lemma decode_nonzero_samplerate d sr :
  samplerate d = Some sr -> sr <> 0 ->
  decode d = (checks ;; while (S (List.length (ahead d))) (fun _ => true) state_machine) d.
Proof.
  intros H Hnz. unfold decode, not_samplerate. rewrite H.
  apply Z.eqb_neq in Hnz. rewrite Hnz. reflexivity.
Qed.

(** ** The sample-rate warnings *)

Lemma checks_spec d sr :
  samplerate d = Some sr ->
  checks d =
    Return tt
      (if sr <? 400000 then set_emitted (emitted d ++ [mkAnn 0 0 1 [too_low_text]]) d
       else if sr <? 1000000 then set_emitted (emitted d ++ [mkAnn 0 0 1 [suggested_text]]) d
       else d).
Proof.
  intros H. unfold checks, bind, read_samplerate. rewrite H.
  destruct (sr <? 400000); [reflexivity |].
  destruct (sr <? 1000000); reflexivity.
Qed.

(** C6.  What [checks] puts for a sample rate of 300 kHz and of 500 kHz:
    one annotation each, the run goes on (here to the end of an empty
    capture), but the annotation carries class index 1, which is the
    "attention" class of the "bus" row; class 15, "warning", the only class
    of the "warnings" row, is never used. *)
Theorem checks_puts_warning_in_attention_class :
  (exists d, session strict (Some 300000) [] = EndOfStream d /\
             emitted d = [mkAnn 0 0 1 [too_low_text]]) /\
  (exists d, session strict (Some 500000) [] = EndOfStream d /\
             emitted d = [mkAnn 0 0 1 [suggested_text]]) /\
  (exists d, session strict (Some 1000000) [] = EndOfStream d /\ emitted d = []) /\
  class_id 1 = Some "attention"%string /\ row_of 1 = Some "bus"%string /\
  class_id 15 = Some "warning"%string /\ row_of 15 = Some "warnings"%string.
Proof.
  repeat split; try reflexivity; eexists; split; vm_compute; reflexivity.
Qed.

(** ** The tolerance check *)

Lemma check_tolerance_in_window opt width type :
  check_tolerance opt width type = true <-> in_window width type opt.
Proof.
  unfold check_tolerance, in_window, float_le, window_tolerance.
  destruct opt; rewrite andb_true_iff; reflexivity.
Qed.

(** What the SYNC state does once the falling edge is there. *)
Lemma SYNC_state_spec d sr f rest :
  samplerate d = Some sr -> sr <> 0 ->
  next_edge Falling (ahead d) = Some (f, rest) ->
  SYNC_state d =
    Return tt
      (if check_tolerance (options_tolerance d) (interval_us (f - rise d) sr) Timing.SYNC
       then set_state COMMAND
              (set_emitted (emitted d ++ [mkAnn (rise d) f 2 ["Sync"; "SS"]%string])
                 (set_fall f (set_cursor f rest d)))
       else set_state ATTENTION (set_fall f (set_cursor f rest d))).
Proof.
  intros Hsr Hnz Hedge.
  unfold SYNC_state, bind, wait. rewrite Hedge. cbn.
  unfold elapsed_us, read_samplerate, bind. cbn. rewrite Hsr.
  apply Z.eqb_neq in Hnz. rewrite Hnz. cbn.
  destruct (check_tolerance _ _ _); reflexivity.
Qed.

(** C7.  [check_tolerance] accepts a width exactly when it lies in
    [nominal - tol, nominal + tol], the tolerance taken as it is under
    strict and multiplied by 1.1 under relaxed.  For SYNC (65 +- 2 us):
    63 us passes under strict, 62 us does not, 62.9 us passes under relaxed
    (and not under strict).  In the SYNC state, at 1 MHz and strict, a
    falling edge 63 samples after the rise puts Sync and enters COMMAND,
    one 62 samples after it puts nothing and returns to ATTENTION; at
    10 MHz and relaxed, 629 samples (62.9 us) put Sync. *)
Theorem check_tolerance_window :
  (forall opt width type,
      check_tolerance opt width type = true <-> in_window width type opt) /\
  window_tolerance strict Timing.SYNC = 2%float /\
  window_tolerance relaxed Timing.SYNC = 2.2%float /\
  check_tolerance strict 63 Timing.SYNC = true /\
  check_tolerance strict 62 Timing.SYNC = false /\
  check_tolerance relaxed 62.9 Timing.SYNC = true /\
  check_tolerance strict 62.9 Timing.SYNC = false /\
  (forall d rest,
      state d = SYNC -> samplerate d = Some 1000000 -> options_tolerance d = strict ->
      ahead d = mkEdge Falling (rise d + 63) :: rest ->
      exists d', state_machine d = Return tt d' /\ state d' = COMMAND /\
                 emitted d' = emitted d ++ [mkAnn (rise d) (rise d + 63) 2 ["Sync"; "SS"]%string]) /\
  (forall d rest,
      state d = SYNC -> samplerate d = Some 1000000 -> options_tolerance d = strict ->
      ahead d = mkEdge Falling (rise d + 62) :: rest ->
      exists d', state_machine d = Return tt d' /\ state d' = ATTENTION /\
                 emitted d' = emitted d) /\
  (forall d rest,
      state d = SYNC -> samplerate d = Some 10000000 -> options_tolerance d = relaxed ->
      ahead d = mkEdge Falling (rise d + 629) :: rest ->
      exists d', state_machine d = Return tt d' /\ state d' = COMMAND /\
                 emitted d' = emitted d ++ [mkAnn (rise d) (rise d + 629) 2 ["Sync"; "SS"]%string]).
Proof.
  split; [exact check_tolerance_in_window |].
  do 6 (split; [vm_compute; reflexivity |]).
  repeat split; intros d rest Hst Hsr Hopt Hah;
    (eexists; split;
     [ unfold state_machine, bind, get; rewrite Hst;
       match type of Hah with
       | _ = mkEdge _ ?f :: _ =>
           rewrite (SYNC_state_spec d _ f rest Hsr)
             by (try discriminate; rewrite Hah; reflexivity)
       end;
       rewrite Hopt, Z.add_simpl_l; reflexivity
     | ]);
    match goal with
    | |- context [check_tolerance ?o (interval_us ?n ?s) ?k] =>
        let b := eval vm_compute in (check_tolerance o (interval_us n s) k) in
        replace (check_tolerance o (interval_us n s) k) with b by (vm_compute; reflexivity)
    end; split; reflexivity.
Qed.

Lemma check_tolerance_window_witness :
  let d := set_state SYNC
             (start (metadata SRD_CONF_SAMPLERATE 1000000
                       (reset strict [mkEdge Falling 63]))) in
  (state d = SYNC /\ samplerate d = Some 1000000 /\ options_tolerance d = strict /\
   ahead d = mkEdge Falling (rise d + 63) :: []) /\
  exists d', state_machine d = Return tt d' /\ state d' = COMMAND /\
             emitted d' = emitted d ++ [mkAnn (rise d) (rise d + 63) 2 ["Sync"; "SS"]%string].
Proof.
  split; [repeat split |].
  apply (proj1 (proj2 (proj2 (proj2 (proj2 (proj2 (proj2 (proj2
           check_tolerance_window)))))))) with (rest := []); reflexivity.
Defined.

(** ** Bit cells *)

Lemma cells_upto_spec n test lo hi :
  cells_upto n test = true ->
  (1 <= lo <= n)%nat -> (1 <= hi <= n)%nat -> test lo hi = true.
Proof.
  unfold cells_upto. intros H Hlo Hhi.
  rewrite forallb_forall in H.
  specialize (H lo). rewrite forallb_forall in H.
  apply H; apply in_seq; lia.
Qed.

(** The two ratios of one cell never both exceed 0.6 on the cells of up to
    400 us a half at 1 MHz (the nominal cell is 100 us): by running the
    classification on each of them. *)
Lemma one_iff_high_ratio_400 : cells_upto 400 (one_iff_high_ratio 1000000) = true.
Proof. vm_compute. reflexivity. Qed.

(** C8.  A bit cell with low time [low_us] and high time [high_us] and
    [cell = low_us + high_us] (not zero, or the division raises) is
    classified by two tests made in this order: Zero exactly when
    [low_us / cell > 0.6]; otherwise One exactly when [high_us / cell > 0.6];
    Malformed exactly when neither ratio exceeds 0.6.  On every cell
    measured at 1 MHz with halves of 1 to 400 samples the two ratios never
    both exceed 0.6, so that there One holds exactly when
    [high_us / cell > 0.6], with no mention of the order.  A cell of 70 us
    low and 30 us high is Zero, one of 50 us and 50 us is Malformed, also
    when the two times are measured from 70 + 30 and 50 + 50 samples at
    1 MHz. *)
Theorem classify_bit_ratio :
  (forall low_us high_us,
      let cell := (low_us + high_us)%float in
      (cell =? 0)%float = false ->
      exists cls, classify_bit low_us high_us = inr cls /\
        (cls = Zero <-> float_gt (low_us / cell) 0.6) /\
        (cls = One <-> ~ float_gt (low_us / cell) 0.6 /\ float_gt (high_us / cell) 0.6) /\
        (cls = Malformed <-> ~ float_gt (low_us / cell) 0.6 /\ ~ float_gt (high_us / cell) 0.6)) /\
  (forall lo hi : nat,
      (1 <= lo <= 400)%nat -> (1 <= hi <= 400)%nat ->
      let low_us := interval_us (Z.of_nat lo) 1000000 in
      let high_us := interval_us (Z.of_nat hi) 1000000 in
      classify_bit low_us high_us = inr One <->
      float_gt (high_us / (low_us + high_us)) 0.6) /\
  classify_bit 70 30 = inr Zero /\
  classify_bit 50 50 = inr Malformed /\
  classify_bit 30 70 = inr One /\
  classify_bit (interval_us 70 1000000) (interval_us 30 1000000) = inr Zero /\
  classify_bit (interval_us 50 1000000) (interval_us 50 1000000) = inr Malformed.
Proof.
  split; [| split; [| repeat split; vm_compute; reflexivity]].
  2: {
    intros lo hi Hlo Hhi l h.
    pose proof (cells_upto_spec _ _ lo hi one_iff_high_ratio_400 Hlo Hhi) as H.
    unfold one_iff_high_ratio in H. fold l h in H. unfold float_gt.
    destruct (classify_bit l h) as [e | [ | | ]]; try discriminate;
      destruct (0.6 <? h / (l + h))%float; try discriminate;
      split; intros; congruence.
  }
  intros low_us high_us cell Hcell.
  unfold classify_bit, float_div, float_gt. fold cell. rewrite Hcell.
  destruct (0.6 <? low_us / cell)%float; [| destruct (0.6 <? high_us / cell)%float];
    eexists; (split; [reflexivity |]);
    repeat split; intros; try discriminate; try reflexivity;
    repeat match goal with
           | H : _ /\ _ |- _ => destruct H
           | H : ~ (true = true) |- _ => exfalso; apply H; reflexivity
           end; try discriminate.
Qed.

Lemma classify_bit_ratio_witness :
  ((70 + 30 =? 0)%float = false) /\
  exists cls, classify_bit 70 30 = inr cls /\
    (cls = Zero <-> float_gt (70 / (70 + 30)) 0.6) /\
    (cls = One <-> ~ float_gt (70 / (70 + 30)) 0.6 /\ float_gt (30 / (70 + 30)) 0.6) /\
    (cls = Malformed <-> ~ float_gt (70 / (70 + 30)) 0.6 /\ ~ float_gt (30 / (70 + 30)) 0.6).
Proof.
  split; [reflexivity |].
  apply (proj1 classify_bit_ratio 70%float 30%float). reflexivity.
Defined.

(** ** The ATTENTION state *)

Lemma ATTENTION_state_spec d sr f r rest :
  samplerate d = Some sr -> sr <> 0 ->
  attention_pulse d = Some (f, r, rest) ->
  ATTENTION_state d =
    Return tt
      (let d1 := set_rise r (set_fall f (set_cursor r rest (cleared d))) in
       if (timing Timing.ATTENTION - timing_TOL Timing.ATTENTION <=? interval_us (r - f) sr)%float
       then set_done false
              (set_tstart r (set_state SYNC
                 (set_emitted (emitted d ++ [mkAnn f r 1 attention_texts]) d1)))
       else set_done false d1).
Proof.
  intros Hsr Hnz Hp. apply Z.eqb_neq in Hnz.
  unfold attention_pulse in Hp.
  unfold ATTENTION_state, bind, assign, get, wait, elapsed_us, read_samplerate, bind.
  cbn -[timing timing_TOL interval_us].
  destruct (done d) eqn:Hd; cbn -[timing timing_TOL interval_us].
  - destruct (next_edge Rising (ahead d)) as [[r' rest'] |]; [| discriminate].
    injection Hp as <- <- <-.
    cbn -[timing timing_TOL interval_us]. rewrite Hsr, Hnz.
    cbn -[timing timing_TOL interval_us].
    destruct (_ <=? _)%float; reflexivity.
  - destruct (next_edge Falling (ahead d)) as [[f' ahead'] |]; [| discriminate].
    cbn -[timing timing_TOL interval_us].
    destruct (next_edge Rising ahead') as [[r' rest'] |]; [| discriminate].
    injection Hp as <- <- <-.
    cbn -[timing timing_TOL interval_us]. rewrite Hsr, Hnz.
    cbn -[timing timing_TOL interval_us].
    destruct (_ <=? _)%float; reflexivity.
Qed.

(** C4, as the code has it.  In the ATTENTION state the measured low pulse
    is only held against the lower bound 800 - 24 = 776 us, whatever the
    tolerance option: at or above it Attention is put over the pulse and the
    machine enters SYNC; below it nothing is put and the machine stays in
    ATTENTION; and with no such pulse left the stream has ended. *)
Theorem ATTENTION_lower_bound_only :
  (timing Timing.ATTENTION - timing_TOL Timing.ATTENTION = 776)%float /\
  forall d sr, state d = ATTENTION -> samplerate d = Some sr -> sr <> 0 ->
    match attention_pulse d with
    | Some (f, r, rest) =>
        exists d', state_machine d = Return tt d' /\
          fall d' = f /\ rise d' = r /\ ahead d' = rest /\ done d' = false /\
          (float_le 776 (interval_us (r - f) sr) ->
             state d' = SYNC /\ emitted d' = emitted d ++ [mkAnn f r 1 attention_texts]) /\
          (~ float_le 776 (interval_us (r - f) sr) ->
             state d' = ATTENTION /\ emitted d' = emitted d)
    | None => exists d', state_machine d = EndOfStream d' /\ emitted d' = emitted d
    end.
Proof.
  split; [reflexivity |].
  intros d sr Hst Hsr Hnz.
  unfold state_machine, bind, get. rewrite Hst.
  destruct (attention_pulse d) as [[[f r] rest] |] eqn:Hp.
  - rewrite (ATTENTION_state_spec d sr f r rest Hsr Hnz Hp).
    replace (timing Timing.ATTENTION - timing_TOL Timing.ATTENTION)%float
      with 776%float by reflexivity.
    unfold float_le.
    eexists; split; [reflexivity |].
    destruct (776 <=? interval_us (r - f) sr)%float; cbn;
      (do 4 (split; [reflexivity |])); split; intros Hle;
      try (split; [first [assumption | reflexivity] | reflexivity]);
      try discriminate; exfalso; apply Hle; reflexivity.
  - unfold attention_pulse in Hp.
    unfold ATTENTION_state, bind, assign, get, wait. cbn.
    destruct (done d); cbn.
    + destruct (next_edge Rising (ahead d)) as [[r' rest'] |]; [discriminate |].
      eexists; split; reflexivity.
    + destruct (next_edge Falling (ahead d)) as [[f' ahead'] |]; cbn.
      * destruct (next_edge Rising ahead') as [[r' rest'] |]; [discriminate |].
        eexists; split; reflexivity.
      * eexists; split; reflexivity.
Qed.

Lemma ATTENTION_lower_bound_only_witness :
  let d := start (metadata SRD_CONF_SAMPLERATE 1000000
                    (reset strict [mkEdge Falling 10; mkEdge Rising 810])) in
  (state d = ATTENTION /\ samplerate d = Some 1000000 /\ 1000000 <> 0) /\
  exists d', state_machine d = Return tt d' /\
    fall d' = 10 /\ rise d' = 810 /\ ahead d' = [] /\ done d' = false /\
    (float_le 776 (interval_us (810 - 10) 1000000) ->
       state d' = SYNC /\ emitted d' = emitted d ++ [mkAnn 10 810 1 attention_texts]) /\
    (~ float_le 776 (interval_us (810 - 10) 1000000) ->
       state d' = ATTENTION /\ emitted d' = emitted d).
Proof.
  split; [repeat split; discriminate |].
  apply (proj2 ATTENTION_lower_bound_only
           (start (metadata SRD_CONF_SAMPLERATE 1000000
                     (reset strict [mkEdge Falling 10; mkEdge Rising 810])))
           1000000); [reflexivity | reflexivity | discriminate].
Defined.

(** C4, as the claim has it, fails in both directions.  Strict, 1 MHz, a low
    pulse of 900 samples: 900 us is outside 800 +- 24 us, and Attention is
    put and SYNC entered.  Relaxed, 1 MHz, a low pulse of 774 samples:
    774 us is inside 800 +- 26.4 us, and the machine stays in ATTENTION and
    puts nothing. *)
Lemma ATTENTION_window_counterexample :
  (let d := start (metadata SRD_CONF_SAMPLERATE 1000000
                     (reset strict [mkEdge Falling 10; mkEdge Rising 910])) in
   exists d', state_machine d = Return tt d' /\
     state d' = SYNC /\ emitted d' = [mkAnn 10 910 1 attention_texts] /\
     interval_us (910 - 10) 1000000 = 900%float /\
     ~ in_window 900 Timing.ATTENTION strict) /\
  (let d := start (metadata SRD_CONF_SAMPLERATE 1000000
                     (reset relaxed [mkEdge Falling 10; mkEdge Rising 784])) in
   exists d', state_machine d = Return tt d' /\
     state d' = ATTENTION /\ emitted d' = [] /\
     interval_us (784 - 10) 1000000 = 774%float /\
     in_window 774 Timing.ATTENTION relaxed).
Proof.
  split; cbv zeta; eexists; (split; [vm_compute; reflexivity |]);
    repeat split; try (vm_compute; reflexivity).
  intros [_ H]. vm_compute in H. discriminate.
Qed.

(** ** Malformed cells and the undefined command *)

(** Whatever the cells were, a COMMAND state that returns has put a
    Register annotation last and left the machine in STOP_CMD: the
    ATTENTION that a malformed cell assigns inside the loop is overwritten. *)
Lemma COMMAND_state_returns_STOP_CMD d d' :
  COMMAND_state d = Return tt d' ->
  state d' = STOP_CMD /\
  exists before ss es, emitted d' = before ++ [mkAnn ss es 13 ["Register: " ++ hex (reg d')]%string].
Proof.
  unfold COMMAND_state, bind, assign, get, put.
  destruct (while 9 _ COMMAND_bit _) as [[] d1 | d1 | e d1 | d1]; try discriminate.
  intros H. injection H as <-. cbn.
  split; [reflexivity |]. do 3 eexists. reflexivity.
Qed.

(** Likewise a DATA state that returns has put a Data annotation last and
    left the machine in STOP_DATA. *)
Lemma DATA_state_returns_STOP_DATA d d' :
  DATA_state d = Return tt d' ->
  state d' = STOP_DATA /\
  exists before ss es, emitted d' = before ++ [mkAnn ss es 14 ["Data: 0x" ++ format_04x (data_word d')]%string].
Proof.
  unfold DATA_state, bind, assign, get, put.
  destruct (while _ _ DATA_bit _) as [[] d1 | d1 | e d1 | d1]; try discriminate.
  intros H. injection H as <-. cbn.
  split; [reflexivity |]. do 3 eexists. reflexivity.
Qed.

(** C1.  1 MHz, strict, a transaction whose third command cell is 50 us low
    and 50 us high, hence Malformed.  The COMMAND loop reads on: Address is
    put with the stale bit counted in (0b0111 for the cells 0, 1, malformed,
    1), Command and Register are put, and the whole transaction is decoded
    to its final Stop as if it were well formed. *)
Theorem COMMAND_malformed_cell_not_discarded :
  classify_bit (interval_us 50 1000000) (interval_us 50 1000000) = inr Malformed /\
  exists d,
    session strict (Some 1000000)
      (edges_of_samples (capture 10 malformed_command_transaction 50)) = EndOfStream d /\
    field_events (emitted d) =
      [ (1, attention_texts); (2, sync_texts);
        (12, ["Address: 0x7"]%string); (11, ["Talk"; "Tlk"; "T"]%string);
        (13, ["Register: 0x0"]%string); (4, stop_texts); (9, tlt_texts);
        (3, start_texts); (14, ["Data: 0x1234"]%string); (4, stop_texts) ].
Proof.
  split; [vm_compute; reflexivity |].
  eexists; split; vm_compute; reflexivity.
Qed.

(** C2.  1 MHz, strict, a transaction whose tenth data cell is Malformed,
    followed after 1000 us by a well-formed transaction.  The DATA loop
    stays where it is and takes later cells for the missing bits, the
    sixteenth being the stop bit with the idle line after it: Data is put
    for the span 2045 - 4715 with the value 0x1269 instead of 0x1234, and
    the attention pulse of the second transaction is consumed as the stop
    bit of the first, so that nothing of the second is decoded. *)
Theorem DATA_malformed_cell_not_discarded :
  exists d,
    session strict (Some 1000000)
      (edges_of_samples
         (capture2 10 malformed_data_transaction 1000 talk_transaction 50)) = EndOfStream d /\
    field_events (emitted d) =
      [ (1, attention_texts); (2, sync_texts);
        (12, ["Address: 0x5"]%string); (11, ["Talk"; "Tlk"; "T"]%string);
        (13, ["Register: 0x0"]%string); (4, stop_texts); (9, tlt_texts);
        (3, start_texts); (14, ["Data: 0x1269"]%string) ] /\
    In (mkAnn 2045 4715 14 ["Data: 0x1269"]%string) (emitted d).
Proof.
  eexists; split; [vm_compute; reflexivity |].
  split; [vm_compute; reflexivity |].
  vm_compute. repeat (first [left; reflexivity | right]).
Qed.

(** C5.  1 MHz, strict, a well-timed transaction whose command bits are 01.
    After the second command bit the local [command] has never been
    assigned and reading it raises [UnboundLocalError] out of [decode].
    When a Listen transaction came first, the local still holds its label
    and the 01 command is annotated as Listen. *)
Theorem command_one_raises_or_reuses_label :
  (exists d,
     session strict (Some 1000000)
       (edges_of_samples (capture 10 command_one_transaction 50)) = Raised UnboundLocalError d /\
     field_events (emitted d) =
       [ (1, attention_texts); (2, sync_texts); (12, ["Address: 0x5"]%string) ] /\
     command d = 1 /\ local_command d = None) /\
  (exists d,
     session strict (Some 1000000)
       (edges_of_samples
          (capture2 10 listen_transaction 1000 command_one_transaction 50)) = EndOfStream d /\
     field_events (emitted d) =
       [ (1, attention_texts); (2, sync_texts);
         (12, ["Address: 0x5"]%string); (11, ["Listen"; "Lst"; "L"]%string);
         (13, ["Register: 0x0"]%string); (4, stop_texts); (9, tlt_texts);
         (3, start_texts); (14, ["Data: 0x1234"]%string); (4, stop_texts);
         (1, attention_texts); (2, sync_texts);
         (12, ["Address: 0x5"]%string); (11, ["Listen"; "Lst"; "L"]%string);
         (13, ["Register: 0x0"]%string); (4, stop_texts); (9, tlt_texts);
         (3, start_texts); (14, ["Data: 0x1234"]%string); (4, stop_texts) ]).
Proof.
  split; eexists; (split; [vm_compute; reflexivity |]);
    repeat split; vm_compute; reflexivity.
Qed.

(** ** Well-formed transactions: the tools *)

Lemma while_S fuel cond body d :
  while (S fuel) cond body d =
  if cond d then (body ;; while fuel cond body) d else Return tt d.
Proof. reflexivity. Qed.

Lemma bind_run {A B} (c : M A) (k : A -> M B) d a d' :
  c d = Return a d' -> (x <- c ;; k x) d = k a d'.
Proof. intros H. unfold bind. rewrite H. reflexivity. Qed.

(** A loop that ended otherwise than by the bound ends the same way under
    any larger bound. *)
Lemma while_more_fuel cond body :
  forall n m d o,
    while n cond body d = o -> (forall d', o <> OutOfFuel d') -> (n <= m)%nat ->
    while m cond body d = o.
Proof.
  induction n as [| n IH]; intros m d o H Hne Hle.
  - cbn in H. subst o. exfalso. apply (Hne d). reflexivity.
  - destruct m as [| m]; [lia |].
    rewrite while_S in *.
    destruct (cond d); [| exact H].
    unfold bind in *.
    destruct (body d) as [[] d1 | d1 | e d1 | d1]; try exact H.
    apply IH; [exact H | exact Hne | lia].
Qed.

Lemma elapsed_us_spec a b d sr :
  samplerate d = Some sr -> sr <> 0 ->
  elapsed_us a b d = Return (interval_us (b - a) sr) d.
Proof.
  intros H Hnz. unfold elapsed_us, bind, read_samplerate. rewrite H.
  apply Z.eqb_neq in Hnz. rewrite Hnz. reflexivity.
Qed.

Lemma read_bit_cell_spec d sr lo hi rest :
  samplerate d = Some sr -> sr <> 0 ->
  ahead d = mkEdge Rising (samplenum d + lo) :: mkEdge Falling (samplenum d + lo + hi) :: rest ->
  read_bit_cell d =
    Return (interval_us lo sr, interval_us hi sr)
      (set_cursor (samplenum d + lo + hi) rest
         (set_rise (samplenum d + lo) (set_fall (samplenum d) d))).
Proof.
  intros Hsr Hnz Hah.
  unfold read_bit_cell, bind, get, assign, wait. cbn -[Z.add Z.sub interval_us elapsed_us].
  rewrite Hah. cbn -[Z.add Z.sub interval_us elapsed_us].
  rewrite !(elapsed_us_spec _ _ _ sr) by assumption.
  rewrite !Z.add_simpl_l. reflexivity.
Qed.

Lemma bit_dispatch (k m : M unit) b :
  match class_of b with
  | Zero => assign (set_bit 0) ;; k
  | One => assign (set_bit 1) ;; k
  | Malformed => m
  end = (assign (set_bit (bit_value b)) ;; k).
Proof. destruct b; reflexivity. Qed.

(** A cell that classifies as One passes the start-bit test, which only
    looks at the high ratio. *)
Lemma classify_One_high lo hi :
  classify_bit lo hi = inr One ->
  float_div hi (lo + hi) = inr (hi / (lo + hi))%float /\
  (0.6 <? hi / (lo + hi))%float = true.
Proof.
  unfold classify_bit, float_div.
  destruct (lo + hi =? 0)%float; [discriminate |].
  destruct (0.6 <? lo / (lo + hi))%float; [discriminate |].
  destruct (0.6 <? hi / (lo + hi))%float; [| discriminate].
  intros _. split; reflexivity.
Qed.

Lemma length_run_edges lengths : forall level pos,
  List.length (run_edges level pos lengths) = List.length lengths.
Proof.
  induction lengths as [| n rest IH]; intros level pos; cbn; [reflexivity |].
  rewrite IH. reflexivity.
Qed.

(** ** Well-formed transactions: one state at a time *)

Lemma STOP_CMD_state_spec d sr r rest :
  samplerate d = Some sr -> sr <> 0 ->
  next_edge Rising (ahead d) = Some (r, rest) ->
  check_tolerance (options_tolerance d) (interval_us (r - fall d) sr) Timing.STOP = true ->
  STOP_CMD_state d =
    Return tt
      (set_state TLT
         (set_emitted (emitted d ++ [mkAnn (fall d) r 4 stop_texts])
            (set_rise r (set_cursor r rest d)))).
Proof.
  intros Hsr Hnz Hedge Hok.
  unfold STOP_CMD_state, wait. unfold bind at 1. rewrite Hedge.
  cbn -[elapsed_us check_tolerance interval_us].
  erewrite bind_run by (apply elapsed_us_spec with (sr := sr); [exact Hsr | exact Hnz]).
  cbn -[elapsed_us check_tolerance interval_us]. rewrite Hok. reflexivity.
Qed.

Lemma TLT_state_spec d sr f rest :
  samplerate d = Some sr -> sr <> 0 ->
  next_edge Falling (ahead d) = Some (f, rest) ->
  check_tolerance (options_tolerance d) (interval_us (f - rise d) sr) Timing.TLT = true ->
  TLT_state d =
    Return tt
      (set_state START_DATA
         (set_emitted (emitted d ++ [mkAnn (rise d) f 9 tlt_texts])
            (set_fall f (set_cursor f rest d)))).
Proof.
  intros Hsr Hnz Hedge Hok.
  unfold TLT_state, wait. unfold bind at 1. rewrite Hedge.
  cbn -[elapsed_us check_tolerance interval_us].
  erewrite bind_run by (apply elapsed_us_spec with (sr := sr); [exact Hsr | exact Hnz]).
  cbn -[elapsed_us check_tolerance interval_us]. rewrite Hok. reflexivity.
Qed.

Lemma STOP_DATA_state_spec d sr r rest :
  samplerate d = Some sr -> sr <> 0 ->
  next_edge Rising (ahead d) = Some (r, rest) ->
  check_tolerance (options_tolerance d) (interval_us (r - fall d) sr) Timing.STOP = true ->
  STOP_DATA_state d =
    Return tt
      (set_state ATTENTION
         (set_emitted (emitted d ++ [mkAnn (fall d) r 4 stop_texts])
            (set_rise r (set_cursor r rest d)))).
Proof.
  intros Hsr Hnz Hedge Hok.
  unfold STOP_DATA_state, wait. unfold bind at 1. rewrite Hedge.
  cbn -[elapsed_us check_tolerance interval_us].
  erewrite bind_run by (apply elapsed_us_spec with (sr := sr); [exact Hsr | exact Hnz]).
  cbn -[elapsed_us check_tolerance interval_us]. rewrite Hok. reflexivity.
Qed.

Lemma START_DATA_state_spec d sr lo hi rest :
  samplerate d = Some sr -> sr <> 0 ->
  ahead d = mkEdge Rising (samplenum d + Z.of_nat lo)
              :: mkEdge Falling (samplenum d + Z.of_nat lo + Z.of_nat hi) :: rest ->
  reads sr (lo, hi) true ->
  START_DATA_state d =
    Return tt
      (let e := samplenum d + Z.of_nat lo + Z.of_nat hi in
       set_fall e
         (set_emitted (emitted d ++ [mkAnn (samplenum d) e 3 start_texts])
            (set_state DATA
               (set_cursor e rest (set_rise (samplenum d + Z.of_nat lo) d))))).
Proof.
  intros Hsr Hnz Hah Hrd. unfold reads in Hrd. cbn [fst snd] in Hrd.
  apply classify_One_high in Hrd. destruct Hrd as [Hdiv Hgt].
  unfold START_DATA_state.
  erewrite bind_run by (apply read_bit_cell_spec with (sr := sr); eassumption).
  cbn -[interval_us float_div PrimFloat.ltb PrimFloat.div PrimFloat.add Z.add].
  cbn -[interval_us float_div PrimFloat.ltb PrimFloat.div PrimFloat.add Z.add] in Hdiv.
  rewrite Hdiv.
  cbn -[interval_us float_div PrimFloat.ltb PrimFloat.div PrimFloat.add Z.add].
  rewrite Hgt. reflexivity.
Qed.

Lemma run_edges_cons level pos lengths :
  lengths <> [] ->
  run_edges level pos lengths =
  mkEdge (if level then Rising else Falling) pos :: tl (run_edges level pos lengths).
Proof. destruct lengths; [congruence | reflexivity]. Qed.

Lemma msb_first_from bits : forall acc,
  fold_left (fun a (b : bool) => 2 * a + (if b then 1 else 0)) bits acc =
  acc * 2 ^ Z.of_nat (List.length bits) + msb_first bits.
Proof.
  unfold msb_first.
  induction bits as [| b bits IH]; intros acc.
  - cbn. lia.
  - cbn [fold_left List.length]. rewrite IH, (IH (2 * 0 + _)).
    rewrite Nat2Z.inj_succ, Z.pow_succ_r by lia. lia.
Qed.

Lemma msb_first_cons b bits :
  msb_first (b :: bits) = bit_value b * 2 ^ Z.of_nat (List.length bits) + msb_first bits.
Proof.
  unfold msb_first at 1. cbn [fold_left]. rewrite msb_first_from.
  unfold bit_value. lia.
Qed.

(** ** Well-formed transactions: the DATA loop *)

Lemma DATA_bit_spec d sr lo hi b rest :
  samplerate d = Some sr -> sr <> 0 ->
  ahead d = mkEdge Rising (samplenum d + Z.of_nat lo)
              :: mkEdge Falling (samplenum d + Z.of_nat lo + Z.of_nat hi) :: rest ->
  reads sr (lo, hi) b ->
  DATA_bit d =
    Return tt
      (let e := samplenum d + Z.of_nat lo + Z.of_nat hi in
       set_fall e
         (set_data_word (data_word d + Z.shiftl (bit_value b) (16 - (bit_count d + 1)))
            (set_emitted (emitted d ++ [mkAnn (samplenum d) e 8 [str (bit_value b)]])
               (set_bit_count (bit_count d + 1)
                  (set_bit (bit_value b)
                     (set_cursor e rest
                        (set_rise (samplenum d + Z.of_nat lo) (set_fall (samplenum d) d)))))))).
Proof.
  intros Hsr Hnz Hah Hrd. unfold reads in Hrd. cbn [fst snd] in Hrd.
  unfold DATA_bit.
  erewrite bind_run by (apply read_bit_cell_spec with (sr := sr); eassumption).
  cbn [fst snd]. rewrite Hrd.
  unfold lift. unfold bind at 1. rewrite bit_dispatch.
  destruct b; reflexivity.
Qed.

Lemma DATA_loop_spec sr (Hnz : sr <> 0) :
  forall cells bits, Forall2 (reads sr) cells bits ->
  forall d m more fuel,
    samplerate d = Some sr ->
    ahead d = tl (run_edges false (samplenum d) (cell_runs cells ++ m :: more)) ->
    bit_count d = 16 - Z.of_nat (List.length cells) ->
    (List.length cells < fuel)%nat ->
    exists d',
      while fuel (fun d => bit_count d <? 16) DATA_bit d = Return tt d' /\
      options_tolerance d' = options_tolerance d /\
      samplerate d' = samplerate d /\
      state d' = state d /\
      sample_data_start d' = sample_data_start d /\
      done d' = done d /\
      bit_count d' = 16 /\
      data_word d' = data_word d + msb_first bits /\
      samplenum d' = cells_end (samplenum d) cells /\
      fall d' = match cells with [] => fall d | _ => cells_end (samplenum d) cells end /\
      ahead d' = tl (run_edges false (cells_end (samplenum d) cells) (m :: more)) /\
      emitted d' = emitted d ++ bit_annotations 8 (samplenum d) cells bits.
Proof.
  induction 1 as [| [lo hi] b cells bits Hrd Hall IH]; intros d m more fuel Hsr Hah Hbc Hfuel.
  - destruct fuel as [| fuel]; [cbn in Hfuel; lia |].
    rewrite while_S. cbn [List.length Z.of_nat] in Hbc. rewrite Hbc. cbn.
    exists d. cbn [bit_annotations cells_end cell_runs flat_map app] in *.
    rewrite app_nil_r.
    repeat split; try reflexivity; try assumption.
    unfold msb_first; cbn [fold_left]; lia.
  - destruct fuel as [| fuel]; [cbn in Hfuel; lia |].
    cbn [List.length] in Hbc, Hfuel.
    rewrite while_S.
    replace (bit_count d <? 16) with true by (symmetry; apply Z.ltb_lt; lia).
    cbn [cell_runs flat_map fst snd app run_edges tl negb] in Hah.
    fold (cell_runs cells) in Hah.
    rewrite (run_edges_cons false) in Hah by (destruct (cell_runs cells); discriminate).
    erewrite bind_run by (apply DATA_bit_spec with (sr := sr) (b := b); eassumption).
    cbv zeta.
    match goal with |- context [while fuel _ _ ?d1] => set (d1' := d1) end.
    destruct (IH d1' m more fuel)
      as (d' & Hrun & Hopt & Hsr' & Hst & Hsd & Hdn & Hbc' & Hdw & Hsn & Hfl & Hah' & Hem).
    + exact Hsr.
    + reflexivity.
    + unfold d1'. cbn -[Z.add Z.sub Z.of_nat]. lia.
    + lia.
    + exists d'. split; [exact Hrun |].
      unfold d1' in *.
      cbn -[Z.add Z.sub Z.of_nat Z.shiftl] in Hopt, Hsr', Hst, Hsd, Hdn, Hdw, Hsn, Hfl, Hah', Hem.
      repeat split; try assumption.
      * rewrite Hdw, msb_first_cons.
        rewrite Z.shiftl_mul_pow2 by lia.
        apply Forall2_length in Hall. rewrite <- Hall.
        replace (16 - (bit_count d + 1)) with (Z.of_nat (List.length cells)) by lia.
        lia.
      * cbn [cells_end fst snd]. rewrite Hfl. destruct cells; reflexivity.
      * rewrite Hem. cbn [bit_annotations fst snd]. rewrite <- app_assoc. reflexivity.
Qed.

Lemma length_cell_runs cells :
  List.length (cell_runs cells) = (2 * List.length cells)%nat.
Proof.
  induction cells as [| c cells IH]; [reflexivity |].
  cbn [cell_runs flat_map app List.length] in *. fold (cell_runs cells). lia.
Qed.

Ltac exec :=
  cbn -[Z.shiftl Z.of_nat interval_us classify_bit hex str elapsed_us
        String.append read_bit_cell class_of bit_value check_tolerance format_04x while
        COMMAND_bit DATA_bit].

Lemma DATA_state_spec d sr cells bits m more :
  samplerate d = Some sr -> sr <> 0 ->
  Forall2 (reads sr) cells bits -> List.length bits = 16%nat ->
  data_word d = 0 ->
  ahead d = tl (run_edges false (samplenum d) (cell_runs cells ++ m :: more)) ->
  exists d',
    DATA_state d = Return tt d' /\
    options_tolerance d' = options_tolerance d /\
    samplerate d' = samplerate d /\
    done d' = done d /\
    state d' = STOP_DATA /\
    data_word d' = msb_first bits /\
    samplenum d' = cells_end (samplenum d) cells /\
    fall d' = cells_end (samplenum d) cells /\
    ahead d' = tl (run_edges false (cells_end (samplenum d) cells) (m :: more)) /\
    emitted d' =
      emitted d ++ bit_annotations 8 (samplenum d) cells bits
        ++ [mkAnn (samplenum d) (cells_end (samplenum d) cells) 14 (data_text (msb_first bits))].
Proof.
  intros Hsr Hnz Hall Hlen Hdw Hah.
  pose proof (Forall2_length Hall) as Hlen'.
  unfold DATA_state. exec.
  match goal with
  | |- context [bind (while ?n _ _) _ ?d0] =>
      destruct (DATA_loop_spec sr Hnz cells bits Hall d0 m more n)
        as (d' & Hrun & Hopt & Hsr' & Hst & Hsd & Hdn & Hbc' & Hdw' & Hsn & Hfl & Hah' & Hem)
  end.
  - exact Hsr.
  - exact Hah.
  - cbn -[Z.sub Z.of_nat]. lia.
  - cbn [ahead set_sample_data_start set_bit_count]. rewrite Hah.
    assert (List.length (run_edges false (samplenum d) (cell_runs cells ++ m :: more))
            = (2 * List.length cells + S (List.length more))%nat) as Hl.
    { rewrite length_run_edges, length_app, length_cell_runs. reflexivity. }
    destruct (run_edges false (samplenum d) (cell_runs cells ++ m :: more));
      cbn [List.length tl] in *; lia.
  - erewrite bind_run by exact Hrun.
    cbn -[Z.add Z.sub Z.of_nat Z.shiftl format_04x String.append] in *.
    eexists. split; [reflexivity |].
    cbn -[Z.add Z.sub Z.of_nat Z.shiftl format_04x String.append].
    rewrite Hsd, Hsn, Hdw', Hdw, Hem, Hfl, Z.add_0_l, <- app_assoc.
    repeat split; try assumption; try reflexivity.
    destruct cells; [cbn in Hlen'; lia | reflexivity].
Qed.

(** ** Well-formed transactions: the COMMAND loop *)

Lemma while_step fuel cond body d d' o :
  cond d = true -> body d = Return tt d' ->
  while fuel cond body d' = o ->
  while (S fuel) cond body d = o.
Proof.
  intros Hc Hb Ho. rewrite while_S, Hc. unfold bind. rewrite Hb. exact Ho.
Qed.

Lemma while_then_step {B} fuel cond body (k : M B) d d' o :
  cond d = true -> body d = Return tt d' ->
  (while fuel cond body ;; k) d' = o ->
  (while (S fuel) cond body ;; k) d = o.
Proof.
  intros Hc Hb Ho. unfold bind in *. rewrite while_S, Hc. unfold bind. rewrite Hb. exact Ho.
Qed.

Lemma while_then_exit {B} fuel cond body (k : M B) d :
  cond d = false ->
  (while (S fuel) cond body ;; k) d = k d.
Proof.
  intros Hc. unfold bind. rewrite while_S, Hc. reflexivity.
Qed.

Ltac project :=
  cbv [options_tolerance samplerate state bit bit_count address command reg data_word
       fall rise tstart tend sample_addr_start sample_cmd_start sample_reg_start
       sample_data_start done samplenum ahead emitted local_ann_id local_command
       set_samplerate set_state set_bit set_bit_count set_address set_command set_reg
       set_data_word set_fall set_rise set_tstart set_tend set_sample_addr_start
       set_sample_cmd_start set_sample_reg_start set_sample_data_start set_done
       set_cursor set_emitted set_local_ann_id set_local_command cleared].

Ltac known_bits :=
  repeat match goal with
    | |- context [Z.shiftl (bit_value true) ?n] =>
        let v := eval vm_compute in (Z.shiftl 1 n) in
        change (Z.shiftl (bit_value true) n) with v
    | |- context [Z.shiftl (bit_value false) ?n] =>
        change (Z.shiftl (bit_value false) n) with 0
    end.

(** [read_bit_cell] between edges given by their sample numbers. *)
Lemma read_bit_cell_at d sr mid end_ rest :
  samplerate d = Some sr -> sr <> 0 ->
  ahead d = mkEdge Rising mid :: mkEdge Falling end_ :: rest ->
  read_bit_cell d =
    Return (interval_us (mid - samplenum d) sr, interval_us (end_ - mid) sr)
      (set_cursor end_ rest (set_rise mid (set_fall (samplenum d) d))).
Proof.
  intros Hsr Hnz Hah.
  unfold read_bit_cell, bind, get, assign, wait. cbn -[Z.add Z.sub interval_us elapsed_us].
  rewrite Hah. cbn -[Z.add Z.sub interval_us elapsed_us].
  rewrite !(elapsed_us_spec _ _ _ sr) by assumption.
  reflexivity.
Qed.

Lemma bind_then {A B} (c : M A) (k : A -> M B) d a d1 o :
  c d = Return a d1 -> k a d1 = o -> (x <- c ;; k x) d = o.
Proof. intros Hc Hk. unfold bind. rewrite Hc. exact Hk. Qed.

(** Runs a computation on a decoder given as an explicit record, one
    statement at a time, the record rebuilt after each. *)
Ltac run Hnz :=
  lazymatch goal with
  | |- bind _ _ _ = _ =>
      eapply bind_then; [ run Hnz | cbv beta; run Hnz ]
  | |- (if ?c then ?A else ?B) ?d = ?R =>
      let v := eval vm_compute in c in
      lazymatch v with
      | true => change (A d = R); run Hnz
      | false => change (B d = R); run Hnz
      end
  | |- read_bit_cell _ = _ =>
      etransitivity;
      [ eapply read_bit_cell_at; [reflexivity | exact Hnz | reflexivity]
      | project; reflexivity ]
  | |- lift (classify_bit _ _) _ = _ =>
      cbn [fst snd];
      match goal with
      | H : classify_bit ?lo ?hi = _ |- context [classify_bit ?lo ?hi] => rewrite H
      end;
      reflexivity
  | |- (match class_of _ with Zero => _ | One => _ | Malformed => _ end) _ = _ =>
      rewrite bit_dispatch; run Hnz
  | |- _ => exec; project; reflexivity
  end.

Ltac command_bit Hnz := known_bits; unfold COMMAND_bit; run Hnz.

(** Names the sample numbers of the two edges of a cell that starts at
    [start], and states what the cell reads in terms of them. *)
Ltac name_cell start Hrd :=
  match type of Hrd with
  | classify_bit (interval_us (Z.of_nat ?lo) _) (interval_us (Z.of_nat ?hi) _) = _ =>
      let mid := fresh "mid" in
      let end_ := fresh "end_" in
      let Emid := fresh "Emid" in
      let Eend := fresh "Eend" in
      remember (start + Z.of_nat lo) as mid eqn:Emid;
      remember (mid + Z.of_nat hi) as end_ eqn:Eend;
      replace (Z.of_nat lo) with (mid - start) in Hrd by (rewrite Emid; apply Z.add_simpl_l);
      replace (Z.of_nat hi) with (end_ - mid) in Hrd by (rewrite Eend; apply Z.add_simpl_l)
  end.

Ltac invert_cell Hall Hlen :=
  let lo := fresh "lo" in
  let hi := fresh "hi" in
  let b := fresh "b" in
  let Hrd := fresh "Hrd" in
  destruct Hall as [| [lo hi] b ? ? Hrd Hall]; [discriminate Hlen |];
  unfold reads in Hrd; cbn [fst snd] in Hrd.

Lemma nibble_value a b c e :
  Z.shiftl (bit_value a) 3 + Z.shiftl (bit_value b) 2 + Z.shiftl (bit_value c) 1
    + Z.shiftl (bit_value e) 0 = msb_first [a; b; c; e].
Proof. destruct a, b, c, e; reflexivity. Qed.

Lemma pair_value a b :
  Z.shiftl (bit_value a) 1 + Z.shiftl (bit_value b) 0 = msb_first [a; b].
Proof. destruct a, b; reflexivity. Qed.

Lemma COMMAND_state_spec d sr cells bits m more label :
  samplerate d = Some sr -> sr <> 0 ->
  Forall2 (reads sr) cells bits -> List.length bits = 8%nat ->
  address d = 0 -> command d = 0 -> reg d = 0 ->
  command_label (msb_first (firstn 2 (skipn 4 bits))) = Some label ->
  ahead d = tl (run_edges false (samplenum d) (cell_runs cells ++ m :: more)) ->
  exists d',
    COMMAND_state d = Return tt d' /\
    options_tolerance d' = options_tolerance d /\
    samplerate d' = samplerate d /\
    done d' = done d /\
    state d' = STOP_CMD /\
    data_word d' = data_word d /\
    address d' = msb_first (firstn 4 bits) /\
    command d' = msb_first (firstn 2 (skipn 4 bits)) /\
    reg d' = msb_first (skipn 6 bits) /\
    samplenum d' = cells_end (samplenum d) cells /\
    fall d' = cells_end (samplenum d) cells /\
    ahead d' = tl (run_edges false (cells_end (samplenum d) cells) (m :: more)) /\
    emitted d' = emitted d ++ COMMAND_annotations (samplenum d) cells bits label.
Proof.
  intros Hsr Hnz Hall Hlen Had Hcm Hrg Hlabel Hah.
  destruct d as [opt sr0 st bt bc ad cm rg dw fl ri ts te s1 s2 s3 s4 dn sn ah em la lc].
  cbn [samplerate address command reg ahead samplenum] in Hsr, Had, Hcm, Hrg, Hah.
  subst sr0 ad cm rg ah.
  do 8 invert_cell Hall Hlen.
  destruct Hall; [| discriminate Hlen]. clear Hlen.
  unfold COMMAND_state, COMMAND_annotations.
  cbn [firstn skipn bit_annotations cells_end app fst snd cell_runs flat_map tl
       run_edges negb samplenum options_tolerance samplerate data_word emitted].
  name_cell sn Hrd. name_cell end_ Hrd0. name_cell end_0 Hrd1. name_cell end_1 Hrd2.
  name_cell end_2 Hrd3. name_cell end_3 Hrd4. name_cell end_4 Hrd5. name_cell end_5 Hrd6.
  clear Emid Eend Emid0 Eend0 Emid1 Eend1 Emid2 Eend2 Emid3 Eend3 Emid4 Eend4
        Emid5 Eend5 Emid6 Eend6.
  remember (run_edges true (end_6 + Z.of_nat m) more) as rest eqn:Erest. clear Erest.
  destruct b3, b4; vm_compute in Hlabel; try discriminate Hlabel;
    injection Hlabel as <-.
  all: eexists; split;
    [ eapply bind_then; [exec; project; reflexivity | cbv beta];
      do 8 (eapply while_then_step; [reflexivity | command_bit Hnz |]);
      rewrite while_then_exit by reflexivity; run Hnz | ].
  all: project.
  all: rewrite <- ?app_assoc; cbn [app]; rewrite ?Z.add_0_l, ?nibble_value, ?pair_value.
  all: repeat split; reflexivity.
Qed.

(** ** Well-formed transactions: the whole run *)

Lemma state_machine_unfold d :
  state_machine d =
  match state d with
  | ATTENTION => ATTENTION_state
  | SYNC => SYNC_state
  | COMMAND => COMMAND_state
  | STOP_CMD => STOP_CMD_state
  | TLT => TLT_state
  | START_DATA => START_DATA_state
  | DATA => DATA_state
  | STOP_DATA => STOP_DATA_state
  end d.
Proof. reflexivity. Qed.

Lemma while_end fuel cond body d d' :
  cond d = true -> body d = EndOfStream d' ->
  while (S fuel) cond body d = EndOfStream d'.
Proof.
  intros Hc Hb. rewrite while_S, Hc. unfold bind. rewrite Hb. reflexivity.
Qed.

Lemma ATTENTION_state_no_edge d :
  done d = false -> next_edge Falling (ahead d) = None ->
  ATTENTION_state d = EndOfStream (cleared d).
Proof.
  intros Hd Hn.
  unfold ATTENTION_state, bind, assign, get, wait. cbn.
  rewrite Hd. cbn. rewrite Hn. reflexivity.
Qed.

Lemma checks_warnings d sr :
  samplerate d = Some sr -> emitted d = [] ->
  checks d = Return tt (set_emitted (samplerate_warnings sr) d).
Proof.
  intros Hsr Hem. rewrite (checks_spec d sr Hsr). unfold samplerate_warnings.
  rewrite Hem.
  destruct (sr <? 400000); [reflexivity |].
  destruct (sr <? 1000000); [reflexivity |].
  destruct d; cbn in Hem; subst; reflexivity.
Qed.

Ltac rebuild := project; reflexivity.

(** The same for a decoder that is partly unknown. *)
Ltac fields :=
  cbn [options_tolerance samplerate state bit bit_count address command reg data_word
       fall rise tstart tend sample_addr_start sample_cmd_start sample_reg_start
       sample_data_start done samplenum ahead emitted local_ann_id local_command
       set_samplerate set_state set_bit set_bit_count set_address set_command set_reg
       set_data_word set_fall set_rise set_tstart set_tend set_sample_addr_start
       set_sample_cmd_start set_sample_reg_start set_sample_data_start set_done
       set_cursor set_emitted set_local_ann_id set_local_command cleared].

Ltac fields_in H :=
  cbn [options_tolerance samplerate state bit bit_count address command reg data_word
       fall rise tstart tend sample_addr_start sample_cmd_start sample_reg_start
       sample_data_start done samplenum ahead emitted local_ann_id local_command
       set_samplerate set_state set_bit set_bit_count set_address set_command set_reg
       set_data_word set_fall set_rise set_tstart set_tend set_sample_addr_start
       set_sample_cmd_start set_sample_reg_start set_sample_data_start set_done
       set_cursor set_emitted set_local_ann_id set_local_command cleared] in H.

Lemma decode_transaction opt sr t cmd data label p0 trailing :
  sr <> 0 -> List.length cmd = 8%nat -> List.length data = 16%nat ->
  well_timed opt sr t cmd data ->
  command_label (msb_first (firstn 2 (skipn 4 cmd))) = Some label ->
  exists d,
    session opt (Some sr) (run_edges false p0 (transaction_runs t ++ [trailing]))
      = EndOfStream d /\
    emitted d = samplerate_warnings sr ++ transaction_annotations p0 t cmd data label.
Proof.
  intros Hnz Hlc Hld (Hatt & Hsync & Hcmd & Hstop & Htlt & Hstart & Hdata & Hstop2) Hlabel.
  destruct t as [att sync cmdc stop tlt [slo shi] datac stop2].
  cbn [t_attention t_sync t_command t_stop t_tlt t_start t_data t_stop_data] in *.
  unfold session, transaction_annotations.
  cbn [t_attention t_sync t_command t_stop t_tlt t_start t_data t_stop_data fst snd].
  unfold metadata. rewrite Z.eqb_refl. cbn [negb].
  set (edges := run_edges false p0 _).
  rewrite (decode_nonzero_samplerate _ sr) by (try reflexivity; exact Hnz).
  unfold bind at 1.
  rewrite (checks_warnings _ sr) by reflexivity.
  set (W := samplerate_warnings sr).
  assert (Hfuel : (9 <= S (List.length (ahead (start (set_samplerate (Some sr) (reset opt edges))))))%nat).
  { cbn [ahead start reset set_samplerate set_done set_sample_data_start set_sample_reg_start
         set_sample_cmd_start set_sample_addr_start set_tend set_tstart set_rise set_fall
         set_data_word set_reg set_command set_address set_bit_count set_bit].
    unfold edges, transaction_runs.
    rewrite length_run_edges, !length_app, !length_cell_runs. cbn [List.length]. lia. }
  remember (S (List.length (ahead (start (set_samplerate (Some sr) (reset opt edges)))))) as fuel
    eqn:Efuel.
  clear Efuel.
  unfold edges, transaction_runs; clear edges.
  cbn [t_attention t_sync t_command t_stop t_tlt t_start t_data t_stop_data fst snd app
       cell_runs flat_map].
  fold (cell_runs cmdc). fold (cell_runs datac).
  rewrite <- !app_assoc. cbn [app]. rewrite <- !app_assoc. cbn [app].
  unfold start, reset; project. cbn [run_edges negb app].
  rewrite (run_edges_cons false (p0 + Z.of_nat att + Z.of_nat sync))
    by (destruct (cell_runs cmdc); discriminate).
  (* ATTENTION *)
  lazymatch goal with
  | |- exists d, while _ _ _ ?D = _ /\ _ => eassert (H1 : state_machine D = Return tt _)
  end.
  { rewrite state_machine_unfold. cbn [state].
    etransitivity;
      [ eapply ATTENTION_state_spec with (sr := sr);
        [reflexivity | exact Hnz | exec; reflexivity]
      | rewrite Z.add_simpl_l, Hatt; rebuild ]. }
  (* SYNC *)
  lazymatch type of H1 with
  | _ = Return tt ?D => eassert (H2 : state_machine D = Return tt _)
  end.
  { rewrite state_machine_unfold. cbn [state].
    etransitivity;
      [ eapply SYNC_state_spec with (sr := sr);
        [reflexivity | exact Hnz | exec; reflexivity]
      | project; rewrite Z.add_simpl_l, Hsync; rebuild ]. }
  (* COMMAND *)
  lazymatch type of H2 with
  | _ = Return tt ?D =>
      destruct (COMMAND_state_spec D sr cmdc cmd stop
                  (tlt :: slo :: shi :: cell_runs datac ++ [stop2; trailing]) label)
        as (d3 & H3 & Hopt3 & Hsr3 & Hdn3 & Hst3 & Hdw3 & _ & _ & _ & Hsn3 & Hfl3 & Hah3 & Hem3);
      [ reflexivity | exact Hnz | exact Hcmd | exact Hlc | reflexivity | reflexivity
      | reflexivity | exact Hlabel | reflexivity | ]
  end.
  destruct d3 as [o3 r3 st3 bt3 bc3 ad3 cm3 rg3 dw3 fl3 ri3 ts3 te3 a3 c3 g3 da3 dn3 sn3 ah3 em3 la3 lc3].
  fields_in Hopt3; fields_in Hsr3; fields_in Hdn3; fields_in Hst3; fields_in Hdw3; fields_in Hsn3;
  fields_in Hfl3; fields_in Hah3; fields_in Hem3.
  cbn [tl run_edges negb] in Hah3.
  subst o3 r3 dn3 st3 dw3 sn3 fl3 ah3 em3.
  set (p3 := cells_end (p0 + Z.of_nat att + Z.of_nat sync) cmdc) in *.
  (* STOP_CMD *)
  lazymatch type of H3 with
  | _ = Return tt ?D => eassert (H4 : state_machine D = Return tt _)
  end.
  { rewrite state_machine_unfold. cbn [state].
    etransitivity;
      [ eapply STOP_CMD_state_spec with (sr := sr);
        [reflexivity | exact Hnz | exec; reflexivity
        | project; rewrite Z.add_simpl_l; exact Hstop ]
      | rebuild ]. }
  (* TLT *)
  lazymatch type of H4 with
  | _ = Return tt ?D => eassert (H5 : state_machine D = Return tt _)
  end.
  { rewrite state_machine_unfold. cbn [state].
    etransitivity;
      [ eapply TLT_state_spec with (sr := sr);
        [reflexivity | exact Hnz | exec; reflexivity
        | project; rewrite Z.add_simpl_l; exact Htlt ]
      | rebuild ]. }
  (* START_DATA *)
  lazymatch type of H5 with
  | _ = Return tt ?D => eassert (H6 : state_machine D = Return tt _)
  end.
  { rewrite state_machine_unfold. cbn [state].
    etransitivity;
      [ eapply START_DATA_state_spec with (sr := sr) (lo := slo) (hi := shi);
        [reflexivity | exact Hnz | | exact Hstart ]
      | rebuild ].
    project. rewrite (run_edges_cons false) by (destruct (cell_runs datac); discriminate).
    reflexivity. }
  (* DATA *)
  lazymatch type of H6 with
  | _ = Return tt ?D =>
      destruct (DATA_state_spec D sr datac data stop2 [trailing])
        as (d7 & H7 & Hopt7 & Hsr7 & Hdn7 & Hst7 & Hdw7 & Hsn7 & Hfl7 & Hah7 & Hem7);
      [ reflexivity | exact Hnz | exact Hdata | exact Hld | reflexivity | reflexivity | ]
  end.
  destruct d7 as [o7 r7 st7 bt7 bc7 ad7 cm7 rg7 dw7 fl7 ri7 ts7 te7 a7 c7 g7 da7 dn7 sn7 ah7 em7 la7 lc7].
  fields_in Hopt7; fields_in Hsr7; fields_in Hdn7; fields_in Hst7; fields_in Hdw7; fields_in Hsn7;
  fields_in Hfl7; fields_in Hah7; fields_in Hem7.
  cbn [tl run_edges negb] in Hah7.
  subst o7 r7 dn7 st7 dw7 sn7 fl7 ah7 em7.
  set (p6 := p3 + Z.of_nat stop + Z.of_nat tlt + Z.of_nat slo + Z.of_nat shi) in *.
  set (p7 := cells_end p6 datac) in *.
  (* STOP_DATA *)
  lazymatch type of H7 with
  | _ = Return tt ?D => eassert (H8 : state_machine D = Return tt _)
  end.
  { rewrite state_machine_unfold. cbn [state].
    etransitivity;
      [ eapply STOP_DATA_state_spec with (sr := sr);
        [reflexivity | exact Hnz | exec; reflexivity
        | project; rewrite Z.add_simpl_l; exact Hstop2 ]
      | rebuild ]. }
  (* ATTENTION, and the stream ends *)
  lazymatch type of H8 with
  | _ = Return tt ?D => eassert (H9 : state_machine D = EndOfStream _)
  end.
  { rewrite state_machine_unfold. cbn [state].
    etransitivity;
      [ eapply ATTENTION_state_no_edge; reflexivity | rebuild ]. }
  lazymatch type of H9 with
  | _ = EndOfStream ?D => exists D
  end.
  split.
  - apply while_more_fuel with (n := 9%nat); [| intros d' Hd'; discriminate Hd' | exact Hfuel].
    eapply while_step; [reflexivity | exact H1 |].
    eapply while_step; [reflexivity | exact H2 |].
    eapply while_step; [reflexivity | rewrite state_machine_unfold; exact H3 |].
    eapply while_step; [reflexivity | exact H4 |].
    eapply while_step; [reflexivity | exact H5 |].
    eapply while_step; [reflexivity | exact H6 |].
    eapply while_step; [reflexivity | rewrite state_machine_unfold; exact H7 |].
    eapply while_step; [reflexivity | exact H8 |].
    eapply while_end; [reflexivity | exact H9].
  - project. unfold p7, p6, p3. rewrite <- !app_assoc. reflexivity.
Qed.

(** ** The loop bounds of the model are never hit *)

Lemma wp_bind {A B} (c : M A) (k : A -> M B) Q d :
  wp c (fun a d' => wp (k a) Q d') d -> wp (x <- c ;; k x) Q d.
Proof. unfold wp, bind. destruct (c d); auto. Qed.

Lemma wp_get {A} (field : Decoder -> A) Q d : Q (field d) d -> wp (get field) Q d.
Proof. exact (fun H => H). Qed.

Lemma wp_assign upd Q d : Q tt (upd d) -> wp (assign upd) Q d.
Proof. exact (fun H => H). Qed.

Lemma wp_ret {A} (a : A) Q d : Q a d -> wp (ret a) Q d.
Proof. exact (fun H => H). Qed.

Lemma wp_lift {A} (r : Exception + A) Q d : (forall a, Q a d) -> wp (lift r) Q d.
Proof. unfold wp, lift. destruct r; auto. Qed.

Lemma wp_read_local {A} (var : Decoder -> option A) Q d :
  (forall a, Q a d) -> wp (read_local var) Q d.
Proof. unfold wp, read_local. destruct (var d); auto. Qed.

Lemma wp_elapsed_us a b Q d : (forall t, Q t d) -> wp (elapsed_us a b) Q d.
Proof.
  unfold wp, elapsed_us, bind, read_samplerate. intros H.
  destruct (samplerate d) as [sr |]; [| exact I].
  destruct (sr =? 0); [exact I | apply H].
Qed.

(** An edge found leaves fewer edges ahead. *)
Lemma next_edge_length want : forall edges n rest,
  next_edge want edges = Some (n, rest) -> (List.length rest < List.length edges)%nat.
Proof.
  induction edges as [| e edges IH]; intros n rest H; [discriminate H |].
  cbn [next_edge] in H.
  destruct want, (direction e);
    try (injection H as _ <-; cbn; lia);
    apply IH in H; cbn; lia.
Qed.

Lemma wp_wait want Q d :
  (forall d', (remaining d' < remaining d)%nat -> Q tt d') -> wp (wait want) Q d.
Proof.
  unfold wp, wait. intros H.
  destruct (next_edge want (ahead d)) as [[n rest] |] eqn:E; [| exact I].
  apply H. apply next_edge_length in E. exact E.
Qed.

(** One statement of straight-line code. *)
Ltac wp_plain :=
  cbv beta;
  lazymatch goal with
  | |- wp (bind _ _) _ _ => apply wp_bind
  | |- wp (get _) _ _ => apply wp_get
  | |- wp (assign _) _ _ => apply wp_assign
  | |- wp (ret _) _ _ => apply wp_ret
  | |- wp (raise _) _ _ => exact I
  | |- wp (lift _) _ _ => apply wp_lift; intro
  | |- wp (read_local _) _ _ => apply wp_read_local; intro
  | |- wp (elapsed_us _ _) _ _ => apply wp_elapsed_us; intro
  | |- wp (wait _) _ _ =>
      let d' := fresh "d" in
      let H := fresh "Hlt" in
      apply wp_wait; intros d' H; unfold remaining in H; fields_in H
  | |- wp (put _ _ _) _ _ => unfold put
  | |- wp (putm _) _ _ => unfold putm
  | |- wp (putfs _) _ _ => unfold putfs
  | |- wp (putrs _) _ _ => unfold putrs
  | |- wp (if ?b then _ else _) _ _ => destruct b
  | |- wp (match ?x with Zero => _ | One => _ | Malformed => _ end) _ _ => destruct x
  end.

Lemma wp_read_bit_cell Q d :
  (forall cell d', (remaining d' < remaining d)%nat -> Q cell d') -> wp read_bit_cell Q d.
Proof.
  intros H. unfold read_bit_cell. repeat wp_plain.
  apply H. unfold remaining. fields. lia.
Qed.

Ltac wp_step :=
  cbv beta;
  lazymatch goal with
  | |- wp read_bit_cell _ _ =>
      let cell := fresh "cell" in
      let d' := fresh "d" in
      let H := fresh "Hlt" in
      apply wp_read_bit_cell; intros cell d' H; unfold remaining in H; fields_in H
  | |- _ => wp_plain
  end.

Ltac wp_run := repeat wp_step.

(** Ends a run with the fact [H] about the decoder it leaves. *)
Ltac wp_close H :=
  apply H; unfold remaining in *;
  repeat match goal with Hlt : (_ < _)%nat |- _ => progress fields_in Hlt end;
  fields; solve [lia | reflexivity].

Lemma wp_checks Q d :
  (forall d', remaining d' = remaining d -> Q tt d') -> wp checks Q d.
Proof.
  intros H. unfold wp, checks, bind, read_samplerate.
  destruct (samplerate d); [| exact I].
  destruct (_ <? _); [| destruct (_ <? _)]; apply H; reflexivity.
Qed.

(** Each state that returns has moved the cursor over an edge. *)
Lemma wp_ATTENTION_state Q d :
  (forall d', (remaining d' < remaining d)%nat -> Q tt d') -> wp ATTENTION_state Q d.
Proof. intros H. unfold ATTENTION_state. wp_run; wp_close H. Qed.

Lemma wp_SYNC_state Q d :
  (forall d', (remaining d' < remaining d)%nat -> Q tt d') -> wp SYNC_state Q d.
Proof. intros H. unfold SYNC_state. wp_run; wp_close H. Qed.

Lemma wp_STOP_CMD_state Q d :
  (forall d', (remaining d' < remaining d)%nat -> Q tt d') -> wp STOP_CMD_state Q d.
Proof. intros H. unfold STOP_CMD_state. wp_run; wp_close H. Qed.

Lemma wp_TLT_state Q d :
  (forall d', (remaining d' < remaining d)%nat -> Q tt d') -> wp TLT_state Q d.
Proof. intros H. unfold TLT_state. wp_run; wp_close H. Qed.

Lemma wp_STOP_DATA_state Q d :
  (forall d', (remaining d' < remaining d)%nat -> Q tt d') -> wp STOP_DATA_state Q d.
Proof. intros H. unfold STOP_DATA_state. wp_run; wp_close H. Qed.

Lemma wp_START_DATA_state Q d :
  (forall d', (remaining d' < remaining d)%nat -> Q tt d') -> wp START_DATA_state Q d.
Proof. intros H. unfold START_DATA_state. wp_run; cbv zeta; wp_run; wp_close H. Qed.

Lemma wp_DATA_bit Q d :
  (forall d', (remaining d' < remaining d)%nat -> Q tt d') -> wp DATA_bit Q d.
Proof. intros H. unfold DATA_bit. wp_run; wp_close H. Qed.

(** A pass of the COMMAND loop counts one bit, whatever the cell was. *)
Lemma wp_COMMAND_bit Q d :
  (forall d', (remaining d' < remaining d)%nat -> bit_count d' = bit_count d + 1 -> Q tt d') ->
  wp COMMAND_bit Q d.
Proof. intros H. unfold COMMAND_bit. wp_run; wp_close H. Qed.

(** A loop whose body moves the cursor ends within as many passes as there
    are edges ahead. *)
Lemma wp_while_edges cond body :
  (forall Q d, (forall d', (remaining d' < remaining d)%nat -> Q tt d') -> wp body Q d) ->
  forall fuel d (Q : unit -> Decoder -> Prop),
    (remaining d < fuel)%nat ->
    (forall d', (remaining d' <= remaining d)%nat ->
                (cond d = true -> (remaining d' < remaining d)%nat) -> Q tt d') ->
    wp (while fuel cond body) Q d.
Proof.
  intros Hbody. induction fuel as [| fuel IH]; intros d Q Hfuel HQ; [lia |].
  unfold wp. cbn [while]. destruct (cond d) eqn:Hc.
  - apply wp_bind, Hbody. intros d1 H1.
    apply IH; [lia |]. intros d' Hle _. apply HQ; [lia |]. intros _. lia.
  - apply HQ; [lia | discriminate].
Qed.

(** [while True] goes on until the stream ends or an exception is raised. *)
Lemma wp_while_True body :
  (forall Q d, (forall d', (remaining d' < remaining d)%nat -> Q tt d') -> wp body Q d) ->
  forall fuel d, (remaining d < fuel)%nat ->
    wp (while fuel (fun _ => true) body) (fun _ _ => False) d.
Proof.
  intros Hbody. induction fuel as [| fuel IH]; intros d Hfuel; [lia |].
  unfold wp. cbn [while].
  apply wp_bind, Hbody. intros d1 H1. apply IH. lia.
Qed.

(** Eight passes of the COMMAND loop bring [bit_count] from 0 to 8. *)
Lemma wp_COMMAND_loop : forall fuel d (Q : unit -> Decoder -> Prop),
  (0 < fuel)%nat -> 8 - bit_count d < Z.of_nat fuel ->
  (forall d', (remaining d' <= remaining d)%nat ->
              (bit_count d < 8 -> (remaining d' < remaining d)%nat) -> Q tt d') ->
  wp (while fuel (fun d => bit_count d <? 8) COMMAND_bit) Q d.
Proof.
  induction fuel as [| fuel IH]; intros d Q Hpos Hfuel HQ; [lia |].
  unfold wp. cbn [while]. destruct (bit_count d <? 8) eqn:Hc.
  - apply Z.ltb_lt in Hc.
    apply wp_bind, wp_COMMAND_bit. intros d1 H1 Hbc.
    apply IH; [lia | lia |]. intros d' Hle _. apply HQ; [lia |]. intros _. lia.
  - apply Z.ltb_ge in Hc. apply HQ; [lia | lia].
Qed.

Lemma wp_COMMAND_state Q d :
  (forall d', (remaining d' < remaining d)%nat -> Q tt d') -> wp COMMAND_state Q d.
Proof.
  intros H. unfold COMMAND_state.
  do 2 wp_step. apply wp_bind, wp_COMMAND_loop; [lia | cbn; lia |].
  fields. intros d1 _ H1. specialize (H1 ltac:(lia)).
  wp_run; wp_close H.
Qed.

Lemma wp_DATA_state Q d :
  (forall d', (remaining d' < remaining d)%nat -> Q tt d') -> wp DATA_state Q d.
Proof.
  intros H. unfold DATA_state.
  do 9 wp_step.
  apply (wp_while_edges _ _ wp_DATA_bit); [unfold remaining; fields; lia |].
  fields. intros d1 _ H1. specialize (H1 eq_refl). unfold remaining in H1. fields_in H1.
  wp_run; wp_close H.
Qed.

Lemma wp_state_machine Q d :
  (forall d', (remaining d' < remaining d)%nat -> Q tt d') -> wp state_machine Q d.
Proof.
  intros H. unfold state_machine. apply wp_bind, wp_get.
  destruct (state d);
    [ apply wp_ATTENTION_state | apply wp_SYNC_state | apply wp_COMMAND_state
    | apply wp_STOP_CMD_state | apply wp_TLT_state | apply wp_START_DATA_state
    | apply wp_DATA_state | apply wp_STOP_DATA_state ]; exact H.
Qed.

(** X1.  [decode] does not return and the loop bounds of the model are
    never hit: every run ends at the end of the stream or in an exception. *)
Theorem decode_ends d :
  exists d', decode d = EndOfStream d' \/ exists e, decode d = Raised e d'.
Proof.
  assert (H : wp decode (fun _ _ => False) d).
  { unfold wp, decode. destruct (not_samplerate d); [exact I |].
    apply wp_bind, wp_checks. intros d1 H1.
    apply (wp_while_True _ wp_state_machine). unfold remaining in *. lia. }
  unfold wp in H. destruct (decode d) as [a d' | d' | e d' | d']; try contradiction.
  - exists d'. left. reflexivity.
  - exists d'. right. exists e. reflexivity.
Qed.

(** ** From samples to edges *)

Lemma edges_from_same level n : forall pos rest,
  edges_from level pos (repeat level n ++ rest) = edges_from level (pos + Z.of_nat n) rest.
Proof.
  induction n as [| n IH]; intros pos rest.
  - cbn [repeat app Z.of_nat]. rewrite Z.add_0_r. reflexivity.
  - cbn [repeat app edges_from]. rewrite IH.
    replace (pos + 1 + Z.of_nat n) with (pos + Z.of_nat (S n)) by lia.
    destruct level; reflexivity.
Qed.

Lemma edges_from_runs lengths : forall level pos,
  Forall (fun n => (0 < n)%nat) lengths ->
  edges_from (negb level) pos (runs level lengths) = run_edges level pos lengths.
Proof.
  induction lengths as [| n lengths IH]; intros level pos Hpos; [reflexivity |].
  inversion Hpos as [| ? ? Hn Hrest]; subst.
  destruct n as [| n]; [lia |].
  cbn [runs repeat app edges_from run_edges].
  replace (match negb level, level with
           | true, false => mkEdge Falling pos :: edges_from level (pos + 1)
                              (repeat level n ++ runs (negb level) lengths)
           | false, true => mkEdge Rising pos :: edges_from level (pos + 1)
                              (repeat level n ++ runs (negb level) lengths)
           | _, _ => edges_from level (pos + 1) (repeat level n ++ runs (negb level) lengths)
           end)
    with (mkEdge (if level then Rising else Falling) pos
            :: edges_from level (pos + 1) (repeat level n ++ runs (negb level) lengths))
    by (destruct level; reflexivity).
  rewrite edges_from_same.
  pose proof (IH (negb level) (pos + 1 + Z.of_nat n) Hrest) as Hrec.
  rewrite negb_involutive in Hrec. rewrite Hrec.
  replace (pos + 1 + Z.of_nat n) with (pos + Z.of_nat (S n)) by lia.
  reflexivity.
Qed.

(** The edges of a capture: those of its transaction, the first at the
    sample where the idle time ends. *)
Lemma edges_of_capture idle t trailing :
  Forall (fun n => (0 < n)%nat) (idle :: transaction_runs t ++ [trailing]) ->
  edges_of_samples (capture idle t trailing)
  = run_edges false (Z.of_nat idle) (transaction_runs t ++ [trailing]).
Proof.
  intros Hpos. inversion Hpos as [| ? ? Hidle Hrest]; subst.
  destruct idle as [| idle]; [lia |].
  unfold capture, edges_of_samples. cbn [runs repeat app negb].
  rewrite edges_from_same.
  rewrite (edges_from_runs _ false) by exact Hrest.
  replace (1 + Z.of_nat idle) with (Z.of_nat (S idle)) by lia.
  reflexivity.
Qed.

(** ** The nominal transaction at 1 MHz *)

Lemma nominal_cells_read bits :
  Forall2 (reads 1000000) (map nominal_cell bits) bits.
Proof.
  induction bits as [| b bits IH]; cbn [map]; constructor; [| exact IH].
  destruct b; vm_compute; reflexivity.
Qed.

Lemma nominal_well_timed opt cmd data :
  well_timed opt 1000000 (nominal_transaction cmd data) cmd data.
Proof.
  unfold well_timed, nominal_transaction.
  cbn [t_attention t_sync t_command t_stop t_tlt t_start t_data t_stop_data].
  repeat split; try apply nominal_cells_read; destruct opt; vm_compute; reflexivity.
Qed.

Lemma nominal_cells_positive bits :
  Forall (fun n => (0 < n)%nat) (cell_runs (map nominal_cell bits)).
Proof.
  induction bits as [| b bits IH]; [constructor |].
  cbn [map cell_runs flat_map app]. fold (cell_runs (map nominal_cell bits)).
  destruct b; cbn [nominal_cell fst snd]; repeat constructor; try lia; exact IH.
Qed.

Lemma nominal_positive cmd data idle trailing :
  (0 < idle)%nat -> (0 < trailing)%nat ->
  Forall (fun n => (0 < n)%nat)
    (idle :: transaction_runs (nominal_transaction cmd data) ++ [trailing]).
Proof.
  intros Hi Ht. constructor; [exact Hi |].
  unfold transaction_runs, nominal_transaction.
  cbn [t_attention t_sync t_command t_stop t_tlt t_start t_data t_stop_data].
  repeat (apply Forall_app; split); try apply nominal_cells_positive;
    repeat constructor; try lia; exact Ht.
Qed.

(** ** The annotations above bit level *)

Lemma field_events_app xs ys :
  field_events (xs ++ ys) = field_events xs ++ field_events ys.
Proof. unfold field_events. rewrite filter_app, map_app. reflexivity. Qed.

Lemma field_events_bits idx (Hidx : is_bit_class idx = true) cells : forall pos bits,
  field_events (bit_annotations idx pos cells bits) = [].
Proof.
  induction cells as [| c cells IH]; intros pos bits; [reflexivity |].
  destruct bits as [| b bits]; [reflexivity |].
  cbn [bit_annotations]. unfold field_events. cbn [filter ann_idx].
  rewrite Hidx. cbn [negb]. apply IH.
Qed.

Lemma field_events_COMMAND pos cells bits label :
  field_events (COMMAND_annotations pos cells bits label)
  = [ (12, address_text (msb_first (firstn 4 bits))); (11, label);
      (13, register_text (msb_first (skipn 6 bits))) ].
Proof.
  unfold COMMAND_annotations. cbv zeta.
  rewrite !field_events_app, !field_events_bits by reflexivity.
  reflexivity.
Qed.

Lemma field_events_transaction p0 t cmd data label :
  field_events (transaction_annotations p0 t cmd data label)
  = ten_events (msb_first (firstn 4 cmd)) label (msb_first (skipn 6 cmd)) (msb_first data).
Proof.
  unfold transaction_annotations. cbv zeta.
  rewrite !field_events_app, field_events_COMMAND, field_events_bits by reflexivity.
  reflexivity.
Qed.

Lemma field_events_warnings sr :
  field_events (samplerate_warnings sr) = map event (samplerate_warnings sr).
Proof.
  unfold samplerate_warnings.
  destruct (sr <? 400000); [reflexivity |]. destruct (sr <? 1000000); reflexivity.
Qed.

(** ** A valid transaction, decoded *)

(** C3, as the code has it.  A capture of one transaction whose timing
    passes the decoder's own conditions and whose 2-bit command has a label
    (0, 2 or 3) is decoded to the end of the stream: after the sample-rate
    warning, if any, the annotations are Attention, Sync, four address bits,
    Address, two command bits, Command, two register bits, Register, Stop,
    Stop-to-Start, Start, sixteen data bits, Data, Stop, each over its span;
    above bit level these are the ten events of the spec, with the values
    the bit cells spell most significant bit first.  The transaction of the
    spec (800 us, 65 us, 70 us, 200 us, 70 us, cells of 100 us) at 1 MHz is
    such a capture under both tolerance options, for all bit patterns; with
    the data bits of 5 its Data annotation reads "Data: 0x0005". *)
Theorem decode_valid_transaction :
  (forall opt sr t cmd data label idle trailing,
      sr <> 0 -> List.length cmd = 8%nat -> List.length data = 16%nat ->
      Forall (fun n => (0 < n)%nat) (idle :: transaction_runs t ++ [trailing]) ->
      well_timed opt sr t cmd data ->
      command_label (msb_first (firstn 2 (skipn 4 cmd))) = Some label ->
      exists d,
        session opt (Some sr) (edges_of_samples (capture idle t trailing)) = EndOfStream d /\
        emitted d = samplerate_warnings sr
                      ++ transaction_annotations (Z.of_nat idle) t cmd data label /\
        field_events (emitted d) =
          map event (samplerate_warnings sr)
            ++ ten_events (msb_first (firstn 4 cmd)) label (msb_first (skipn 6 cmd))
                 (msb_first data)) /\
  (forall opt cmd data label idle trailing,
      List.length cmd = 8%nat -> List.length data = 16%nat ->
      (0 < idle)%nat -> (0 < trailing)%nat ->
      command_label (msb_first (firstn 2 (skipn 4 cmd))) = Some label ->
      exists d,
        session opt (Some 1000000)
          (edges_of_samples (capture idle (nominal_transaction cmd data) trailing))
          = EndOfStream d /\
        emitted d = transaction_annotations (Z.of_nat idle) (nominal_transaction cmd data)
                      cmd data label /\
        field_events (emitted d) =
          ten_events (msb_first (firstn 4 cmd)) label (msb_first (skipn 6 cmd))
            (msb_first data)) /\
  (exists d,
      session strict (Some 1000000)
        (edges_of_samples
           (capture 10 (nominal_transaction (bits_of 8 0x5C) (bits_of 16 5)) 50))
        = EndOfStream d /\
      field_events (emitted d) =
        [ (1, attention_texts); (2, sync_texts);
          (12, ["Address: 0x5"]%string); (11, ["Talk"; "Tlk"; "T"]%string);
          (13, ["Register: 0x0"]%string); (4, stop_texts); (9, tlt_texts);
          (3, start_texts); (14, ["Data: 0x0005"]%string); (4, stop_texts) ]).
Proof.
  assert (Hgen : forall opt sr t cmd data label idle trailing,
      sr <> 0 -> List.length cmd = 8%nat -> List.length data = 16%nat ->
      Forall (fun n => (0 < n)%nat) (idle :: transaction_runs t ++ [trailing]) ->
      well_timed opt sr t cmd data ->
      command_label (msb_first (firstn 2 (skipn 4 cmd))) = Some label ->
      exists d,
        session opt (Some sr) (edges_of_samples (capture idle t trailing)) = EndOfStream d /\
        emitted d = samplerate_warnings sr
                      ++ transaction_annotations (Z.of_nat idle) t cmd data label /\
        field_events (emitted d) =
          map event (samplerate_warnings sr)
            ++ ten_events (msb_first (firstn 4 cmd)) label (msb_first (skipn 6 cmd))
                 (msb_first data)).
  { intros opt sr t cmd data label idle trailing Hnz Hlc Hld Hpos Hwt Hlabel.
    rewrite (edges_of_capture idle t trailing Hpos).
    destruct (decode_transaction opt sr t cmd data label (Z.of_nat idle) trailing
                Hnz Hlc Hld Hwt Hlabel) as (d & Hrun & Hem).
    exists d. split; [exact Hrun |]. split; [exact Hem |].
    rewrite Hem, field_events_app, field_events_warnings, field_events_transaction.
    reflexivity. }
  split; [exact Hgen |].
  split; [| eexists; split; vm_compute; reflexivity].
  intros opt cmd data label idle trailing Hlc Hld Hidle Htrail Hlabel.
  destruct (Hgen opt 1000000 (nominal_transaction cmd data) cmd data label idle trailing)
    as (d & Hrun & Hem & Hev); try assumption.
  - discriminate.
  - apply nominal_positive; assumption.
  - apply nominal_well_timed.
  - exists d. split; [exact Hrun |]. split; [exact Hem | exact Hev].
Qed.

Lemma decode_valid_transaction_witness :
  (List.length (bits_of 8 0x5C) = 8%nat /\ List.length (bits_of 16 0x1234) = 16%nat /\
   (0 < 10)%nat /\ (0 < 50)%nat /\
   command_label (msb_first (firstn 2 (skipn 4 (bits_of 8 0x5C))))
     = Some ["Talk"; "Tlk"; "T"]%string) /\
  exists d,
    session strict (Some 1000000) (edges_of_samples (capture 10 talk_transaction 50))
      = EndOfStream d /\
    emitted d = transaction_annotations 10 talk_transaction (bits_of 8 0x5C)
                  (bits_of 16 0x1234) ["Talk"; "Tlk"; "T"]%string /\
    field_events (emitted d) =
      ten_events 5 ["Talk"; "Tlk"; "T"]%string 0 0x1234.
Proof.
  split; [repeat split; lia |].
  exact (proj1 (proj2 decode_valid_transaction) strict (bits_of 8 0x5C) (bits_of 16 0x1234)
           ["Talk"; "Tlk"; "T"]%string 10%nat 50%nat
           eq_refl eq_refl (Nat.lt_0_succ 9) (Nat.lt_0_succ 49) eq_refl).
Defined.

(** C3, as the claim has it, fails for the command bits 01: the run ends in
    [UnboundLocalError] after Attention, Sync and Address, so that neither
    the annotations nor those above bit level are the ten events, whatever
    label one allows for the command.  And for the command bits 11 (Talk),
    where the ten events do come in order, they are not all that is put:
    the 34 annotations have the 24 bits between them. *)
Lemma decode_command_one_counterexample :
  (exists d,
      session strict (Some 1000000) (edges_of_samples (capture 10 command_one_transaction 50))
        = Raised UnboundLocalError d /\
      well_timed strict 1000000 command_one_transaction (bits_of 8 0x54) (bits_of 16 0x1234) /\
      forall label,
        field_events (emitted d) <> ten_events 5 label 0 0x1234 /\
        map event (emitted d) <> ten_events 5 label 0 0x1234) /\
  (exists d,
      session strict (Some 1000000) (edges_of_samples (capture 10 talk_transaction 50))
        = EndOfStream d /\
      List.length (emitted d) = 34%nat /\
      map event (emitted d) <> ten_events 5 ["Talk"; "Tlk"; "T"]%string 0 0x1234 /\
      field_events (emitted d) = ten_events 5 ["Talk"; "Tlk"; "T"]%string 0 0x1234).
Proof.
  split.
  - eexists. split; [vm_compute; reflexivity |].
    split; [apply nominal_well_timed |].
    intros label. split; intros H; vm_compute in H; discriminate H.
  - eexists. split; [vm_compute; reflexivity |].
    split; [reflexivity |].
    split; [intros H; vm_compute in H; discriminate H | vm_compute; reflexivity].
Qed.

(** ** Bit order of the fields *)

(** ["{:04x}".format] pads to four digits and cuts nothing off. *)
Lemma format_04x_pads :
  map format_04x [0; 5; 0x12; 0x123; 0x1234; 0xabcd; 0x12345; -5]
  = ["0000"; "0005"; "0012"; "0123"; "1234"; "abcd"; "12345"; "-005"]%string.
Proof. reflexivity. Qed.

(** C9.  From cleared accumulators, eight well-formed command cells leave
    the address, the command and the register equal to what their four, two
    and two bits spell most significant bit first, and put Address, Command
    and Register with these values, the command as Flush for 0, Listen for 2
    and Talk for 3; sixteen well-formed data cells leave the data word equal
    to what they spell most significant bit first and put Data with it.  The
    COMMAND loop shifts by the bit count before adding 1 to it, the DATA loop
    after; both come out the same way round.  The address bits 0101 give 5,
    put as "Address: 0x5"; the data bits of 5 give 5, put as
    "Data: 0x0005". *)
Theorem fields_msb_first :
  (forall d sr cells bits m more label,
      samplerate d = Some sr -> sr <> 0 ->
      Forall2 (reads sr) cells bits -> List.length bits = 8%nat ->
      address d = 0 -> command d = 0 -> reg d = 0 ->
      command_label (msb_first (firstn 2 (skipn 4 bits))) = Some label ->
      ahead d = tl (run_edges false (samplenum d) (cell_runs cells ++ m :: more)) ->
      exists d' put,
        COMMAND_state d = Return tt d' /\
        address d' = msb_first (firstn 4 bits) /\
        command d' = msb_first (firstn 2 (skipn 4 bits)) /\
        reg d' = msb_first (skipn 6 bits) /\
        emitted d' = emitted d ++ put /\
        field_events put =
          [ (12, ["Address: " ++ hex (address d')]%string); (11, label);
            (13, ["Register: " ++ hex (reg d')]%string) ]) /\
  (forall d sr cells bits m more,
      samplerate d = Some sr -> sr <> 0 ->
      Forall2 (reads sr) cells bits -> List.length bits = 16%nat ->
      data_word d = 0 ->
      ahead d = tl (run_edges false (samplenum d) (cell_runs cells ++ m :: more)) ->
      exists d' put,
        DATA_state d = Return tt d' /\
        data_word d' = msb_first bits /\
        emitted d' = emitted d ++ put /\
        field_events put = [ (14, ["Data: 0x" ++ format_04x (data_word d')]%string) ]) /\
  command_label 0 = Some ["Flush"; "Flsh"; "Fl"; "F"]%string /\
  command_label 2 = Some ["Listen"; "Lst"; "L"]%string /\
  command_label 3 = Some ["Talk"; "Tlk"; "T"]%string /\
  msb_first [false; true; false; true] = 5 /\
  ["Address: " ++ hex 5]%string = ["Address: 0x5"]%string /\
  msb_first (bits_of 16 0x1234) = 0x1234 /\
  msb_first (bits_of 16 5) = 5 /\
  ["Data: 0x" ++ format_04x 5]%string = ["Data: 0x0005"]%string.
Proof.
  split; [| split; [| repeat split; reflexivity]].
  - intros d sr cells bits m more label Hsr Hnz Hall Hlen Had Hcm Hrg Hlabel Hah.
    destruct (COMMAND_state_spec d sr cells bits m more label
                Hsr Hnz Hall Hlen Had Hcm Hrg Hlabel Hah)
      as (d' & Hrun & _ & _ & _ & _ & _ & Ha & Hc & Hr & _ & _ & _ & Hem).
    exists d', (COMMAND_annotations (samplenum d) cells bits label).
    repeat split; try assumption.
    rewrite field_events_COMMAND, Ha, Hr. reflexivity.
  - intros d sr cells bits m more Hsr Hnz Hall Hlen Hdw Hah.
    destruct (DATA_state_spec d sr cells bits m more Hsr Hnz Hall Hlen Hdw Hah)
      as (d' & Hrun & _ & _ & _ & _ & Hdw' & _ & _ & _ & Hem).
    eexists d', _.
    repeat split; try eassumption.
    rewrite field_events_app, field_events_bits, Hdw' by reflexivity.
    reflexivity.
Qed.

Lemma fields_msb_first_witness :
  let d := entering COMMAND (bits_of 8 0x5C) in
  (samplerate d = Some 1000000 /\ 1000000 <> 0 /\
   Forall2 (reads 1000000) (map nominal_cell (bits_of 8 0x5C)) (bits_of 8 0x5C) /\
   List.length (bits_of 8 0x5C) = 8%nat /\
   address d = 0 /\ command d = 0 /\ reg d = 0 /\
   command_label (msb_first (firstn 2 (skipn 4 (bits_of 8 0x5C))))
     = Some ["Talk"; "Tlk"; "T"]%string /\
   ahead d = tl (run_edges false (samplenum d)
                   (cell_runs (map nominal_cell (bits_of 8 0x5C)) ++ [70; 50]%nat))) /\
  exists d' put,
    COMMAND_state d = Return tt d' /\
    address d' = msb_first (firstn 4 (bits_of 8 0x5C)) /\
    command d' = msb_first (firstn 2 (skipn 4 (bits_of 8 0x5C))) /\
    reg d' = msb_first (skipn 6 (bits_of 8 0x5C)) /\
    emitted d' = emitted d ++ put /\
    field_events put =
      [ (12, ["Address: " ++ hex (address d')]%string); (11, ["Talk"; "Tlk"; "T"]%string);
        (13, ["Register: " ++ hex (reg d')]%string) ].
Proof.
  cbv zeta.
  assert (Hrd : Forall2 (reads 1000000) (map nominal_cell (bits_of 8 0x5C)) (bits_of 8 0x5C))
    by apply nominal_cells_read.
  split.
  - repeat split; try reflexivity; try discriminate. exact Hrd.
  - apply (proj1 fields_msb_first (entering COMMAND (bits_of 8 0x5C)) 1000000
             (map nominal_cell (bits_of 8 0x5C)) (bits_of 8 0x5C) 70%nat [50%nat]
             ["Talk"; "Tlk"; "T"]%string);
      try reflexivity; try discriminate. exact Hrd.
Defined.

(** * Further properties of the decoder *)

(** ** The two tolerance options and the stop bit *)

(** [<=] on binary64 numbers is transitive; a NaN compares with nothing. *)
Lemma SFleb_trans x y z :
  SFleb x y = true -> SFleb y z = true -> SFleb x z = true.
Proof.
  unfold SFleb.
  destruct x as [sx | sx | | sx mx ex], y as [sy | sy | | sy my ey],
           z as [sz | sz | | sz mz ez];
    cbn [SFcompare];
    try discriminate; try reflexivity;
    repeat match goal with
           | s : bool |- _ => destruct s
           end;
    try discriminate; try reflexivity.
  all: rewrite ?Pos.compare_cont_spec.
  all: destruct (Z.compare_spec ex ey), (Z.compare_spec ey ez), (Z.compare_spec ex ez);
       try discriminate; try reflexivity; try lia; cbn [Pos.switch_Eq CompOpp].
  all: subst.
  all: destruct (Pos.compare_spec mx my), (Pos.compare_spec my mz), (Pos.compare_spec mx mz);
       cbn; try discriminate; try reflexivity; try lia.
Qed.

Lemma float_le_trans x y z : float_le x y -> float_le y z -> float_le x z.
Proof. unfold float_le. rewrite !leb_spec. apply SFleb_trans. Qed.

(** X10.  Whatever width [check_tolerance] accepts for a timing value under
    the strict option it accepts under the relaxed one: the relaxed window
    contains the strict one, for each entry of the timing table. *)
Theorem relaxed_accepts_what_strict_accepts :
  forall width type,
    check_tolerance strict width type = true -> check_tolerance relaxed width type = true.
Proof.
  intros width type H.
  apply check_tolerance_in_window in H. apply check_tolerance_in_window.
  destruct H as [Hlo Hhi]. split.
  - eapply float_le_trans; [| exact Hlo]. destruct type; vm_compute; reflexivity.
  - eapply float_le_trans; [exact Hhi |]. destruct type; vm_compute; reflexivity.
Qed.

(** X11.  No width is accepted both as a stop bit and as a stop bit with
    service request, under either option: the two windows are apart, so the
    order of the two tests in STOP_CMD and STOP_DATA decides nothing. *)
Theorem STOP_and_STOP_SREQ_exclusive :
  forall opt width,
    check_tolerance opt width Timing.STOP = true ->
    check_tolerance opt width Timing.STOP_SREQ = false.
Proof.
  intros opt width H.
  destruct (check_tolerance opt width Timing.STOP_SREQ) eqn:H'; [| reflexivity].
  apply check_tolerance_in_window in H, H'.
  destruct H as [_ Hhi], H' as [Hlo _].
  pose proof (float_le_trans _ _ _ Hlo Hhi) as Habs.
  destruct opt; vm_compute in Habs; discriminate Habs.
Qed.

Lemma relaxed_accepts_what_strict_accepts_witness :
  check_tolerance strict 63 Timing.SYNC = true /\
  check_tolerance relaxed 63 Timing.SYNC = true.
Proof.
  assert (H : check_tolerance strict 63 Timing.SYNC = true) by (vm_compute; reflexivity).
  split; [exact H |].
  exact (relaxed_accepts_what_strict_accepts 63%float Timing.SYNC H).
Defined.

Lemma STOP_and_STOP_SREQ_exclusive_witness :
  check_tolerance relaxed 70 Timing.STOP = true /\
  check_tolerance relaxed 70 Timing.STOP_SREQ = false.
Proof.
  assert (H : check_tolerance relaxed 70 Timing.STOP = true) by (vm_compute; reflexivity).
  split; [exact H |].
  exact (STOP_and_STOP_SREQ_exclusive relaxed 70%float H).
Defined.

(** ** Every pass moves the cursor *)

(** X2.  A pass of the state machine that returns has taken at least one edge
    off the line, whatever the state and the timing: no state can be passed
    through without input. *)
Theorem state_machine_moves_cursor d d' :
  state_machine d = Return tt d' ->
  (List.length (ahead d') < List.length (ahead d))%nat.
Proof.
  intros Hrun.
  assert (H : wp state_machine (fun _ d' => (remaining d' < remaining d)%nat) d).
  { apply wp_state_machine. intros d1 H1. exact H1. }
  unfold wp in H. rewrite Hrun in H. exact H.
Qed.

Lemma state_machine_moves_cursor_witness :
  let d := set_state SYNC
             (start (metadata SRD_CONF_SAMPLERATE 1000000
                       (reset strict [mkEdge Falling 63]))) in
  let d' := final (state_machine d) in
  state_machine d = Return tt d' /\
  (List.length (ahead d') < List.length (ahead d))%nat.
Proof.
  intros d d'.
  assert (Hrun : state_machine d = Return tt d') by (vm_compute; reflexivity).
  split; [exact Hrun |].
  exact (state_machine_moves_cursor d d' Hrun).
Defined.

(** ** Runs with all their ways out *)

Section Post.

Context {A : Type} (Q : A -> Decoder -> Prop)
  (E : Exception -> Decoder -> Prop) (S : Decoder -> Prop) (d : Decoder).

Lemma post_bind {B} (c : M B) (k : B -> M A) :
  post c (fun a d' => post (k a) Q E S d') E S d -> post (x <- c ;; k x) Q E S d.
Proof. unfold post, bind. destruct (c d); auto. Qed.

Lemma post_ret (a : A) : Q a d -> post (ret a) Q E S d.
Proof. exact (fun H => H). Qed.

Lemma post_get (field : Decoder -> A) : Q (field d) d -> post (get field) Q E S d.
Proof. exact (fun H => H). Qed.

Lemma post_raise e : E e d -> post (raise e) Q E S d.
Proof. exact (fun H => H). Qed.

Lemma post_lift (r : Exception + A) :
  (forall a, r = inr a -> Q a d) -> (forall e, r = inl e -> E e d) ->
  post (lift r) Q E S d.
Proof. unfold post, lift. destruct r; auto. Qed.

Lemma post_read_local (var : Decoder -> option A) :
  (forall a, var d = Some a -> Q a d) -> (var d = None -> E UnboundLocalError d) ->
  post (read_local var) Q E S d.
Proof. unfold post, read_local. destruct (var d); auto. Qed.

End Post.

Section PostUnit.

Context (Q : unit -> Decoder -> Prop)
  (E : Exception -> Decoder -> Prop) (S : Decoder -> Prop) (d : Decoder).

Lemma post_assign upd : Q tt (upd d) -> post (assign upd) Q E S d.
Proof. exact (fun H => H). Qed.

Lemma post_wait want :
  (forall n rest, next_edge want (ahead d) = Some (n, rest) -> Q tt (set_cursor n rest d)) ->
  (next_edge want (ahead d) = None -> S d) ->
  post (wait want) Q E S d.
Proof.
  unfold post, wait. intros HQ HS.
  destruct (next_edge want (ahead d)) as [[n rest] |]; auto.
Qed.

End PostUnit.

Lemma post_elapsed_us (Q : float -> Decoder -> Prop) E S d a b :
  (forall t, Q t d) ->
  (samplerate d = None -> E TypeError d) ->
  (samplerate d = Some 0 -> E ZeroDivisionError d) ->
  post (elapsed_us a b) Q E S d.
Proof.
  unfold post, elapsed_us, bind, read_samplerate. intros HQ HT HZ.
  destruct (samplerate d) as [sr |]; [| auto].
  destruct (sr =? 0) eqn:Hsr; [| apply HQ].
  apply Z.eqb_eq in Hsr. subst. exact (HZ eq_refl).
Qed.

Lemma post_checks (Q : unit -> Decoder -> Prop) E S d :
  (forall sr, samplerate d = Some sr -> Q tt (set_emitted (emitted d ++ samplerate_warnings sr) d)) ->
  (samplerate d = None -> E TypeError d) ->
  post checks Q E S d.
Proof.
  unfold post, checks, bind, read_samplerate, samplerate_warnings. intros HQ HT.
  destruct (samplerate d) as [sr |] eqn:Hsr; [| auto].
  specialize (HQ sr eq_refl).
  destruct (sr <? 400000); [exact HQ |]. destruct (sr <? 1000000); [exact HQ |].
  cbn. rewrite app_nil_r in HQ. destruct d; exact HQ.
Qed.

Lemma float_div_raises x y e : float_div x y = inl e -> e = ZeroDivisionError.
Proof. unfold float_div. destruct (y =? 0)%float; congruence. Qed.

Lemma classify_bit_raises lo hi e : classify_bit lo hi = inl e -> e = ZeroDivisionError.
Proof.
  unfold classify_bit.
  destruct (float_div lo _) eqn:E1; [intros [= <-]; eapply float_div_raises; eassumption |].
  destruct (_ <? _)%float; [discriminate |].
  destruct (float_div hi _) eqn:E2; [intros [= <-]; eapply float_div_raises; eassumption |].
  destruct (_ <? _)%float; discriminate.
Qed.

(** One statement, with the exits it may take. *)
Ltac post_step :=
  cbv beta;
  lazymatch goal with
  | |- post (bind _ _) _ _ _ _ => apply post_bind
  | |- post (get _) _ _ _ _ => apply post_get; cbv beta; fields
  | |- post (assign _) _ _ _ _ => apply post_assign
  | |- post (ret _) _ _ _ _ => apply post_ret
  | |- post (raise _) _ _ _ _ => apply post_raise
  | |- post (lift _) _ _ _ _ =>
      let a := fresh "a" in
      let e := fresh "e" in
      let H := fresh "Hdiv" in
      apply post_lift; [intros a _ | intros e H]
  | |- post (read_local _) _ _ _ _ =>
      let a := fresh "a" in
      let H := fresh "Hlocal" in
      apply post_read_local; [intros a H | intros H]; fields_in H
  | |- post (elapsed_us _ _) _ _ _ _ =>
      let t := fresh "t" in
      let H := fresh "Hrate" in
      apply post_elapsed_us; [intros t | intros H | intros H]; try fields_in H
  | |- post (wait _) _ _ _ _ =>
      let n := fresh "n" in
      let rest := fresh "rest" in
      let H := fresh "Hedge" in
      apply post_wait; [intros n rest H | intros H]; fields_in H
  | |- post (put _ _ _) _ _ _ _ => unfold put
  | |- post (putm _) _ _ _ _ => unfold putm
  | |- post (putfs _) _ _ _ _ => unfold putfs
  | |- post (putrs _) _ _ _ _ => unfold putrs
  | |- post read_bit_cell _ _ _ _ => unfold read_bit_cell
  | |- post (if ?b then _ else _) _ _ _ _ =>
      let H := fresh "Hif" in destruct b eqn:H
  | |- post (match ?x with Zero => _ | One => _ | Malformed => _ end) _ _ _ _ => destruct x
  end.

Ltac post_run := repeat post_step.

Lemma post_conseq {A} (c : M A) (Q Q' : A -> Decoder -> Prop) E S d :
  post c Q E S d -> (forall a d', Q a d' -> Q' a d') -> post c Q' E S d.
Proof. unfold post. destruct (c d); auto. Qed.

(** Sequencing through a fact [I] that holds between two statements. *)
Lemma post_cut {A B} (c : M A) (k : A -> M B) (I : Decoder -> Prop) Q E S d :
  post c (fun _ => I) E S d ->
  (forall a d', I d' -> post (k a) Q E S d') ->
  post (x <- c ;; k x) Q E S d.
Proof.
  intros Hc Hk. apply post_bind. eapply post_conseq; [exact Hc |].
  cbv beta. intros a d' HI. apply Hk, HI.
Qed.

(** What [wp] and [post] say of one run hold together. *)
Lemma post_wp {A} (c : M A) (P Q : A -> Decoder -> Prop) E S d :
  wp c P d -> post c Q E S d -> post c (fun a d' => P a d' /\ Q a d') E S d.
Proof. unfold wp, post. destruct (c d); auto. Qed.

(** A loop under an invariant, with a measure that every pass lowers. *)
Lemma post_while (I : Decoder -> Prop) (measure : Decoder -> nat) cond body E S :
  (forall d, I d -> cond d = true ->
     post body (fun _ d' => I d' /\ (measure d' < measure d)%nat) E S d) ->
  forall fuel d, I d -> (measure d < fuel)%nat ->
    post (while fuel cond body) (fun _ d' => I d' /\ cond d' = false) E S d.
Proof.
  intros Hbody. induction fuel as [| fuel IH]; intros d HI Hfuel; [lia |].
  unfold post. cbn [while]. destruct (cond d) eqn:Hc; [| split; assumption].
  apply post_bind. eapply post_conseq; [apply Hbody; assumption |].
  cbv beta. intros _ d1 [HI1 Hlt]. apply IH; [assumption | lia].
Qed.

Section Loops.

Variables (I : Decoder -> Prop) (E : Exception -> Decoder -> Prop) (S : Decoder -> Prop).

Lemma post_COMMAND_state (Q : unit -> Decoder -> Prop) d :
  (forall d, I d -> post COMMAND_bit (fun _ => I) E S d) ->
  I (set_bit_count 0 d) ->
  (forall d', I d' ->
     Q tt (set_state STOP_CMD
             (set_emitted (emitted d' ++ [mkAnn (sample_reg_start d') (samplenum d') 13
                                            ["Register: " ++ hex (reg d')]%string]) d'))) ->
  post COMMAND_state Q E S d.
Proof.
  intros Hbit H0 HQ. unfold COMMAND_state.
  apply post_bind, post_assign. cbv beta. apply post_bind.
  eapply post_conseq;
    [ apply (post_while I command_bits_left) with (d := set_bit_count 0 d);
      [| exact H0 | cbn; lia ] |].
  - intros d1 H1 Hc. apply Z.ltb_lt in Hc.
    eapply post_conseq;
      [ apply (post_wp COMMAND_bit (fun _ d2 => bit_count d2 = bit_count d1 + 1) (fun _ => I));
        [ apply wp_COMMAND_bit; intros d2 _ Hbc; exact Hbc | apply Hbit; exact H1 ] |].
    cbv beta. intros _ d2 [Hbc H2]. split; [exact H2 |].
      unfold command_bits_left. rewrite Hbc. lia.
  - cbv beta. intros _ d1 [H1 _]. post_run. apply HQ. exact H1.
Qed.

Lemma post_DATA_state (Q : unit -> Decoder -> Prop) d :
  (forall d, I d -> post DATA_bit (fun _ => I) E S d) ->
  I (set_sample_data_start (samplenum d) (set_bit_count 0 d)) ->
  (forall d', I d' ->
     Q tt (set_state STOP_DATA
             (set_emitted (emitted d' ++ [mkAnn (sample_data_start d') (samplenum d') 14
                                            ["Data: 0x" ++ format_04x (data_word d')]%string]) d'))) ->
  post DATA_state Q E S d.
Proof.
  intros Hbit H0 HQ. unfold DATA_state.
  do 9 post_step. fields.
  eapply post_conseq;
    [ apply (post_while I remaining);
      [| exact H0 | unfold remaining; fields; lia ] |].
  - intros d1 H1 Hc.
    eapply post_conseq;
      [ apply (post_wp DATA_bit (fun _ d2 => (remaining d2 < remaining d1)%nat) (fun _ => I));
        [ apply wp_DATA_bit; intros d2 Hlt; exact Hlt | apply Hbit; exact H1 ] |].
    cbv beta. intros _ d2 [Hlt H2]. split; assumption.
  - cbv beta. intros _ d1 [H1 _]. post_run. apply HQ. exact H1.
Qed.

(** [decode] under an invariant of the passes of [while True]. *)
Lemma post_decode d :
  (forall d, I d -> post state_machine (fun _ => I) E S d) ->
  (not_samplerate d = true -> E SamplerateError d) ->
  (forall sr, samplerate d = Some sr -> sr <> 0 ->
     I (set_emitted (emitted d ++ samplerate_warnings sr) d)) ->
  post decode (fun _ _ => False) E S d.
Proof.
  intros Hpass Hguard H0. unfold post at 1, decode.
  destruct (not_samplerate d) eqn:Hns; [auto |].
  unfold not_samplerate in Hns.
  apply post_bind, post_checks.
  - intros sr Hsr. rewrite Hsr in Hns. apply Z.eqb_neq in Hns.
    eapply post_conseq;
      [ apply (post_while I remaining);
        [| apply (H0 sr Hsr Hns) | unfold remaining; fields; lia ] |].
    + intros d1 H1 _.
      eapply post_conseq;
        [ apply (post_wp state_machine (fun _ d2 => (remaining d2 < remaining d1)%nat)
                   (fun _ => I));
          [ apply wp_state_machine; intros d2 Hlt; exact Hlt | apply Hpass; exact H1 ] |].
      cbv beta. intros _ d2 [Hlt H2]. split; assumption.
    + cbv beta. intros _ d1 [_ Habs]. discriminate Habs.
  - intros Hsr. rewrite Hsr in Hns. discriminate Hns.
Qed.

End Loops.

(** ** What [decode] leaves alone *)

Lemma next_edge_suffix want : forall edges n rest,
  next_edge want edges = Some (n, rest) -> exists gone, edges = gone ++ rest.
Proof.
  induction edges as [| e edges IH]; intros n rest H; [discriminate H |].
  cbn [next_edge] in H.
  destruct want, (direction e);
    try (injection H as _ <-; exists [e]; reflexivity);
    apply IH in H as [gone ->]; exists (e :: gone); reflexivity.
Qed.

Ltac unchanged_close HR :=
  unfold unchanged in *; fields;
  let Hsr := fresh in let Hopt := fresh in let m := fresh "m" in
  let Hm := fresh in let g := fresh "g" in let Hg := fresh in
  destruct HR as (Hsr & Hopt & [m Hm] & [g Hg]);
  repeat match goal with
         | H : next_edge _ _ = Some _ |- _ => apply next_edge_suffix in H as [? H]
         end;
  split; [assumption |]; split; [assumption |]; split;
  [ rewrite Hm, <- ?app_assoc; eexists; reflexivity
  | rewrite Hg; repeat match goal with H : _ = _ ++ _ |- _ => rewrite H end;
    rewrite ?app_assoc; eexists; reflexivity ].

Lemma unchanged_ATTENTION_state d0 d :
  unchanged d0 d ->
  post ATTENTION_state (fun _ => unchanged d0) (fun _ => unchanged d0) (unchanged d0) d.
Proof.
  intros HR. unfold ATTENTION_state. post_run.
  all: unchanged_close HR.
Qed.

Lemma unchanged_refl d : unchanged d d.
Proof. repeat split; [exists [] | exists []]; [rewrite app_nil_r |]; reflexivity. Qed.

Lemma unchanged_SYNC_state d0 d :
  unchanged d0 d ->
  post SYNC_state (fun _ => unchanged d0) (fun _ => unchanged d0) (unchanged d0) d.
Proof. intros HR. unfold SYNC_state. post_run; unchanged_close HR. Qed.

Lemma unchanged_STOP_CMD_state d0 d :
  unchanged d0 d ->
  post STOP_CMD_state (fun _ => unchanged d0) (fun _ => unchanged d0) (unchanged d0) d.
Proof. intros HR. unfold STOP_CMD_state. post_run; unchanged_close HR. Qed.

Lemma unchanged_TLT_state d0 d :
  unchanged d0 d ->
  post TLT_state (fun _ => unchanged d0) (fun _ => unchanged d0) (unchanged d0) d.
Proof. intros HR. unfold TLT_state. post_run; unchanged_close HR. Qed.

Lemma unchanged_START_DATA_state d0 d :
  unchanged d0 d ->
  post START_DATA_state (fun _ => unchanged d0) (fun _ => unchanged d0) (unchanged d0) d.
Proof. intros HR. unfold START_DATA_state. post_run; cbv zeta; post_run; unchanged_close HR. Qed.

Lemma unchanged_STOP_DATA_state d0 d :
  unchanged d0 d ->
  post STOP_DATA_state (fun _ => unchanged d0) (fun _ => unchanged d0) (unchanged d0) d.
Proof. intros HR. unfold STOP_DATA_state. post_run; unchanged_close HR. Qed.

Lemma unchanged_COMMAND_bit d0 d :
  unchanged d0 d ->
  post COMMAND_bit (fun _ => unchanged d0) (fun _ => unchanged d0) (unchanged d0) d.
Proof.
  intros HR. unfold COMMAND_bit. do 4 post_step.
  apply post_cut with (I := unchanged d0); [post_run; unchanged_close HR |].
  intros _ d1 HR1. post_run; unchanged_close HR1.
Qed.

Lemma unchanged_DATA_bit d0 d :
  unchanged d0 d ->
  post DATA_bit (fun _ => unchanged d0) (fun _ => unchanged d0) (unchanged d0) d.
Proof. intros HR. unfold DATA_bit. post_run; unchanged_close HR. Qed.

Lemma unchanged_state_machine d0 d :
  unchanged d0 d ->
  post state_machine (fun _ => unchanged d0) (fun _ => unchanged d0) (unchanged d0) d.
Proof.
  intros HR. unfold state_machine. apply post_bind, post_get.
  destruct (state d).
  - apply unchanged_ATTENTION_state, HR.
  - apply unchanged_SYNC_state, HR.
  - apply (post_COMMAND_state (unchanged d0)).
    + apply unchanged_COMMAND_bit.
    + unchanged_close HR.
    + intros d' HR'. unchanged_close HR'.
  - apply unchanged_STOP_CMD_state, HR.
  - apply unchanged_TLT_state, HR.
  - apply unchanged_START_DATA_state, HR.
  - apply (post_DATA_state (unchanged d0)).
    + apply unchanged_DATA_bit.
    + unchanged_close HR.
    + intros d' HR'. unchanged_close HR'.
  - apply unchanged_STOP_DATA_state, HR.
Qed.

(** X3.  Whichever way [decode] ends, it has not touched the sample rate nor
    the tolerance option, the annotations put before are still there with
    the new ones after them, and the edges left ahead are a tail of those
    that were ahead: the cursor only moves forward. *)
Theorem decode_leaves_unchanged d :
  unchanged d (final (decode d)).
Proof.
  assert (H : post decode (fun _ _ => False) (fun _ => unchanged d) (unchanged d) d).
  { apply (post_decode (unchanged d)).
    - intros d1. apply unchanged_state_machine.
    - intros _. apply unchanged_refl.
    - intros sr _ _. unfold unchanged. fields.
      repeat split; [eexists; reflexivity | exists []; reflexivity]. }
  unfold post in H. destruct (decode d); try contradiction; exact H.
Qed.

(** ** The transitions of the state machine *)

Ltac transition_close :=
  first [ exact I
        | fields; cbn [successors done_after In]; split;
          [ auto | first [reflexivity | assumption] ]
        | fields; first [reflexivity | assumption] ].

Lemma done_kept_COMMAND_bit dn d :
  done d = dn -> post COMMAND_bit (fun _ d' => done d' = dn) anything anywhere d.
Proof.
  intros Hd. unfold COMMAND_bit. do 4 post_step.
  apply post_cut with (I := fun d' => done d' = dn); [post_run; transition_close |].
  intros _ d1 H1. post_run; transition_close.
Qed.

Lemma done_kept_DATA_bit dn d :
  done d = dn -> post DATA_bit (fun _ d' => done d' = dn) anything anywhere d.
Proof. intros Hd. unfold DATA_bit. post_run; transition_close. Qed.

(** X4.  The transitions of the state machine.  A pass that returns leads
    from ATTENTION to SYNC or ATTENTION, from SYNC to COMMAND or ATTENTION,
    from COMMAND to STOP_CMD only, from STOP_CMD to TLT or ATTENTION, from
    TLT to START_DATA or ATTENTION, from START_DATA to DATA or ATTENTION,
    from DATA to STOP_DATA only, from STOP_DATA to ATTENTION only.
    [self.done] is set by the pass from TLT to ATTENTION, cleared by
    ATTENTION, and left as it is by every other pass. *)
Theorem state_machine_transitions d d' :
  state_machine d = Return tt d' ->
  In (state d') (successors (state d)) /\
  done d' = done_after (state d) (state d') (done d).
Proof.
  intros Hrun.
  assert (H : post state_machine
                (fun _ d' => In (state d') (successors (state d)) /\
                             done d' = done_after (state d) (state d') (done d))
                anything anywhere d).
  { unfold state_machine. apply post_bind, post_get. cbv beta.
    destruct (state d) eqn:Hst.
    - unfold ATTENTION_state. post_run; transition_close.
    - unfold SYNC_state. post_run; transition_close.
    - apply (post_COMMAND_state (fun d' => done d' = done d)).
      + intros d1. apply done_kept_COMMAND_bit.
      + reflexivity.
      + intros d1 H1. transition_close.
    - unfold STOP_CMD_state. post_run; transition_close.
    - unfold TLT_state. post_run; transition_close.
    - unfold START_DATA_state. post_run; cbv zeta; post_run; transition_close.
    - apply (post_DATA_state (fun d' => done d' = done d)).
      + intros d1. apply done_kept_DATA_bit.
      + reflexivity.
      + intros d1 H1. transition_close.
    - unfold STOP_DATA_state. post_run; transition_close. }
  unfold post in H. rewrite Hrun in H. exact H.
Qed.

Lemma state_machine_transitions_witness :
  let d := set_state TLT
             (start (metadata SRD_CONF_SAMPLERATE 1000000
                       (reset strict [mkEdge Falling 900]))) in
  let d' := final (state_machine d) in
  state_machine d = Return tt d' /\
  In (state d') (successors (state d)) /\
  done d' = done_after (state d) (state d') (done d).
Proof.
  intros d d'.
  assert (Hrun : state_machine d = Return tt d') by (vm_compute; reflexivity).
  split; [exact Hrun |].
  exact (state_machine_transitions d d' Hrun).
Defined.

(** ** The exceptions of [decode] *)

Section Raises.

Variable sr : Z.
Hypothesis Hnz : sr <> 0.

Ltac raise_close :=
  try exact I;
  unfold in_COMMAND_loop in *;
  repeat match goal with H : _ /\ _ |- _ => destruct H end;
  repeat match goal with
         | H : (_ =? _) = true |- _ => apply Z.eqb_eq in H
         | H : (_ =? _) = false |- _ => apply Z.eqb_neq in H
         end;
  fields;
  lazymatch goal with
  | |- raise_ok ZeroDivisionError _ => left; reflexivity
  | |- raise_ok TypeError _ => exfalso; congruence
  | |- raise_ok UnboundLocalError _ =>
      first [ exfalso; congruence
            | exfalso; tauto
            | right; fields; cbn [In]; repeat split; first [assumption | lia] ]
  | |- raise_ok ?e _ =>
      left; first [ eapply classify_bit_raises; eassumption
                  | eapply float_div_raises; eassumption ]
  | |- _ => repeat split; first [assumption | congruence | discriminate | tauto]
  end.

Lemma raises_COMMAND_bit d :
  in_COMMAND_loop sr d -> post COMMAND_bit (fun _ => in_COMMAND_loop sr) raise_ok anywhere d.
Proof.
  intros HI. unfold COMMAND_bit. do 4 post_step.
  apply post_cut with (I := fun d' => samplerate d' = Some sr /\ local_ann_id d' <> None);
    [post_run; raise_close |].
  intros _ d1 H1. post_run; raise_close.
Qed.

Lemma raises_DATA_bit d :
  samplerate d = Some sr ->
  post DATA_bit (fun _ d' => samplerate d' = Some sr) raise_ok anywhere d.
Proof. intros HI. unfold DATA_bit. post_run; raise_close. Qed.

Lemma raises_state_machine d :
  samplerate d = Some sr ->
  post state_machine (fun _ d' => samplerate d' = Some sr) raise_ok anywhere d.
Proof.
  intros HI. unfold state_machine. apply post_bind, post_get. cbv beta.
  destruct (state d).
  - unfold ATTENTION_state. post_run; raise_close.
  - unfold SYNC_state. post_run; raise_close.
  - apply (post_COMMAND_state (in_COMMAND_loop sr)).
    + apply raises_COMMAND_bit.
    + split; [exact HI |]. intros H. exfalso. apply H. reflexivity.
    + intros d1 [H1 _]. exact H1.
  - unfold STOP_CMD_state. post_run; raise_close.
  - unfold TLT_state. post_run; raise_close.
  - unfold START_DATA_state. post_run; cbv zeta; post_run; raise_close.
  - apply (post_DATA_state (fun d' => samplerate d' = Some sr)).
    + apply raises_DATA_bit.
    + exact HI.
    + intros d1 H1. exact H1.
  - unfold STOP_DATA_state. post_run; raise_close.
Qed.

Lemma raises_decode d :
  samplerate d = Some sr -> post decode (fun _ _ => False) raise_ok anywhere d.
Proof.
  intros HI. apply (post_decode (fun d' => samplerate d' = Some sr)).
  - apply raises_state_machine.
  - unfold not_samplerate. rewrite HI. intros H. apply Z.eqb_eq in H. contradiction.
  - intros sr' _ _. exact HI.
Qed.

End Raises.

(** X5.  With a sample rate other than 0, the only exceptions that leave
    [decode] are [ZeroDivisionError] and [UnboundLocalError]; the latter
    only where the Command annotation is put (bit 6 of the command byte),
    for a command value other than 0, 2 and 3 and with no label left from
    an earlier command. *)
Theorem decode_raises_only d sr e d' :
  samplerate d = Some sr -> sr <> 0 ->
  decode d = Raised e d' ->
  e = ZeroDivisionError \/
  (e = UnboundLocalError /\ bit_count d' = 6 /\ local_command d' = None /\
   ~ In (command d') [0; 2; 3]).
Proof.
  intros Hsr Hnz Hrun.
  pose proof (raises_decode sr Hnz d Hsr) as H.
  unfold post in H. rewrite Hrun in H. exact H.
Qed.

Lemma decode_raises_only_witness :
  let d := start (metadata SRD_CONF_SAMPLERATE 1000000
                    (reset strict (edges_of_samples (capture 10 command_one_transaction 50)))) in
  let d' := final (decode d) in
  (samplerate d = Some 1000000 /\ 1000000 <> 0 /\
   decode d = Raised UnboundLocalError d') /\
  (UnboundLocalError = ZeroDivisionError \/
   (UnboundLocalError = UnboundLocalError /\ bit_count d' = 6 /\ local_command d' = None /\
    ~ In (command d') [0; 2; 3])).
Proof.
  intros d d'.
  assert (Hsr : samplerate d = Some 1000000) by reflexivity.
  assert (Hnz : 1000000 <> 0) by discriminate.
  assert (Hrun : decode d = Raised UnboundLocalError d') by (vm_compute; reflexivity).
  split; [split; [exact Hsr | split; [exact Hnz | exact Hrun]] |].
  exact (decode_raises_only d 1000000 UnboundLocalError d' Hsr Hnz Hrun).
Defined.

(** X6.  [decode] raises [SamplerateError] exactly when the sample rate is
    missing or 0, and then with the decoder untouched.  So it does after
    [reset] and [start] alone, and after a call of [metadata] exactly when
    the key was not [SRD_CONF_SAMPLERATE] or the value was 0. *)
Theorem SamplerateError_only_without_samplerate :
  (forall d d',
      decode d = Raised SamplerateError d' <->
      (samplerate d = None \/ samplerate d = Some 0) /\ d' = d) /\
  (forall opt edges d',
      decode (start (reset opt edges)) = Raised SamplerateError d' <->
      d' = start (reset opt edges)) /\
  (forall opt key value edges,
      (exists d', decode (start (metadata key value (reset opt edges)))
                  = Raised SamplerateError d') <->
      key <> SRD_CONF_SAMPLERATE \/ value = 0).
Proof.
  assert (Hgen : forall d d',
      decode d = Raised SamplerateError d' <->
      (samplerate d = None \/ samplerate d = Some 0) /\ d' = d).
  { intros d d'. split.
    - intros Hrun.
      destruct (samplerate d) as [sr |] eqn:Hsr.
      + destruct (Z.eq_dec sr 0) as [-> | Hnz].
        * unfold decode, not_samplerate in Hrun. rewrite Hsr in Hrun.
          injection Hrun as <-. split; [right |]; reflexivity.
        * pose proof (raises_decode sr Hnz d Hsr) as H.
          unfold post in H. rewrite Hrun in H.
          destruct H as [H | [H _]]; discriminate H.
      + unfold decode, not_samplerate in Hrun. rewrite Hsr in Hrun.
        injection Hrun as <-. split; [left |]; reflexivity.
    - intros [[H | H] ->]; unfold decode, not_samplerate; rewrite H; reflexivity. }
  split; [exact Hgen |]. split.
  - intros opt edges d'. rewrite Hgen. split; [intros [_ H]; exact H |].
    intros ->. split; [left |]; reflexivity.
  - intros opt key value edges. split.
    + intros [d' Hrun]. apply Hgen in Hrun as [Hsr _].
      unfold metadata in Hsr.
      destruct (key =? SRD_CONF_SAMPLERATE) eqn:Hk.
      * right. cbn in Hsr. destruct Hsr as [Hsr | Hsr]; congruence.
      * left. apply Z.eqb_neq. exact Hk.
    + intros H. eexists. apply Hgen. split; [| reflexivity].
      unfold metadata.
      destruct (key =? SRD_CONF_SAMPLERATE) eqn:Hk.
      * destruct H as [H | ->]; [apply Z.eqb_eq in Hk; contradiction |].
        right. reflexivity.
      * left. reflexivity.
Qed.

(** ** The spans and the order of the annotations *)

Lemma next_edge_increasing want bound : forall edges p n rest,
  increasing p bound edges ->
  next_edge want edges = Some (n, rest) ->
  p < n <= bound /\ increasing n bound rest.
Proof.
  induction edges as [| e edges IH]; intros p n rest Hinc H; [discriminate H |].
  cbn [next_edge] in H. destruct Hinc as [He Hinc].
  destruct want, (direction e);
    try (injection H as <- <-; split; assumption);
    destruct (IH _ _ _ Hinc H) as [Hn Hr]; (split; [lia | exact Hr]).
Qed.

Lemma ends_before_weaken p p' out :
  ends_before p out -> p <= p' -> ends_before p' out.
Proof.
  unfold ends_before. intros H Hp. eapply Forall_impl; [| exact H].
  cbv beta. intros a Ha. lia.
Qed.

Lemma ends_ascend_app out a :
  ends_ascend out -> ends_before (ann_es a) out -> ends_ascend (out ++ [a]).
Proof.
  unfold ends_before.
  induction out as [| b out IH]; intros Hasc Hbef; [cbn; auto |].
  cbn [app ends_ascend]. destruct Hasc as [Hb Hasc].
  apply Forall_cons_iff in Hbef as [Hba Hbef].
  split; [| apply IH; assumption].
  apply Forall_app. split; [exact Hb | repeat constructor; exact Hba].
Qed.

Ltac before_close :=
  unfold ends_before in *;
  rewrite ?Forall_app;
  repeat match goal with |- _ /\ _ => split end;
  first [ eapply ends_before_weaken; [eassumption | cbn [ann_es]; lia]
        | repeat constructor; cbn [ann_es fst snd]; lia ].

Ltac ascend_close :=
  lazymatch goal with
  | |- ends_ascend (_ ++ [_]) =>
      apply ends_ascend_app; [ascend_close | cbn [ann_es]; before_close]
  | |- _ => assumption
  end.

Ltac order_close bound :=
  unfold put_in_order, marks_behind in *;
  repeat match goal with H : _ /\ _ |- _ => destruct H end;
  repeat match goal with
         | H : next_edge _ ?l = Some (?n, ?r), Hinc : increasing _ bound ?l |- _ =>
             destruct (next_edge_increasing _ bound _ _ _ _ Hinc H) as [? ?]; clear H
         end;
  fields;
  split;
  [ rewrite ?Forall_app; repeat split;
    first [ assumption | lia
          | repeat constructor; cbn [ann_ss ann_es fst snd]; first [assumption | lia] ]
  | split; [before_close | ascend_close] ].

Section Order.

Variable bound : Z.

Lemma order_COMMAND_bit d :
  put_in_order bound d ->
  post COMMAND_bit (fun _ => put_in_order bound) (fun _ => put_in_order bound)
    (put_in_order bound) d.
Proof.
  intros HJ. unfold COMMAND_bit. do 4 post_step.
  apply post_cut with (I := put_in_order bound); [post_run; order_close bound |].
  intros _ d1 H1. post_run; order_close bound.
Qed.

Lemma order_DATA_bit d :
  put_in_order bound d ->
  post DATA_bit (fun _ => put_in_order bound) (fun _ => put_in_order bound)
    (put_in_order bound) d.
Proof. intros HJ. unfold DATA_bit. post_run; order_close bound. Qed.

Lemma order_state_machine d :
  put_in_order bound d ->
  post state_machine (fun _ => put_in_order bound) (fun _ => put_in_order bound)
    (put_in_order bound) d.
Proof.
  intros HJ. unfold state_machine. apply post_bind, post_get. cbv beta.
  destruct (state d).
  - unfold ATTENTION_state. post_run; order_close bound.
  - unfold SYNC_state. post_run; order_close bound.
  - apply (post_COMMAND_state (put_in_order bound)).
    + apply order_COMMAND_bit.
    + order_close bound.
    + intros d1 H1. order_close bound.
  - unfold STOP_CMD_state. post_run; order_close bound.
  - unfold TLT_state. post_run; order_close bound.
  - unfold START_DATA_state. post_run; cbv zeta; post_run; order_close bound.
  - apply (post_DATA_state (put_in_order bound)).
    + apply order_DATA_bit.
    + order_close bound.
    + intros d1 H1. order_close bound.
  - unfold STOP_DATA_state. post_run; order_close bound.
Qed.

Lemma order_decode d :
  put_in_order bound d -> emitted d = [] -> put_in_order bound (final (decode d)).
Proof.
  intros HJ Hem.
  assert (H : post decode (fun _ _ => False) (fun _ => put_in_order bound)
                (put_in_order bound) d).
  { apply (post_decode (put_in_order bound)).
    - apply order_state_machine.
    - intros _. exact HJ.
    - intros sr _ _. rewrite Hem. cbn [app].
      unfold put_in_order, marks_behind, ends_before in *.
      repeat match goal with H : _ /\ _ |- _ => destruct H end.
      fields. unfold samplerate_warnings.
      destruct (sr <? 400000); [| destruct (sr <? 1000000)];
        (split; [repeat split; try assumption; try lia |]);
        repeat constructor; cbn [ann_ss ann_es]; lia. }
  unfold post in H. destruct (decode d); try contradiction; exact H.
Qed.

End Order.

Lemma increasing_edges_from : forall samples prev pos,
  increasing (pos - 1) (pos - 1 + Z.of_nat (List.length samples)) (edges_from prev pos samples).
Proof.
  induction samples as [| x samples IH]; intros prev pos; [exact I |].
  cbn [edges_from List.length].
  specialize (IH x (pos + 1)).
  replace (pos + 1 - 1) with pos in IH by lia.
  replace (pos - 1 + Z.of_nat (S (List.length samples)))
    with (pos + Z.of_nat (List.length samples)) by lia.
  assert (Hweak : forall edges p q b, p <= q -> increasing q b edges -> increasing p b edges).
  { intros [| e edges] p q b Hpq; [trivial |]. cbn. intros [H1 H2]. split; [lia | exact H2]. }
  destruct prev, x; cbn [increasing sample_index];
    try (split; [lia | exact IH]);
    (eapply Hweak; [| exact IH]; lia).
Qed.

(** A session on a capture keeps the marks behind the cursor and puts its
    annotations in order. *)
Lemma session_put_in_order opt sr samples :
  put_in_order (Z.of_nat (pred (List.length samples)))
    (final (session opt sr (edges_of_samples samples))).
Proof.
  unfold session.
  match goal with
  | |- context [decode ?D] =>
      assert (HJ : put_in_order (Z.of_nat (pred (List.length samples))) D)
  end.
  { unfold put_in_order, marks_behind, ends_before.
    destruct sr as [v |]; unfold metadata; rewrite ?Z.eqb_refl; cbn [negb];
      unfold start, reset; fields;
      (split; [| split; [constructor | exact I]]);
      (repeat split; try lia; [| constructor]);
      (destruct samples as [| x samples]; [exact I |]);
      cbn [edges_of_samples List.length pred];
      apply (increasing_edges_from samples x 1). }
  apply order_decode in HJ; [exact HJ |].
  destruct sr; reflexivity.
Qed.

(** X7.  Every annotation of a session on a capture has a span in order and
    inside the capture: [0 <= ss <= es], and [es] is at most the number of
    the last sample (0 for the empty capture, where only the sample-rate
    warning is put, at 0). *)
Theorem annotation_spans_in_order opt sr samples :
  Forall (fun a => 0 <= ann_ss a <= ann_es a /\
                   ann_es a <= Z.of_nat (pred (List.length samples)))
    (emitted (final (session opt sr (edges_of_samples samples)))).
Proof.
  destruct (session_put_in_order opt sr samples) as [HJ _]. apply HJ.
Qed.

(** X15.  The annotations of a session on a capture are put in the order of
    their end samples: none ends before one that was put earlier. *)
Theorem annotations_put_in_order opt sr samples :
  ends_ascend (emitted (final (session opt sr (edges_of_samples samples)))).
Proof.
  destruct (session_put_in_order opt sr samples) as (_ & _ & H). exact H.
Qed.

(** ** The classes and texts of the annotations *)

Lemma class_ok_bit i b :
  5 <= i <= 8 -> b = 0 \/ b = 1 -> forall ss es, class_ok (mkAnn ss es i [str b]).
Proof.
  intros Hi Hb ss es. unfold class_ok. cbn [ann_idx ann_texts].
  split; [lia |]. split; [discriminate |]. split.
  - intros _. destruct Hb as [-> | ->]; [left | right]; reflexivity.
  - intros ->. lia.
Qed.

Lemma class_ok_label l :
  In l command_labels -> forall ss es, class_ok (mkAnn ss es 11 l).
Proof.
  intros Hl ss es. unfold class_ok. cbn [ann_idx ann_texts].
  split; [lia |]. split; [| split; [discriminate | intros _; exact Hl]].
  intros ->. cbn in Hl. intuition discriminate.
Qed.

Lemma class_ok_plain i texts :
  In i [1; 2; 3; 4; 9; 10; 12; 13; 14] -> texts <> [] ->
  forall ss es, class_ok (mkAnn ss es i texts).
Proof.
  intros Hi Ht ss es. unfold class_ok. cbn [ann_idx ann_texts].
  cbn [In] in Hi.
  repeat (destruct Hi as [<- | Hi];
          [split; [lia |]; split; [exact Ht |]; split; discriminate |]).
  contradiction.
Qed.

Ltac class_ok_close :=
  cbn [fst snd];
  first [ apply class_ok_plain; [cbn; tauto | discriminate]
        | apply class_ok_bit;
          [ first [ lia
                  | match goal with
                    | H : forall i, _ = Some i -> 5 <= i <= 7, E : _ = Some ?a |- _ =>
                        specialize (H a E); lia
                    end ]
          | auto ]
        | apply class_ok_label;
          first [ solve [eauto]
                | match goal with
                  | H : Some _ = Some ?a |- In ?a _ => injection H as <-; cbn; tauto
                  end ] ].

Ltac classes_close :=
  unfold classes_ok in *;
  repeat match goal with H : _ /\ _ |- _ => destruct H end;
  fields;
  split; [first [assumption | intros ? [= <-]; lia] |];
  split; [first [assumption | intros ? [= <-]; cbn; tauto] |];
  rewrite ?Forall_app;
  repeat match goal with |- _ /\ _ => split end;
  first [ assumption | apply Forall_nil
        | apply Forall_cons; [class_ok_close | apply Forall_nil] ].

Lemma classes_COMMAND_bit d :
  classes_ok d -> post COMMAND_bit (fun _ => classes_ok) (fun _ => classes_ok) classes_ok d.
Proof.
  intros HK. unfold COMMAND_bit. do 4 post_step.
  apply post_cut with (I := classes_ok); [post_run; classes_close |].
  intros _ d1 H1. post_run; classes_close.
Qed.

Lemma classes_DATA_bit d :
  classes_ok d -> post DATA_bit (fun _ => classes_ok) (fun _ => classes_ok) classes_ok d.
Proof. intros HK. unfold DATA_bit. post_run; classes_close. Qed.

Lemma classes_state_machine d :
  classes_ok d -> post state_machine (fun _ => classes_ok) (fun _ => classes_ok) classes_ok d.
Proof.
  intros HK. unfold state_machine. apply post_bind, post_get. cbv beta.
  destruct (state d).
  - unfold ATTENTION_state. post_run; classes_close.
  - unfold SYNC_state. post_run; classes_close.
  - apply (post_COMMAND_state classes_ok).
    + apply classes_COMMAND_bit.
    + classes_close.
    + intros d1 H1. classes_close.
  - unfold STOP_CMD_state. post_run; classes_close.
  - unfold TLT_state. post_run; classes_close.
  - unfold START_DATA_state. post_run; cbv zeta; post_run; classes_close.
  - apply (post_DATA_state classes_ok).
    + apply classes_DATA_bit.
    + classes_close.
    + intros d1 H1. classes_close.
  - unfold STOP_DATA_state. post_run; classes_close.
Qed.

Lemma classes_decode d :
  classes_ok d -> classes_ok (final (decode d)).
Proof.
  intros HK.
  assert (H : post decode (fun _ _ => False) (fun _ => classes_ok) classes_ok d).
  { apply (post_decode classes_ok).
    - apply classes_state_machine.
    - intros _. exact HK.
    - intros sr _ _. unfold samplerate_warnings.
      destruct (sr <? 400000); [| destruct (sr <? 1000000)]; classes_close. }
  unfold post in H. destruct (decode d); try contradiction; exact H.
Qed.

(** The classes 1 to 14 are those of the rows "bus" and "transactions". *)
Lemma row_of_declared i :
  1 <= i <= 14 -> row_of i = Some "bus"%string \/ row_of i = Some "transactions"%string.
Proof.
  intros Hi.
  assert (H : In i [1; 2; 3; 4; 5; 6; 7; 8; 9; 10; 11; 12; 13; 14]) by (cbn; lia).
  cbn [In] in H.
  repeat (destruct H as [<- | H]; [vm_compute; auto |]). contradiction.
Qed.

(** X8.  Every annotation of a session has one of the classes 1 to 14, shown
    in the row "bus" or "transactions" (never class 0, reset, nor class 15,
    warning), and at least one text; an annotation of a bit class (5 to 8)
    has the text "0" or "1", a Command annotation (11) one of the three
    label lists. *)
Theorem annotation_classes_declared opt sr edges :
  Forall (fun a => class_ok a /\
                   (row_of (ann_idx a) = Some "bus"%string \/
                    row_of (ann_idx a) = Some "transactions"%string))
    (emitted (final (session opt sr edges))).
Proof.
  apply Forall_impl with (P := class_ok).
  { intros a H. split; [exact H |]. apply row_of_declared. apply H. }
  unfold session.
  match goal with
  | |- context [decode ?D] => assert (HK : classes_ok D)
  end.
  { unfold classes_ok.
    destruct sr as [v |]; unfold metadata; rewrite ?Z.eqb_refl; cbn [negb];
      unfold start, reset; fields;
      (repeat split; try discriminate; constructor). }
  apply classes_decode in HK. apply HK.
Qed.

(** ** Pulses too short for an attention pulse *)

Lemma edges_of_runs idle lengths :
  Forall (fun n => (0 < n)%nat) (idle :: lengths) ->
  edges_of_samples (runs true (idle :: lengths)) = run_edges false (Z.of_nat idle) lengths.
Proof.
  intros Hpos. inversion Hpos as [| ? ? Hidle Hrest]; subst.
  destruct idle as [| idle]; [lia |].
  unfold edges_of_samples. cbn [runs repeat app negb].
  rewrite edges_from_same.
  rewrite (edges_from_runs _ false) by exact Hrest.
  replace (1 + Z.of_nat idle) with (Z.of_nat (S idle)) by lia.
  reflexivity.
Qed.

Lemma ATTENTION_state_no_rise d f rest :
  done d = false -> next_edge Falling (ahead d) = Some (f, rest) ->
  next_edge Rising rest = None ->
  ATTENTION_state d = EndOfStream (set_fall f (set_cursor f rest (cleared d))).
Proof.
  intros Hd Hf Hr.
  unfold ATTENTION_state, bind, assign, get, wait. cbn.
  rewrite Hd. cbn. rewrite Hf. cbn. rewrite Hr. reflexivity.
Qed.

Lemma short_pulses_loop sr (Hnz : sr <> 0) :
  forall n lengths p d fuel,
    (List.length lengths <= n)%nat ->
    samplerate d = Some sr -> state d = ATTENTION -> done d = false ->
    ahead d = run_edges false p lengths ->
    Forall (too_short sr) (low_pulses lengths) ->
    (List.length lengths < fuel)%nat ->
    exists d',
      while fuel (fun _ => true) state_machine d = EndOfStream d' /\
      emitted d' = emitted d /\ state d' = ATTENTION.
Proof.
  induction n as [| n IH]; intros lengths p d fuel Hlen Hsr Hst Hdn Hah Hshort Hfuel.
  - destruct lengths; [| cbn in Hlen; lia].
    destruct fuel as [| fuel]; [cbn in Hfuel; lia |].
    cbn [run_edges] in Hah.
    eexists. split; [| split].
    + eapply while_end; [reflexivity |].
      rewrite state_machine_unfold, Hst.
      apply ATTENTION_state_no_edge; [exact Hdn | rewrite Hah; reflexivity].
    + reflexivity.
    + exact Hst.
  - destruct lengths as [| l [| h rest]].
    + apply (IH [] p d fuel); auto. cbn. lia.
    + destruct fuel as [| fuel]; [lia |].
      cbn [run_edges] in Hah.
      eexists. split; [| split].
      * eapply while_end; [reflexivity |].
        rewrite state_machine_unfold, Hst.
        eapply ATTENTION_state_no_rise; [exact Hdn | rewrite Hah; reflexivity | reflexivity].
      * reflexivity.
      * exact Hst.
    + destruct fuel as [| fuel]; [lia |].
      cbn [run_edges negb] in Hah. cbn [low_pulses] in Hshort.
      inversion Hshort as [| ? ? Hl Hrest]; subst.
      assert (Hpass : state_machine d =
                Return tt (set_done false
                             (set_rise (p + Z.of_nat l)
                                (set_fall p
                                   (set_cursor (p + Z.of_nat l)
                                      (run_edges false (p + Z.of_nat l + Z.of_nat h) rest)
                                      (cleared d)))))).
      { rewrite state_machine_unfold, Hst.
        rewrite (ATTENTION_state_spec d sr p (p + Z.of_nat l)
                   (run_edges false (p + Z.of_nat l + Z.of_nat h) rest) Hsr Hnz).
        - cbv zeta. rewrite Z.add_simpl_l. unfold too_short in Hl. rewrite Hl. reflexivity.
        - unfold attention_pulse. rewrite Hdn, Hah. reflexivity. }
      match type of Hpass with
      | _ = Return tt ?D => set (d1 := D) in Hpass
      end.
      destruct (IH rest (p + Z.of_nat l + Z.of_nat h) d1 fuel) as (d' & Hrun & Hem & Hst').
      * cbn [List.length] in Hlen. lia.
      * unfold d1. fields. exact Hsr.
      * unfold d1. fields. exact Hst.
      * reflexivity.
      * reflexivity.
      * exact Hrest.
      * cbn [List.length] in Hfuel. lia.
      * exists d'. split; [| split; [rewrite Hem; reflexivity | exact Hst']].
        eapply while_step; [reflexivity | exact Hpass | exact Hrun].
Qed.

(** X9.  A capture in which every low pulse is too short for an attention
    pulse (under 776 us as the decoder measures it) is read to its end
    without any annotation but the sample-rate warning, the decoder staying
    in ATTENTION; in particular a capture with no low pulse at all. *)
Theorem short_pulses_put_nothing opt sr idle lengths :
  sr <> 0 ->
  Forall (fun n => (0 < n)%nat) (idle :: lengths) ->
  Forall (too_short sr) (low_pulses lengths) ->
  exists d,
    session opt (Some sr) (edges_of_samples (runs true (idle :: lengths))) = EndOfStream d /\
    emitted d = samplerate_warnings sr /\ state d = ATTENTION.
Proof.
  intros Hnz Hpos Hshort.
  rewrite (edges_of_runs idle lengths Hpos).
  unfold session, metadata. rewrite Z.eqb_refl. cbn [negb].
  rewrite (decode_nonzero_samplerate _ sr) by (try reflexivity; exact Hnz).
  unfold bind at 1. rewrite (checks_warnings _ sr) by reflexivity.
  match goal with
  | |- exists d, while ?f _ _ ?D = _ /\ _ =>
      destruct (short_pulses_loop sr Hnz (List.length lengths) lengths (Z.of_nat idle) D f)
        as (d' & Hrun & Hem & Hst')
  end; try reflexivity; try assumption.
  - cbn. rewrite length_run_edges. lia.
  - exists d'. split; [exact Hrun | split; [exact Hem | exact Hst']].
Qed.

Lemma short_pulses_put_nothing_witness :
  (1000000 <> 0 /\
   Forall (fun n => (0 < n)%nat) [10; 700; 50; 775; 20]%nat /\
   Forall (too_short 1000000) (low_pulses [700; 50; 775; 20]%nat)) /\
  exists d,
    session strict (Some 1000000)
      (edges_of_samples (runs true [10; 700; 50; 775; 20]%nat)) = EndOfStream d /\
    emitted d = samplerate_warnings 1000000 /\ state d = ATTENTION.
Proof.
  assert (Hnz : 1000000 <> 0) by discriminate.
  assert (Hpos : Forall (fun n => (0 < n)%nat) [10; 700; 50; 775; 20]%nat)
    by (repeat constructor; lia).
  assert (Hshort : Forall (too_short 1000000) (low_pulses [700; 50; 775; 20]%nat))
    by (repeat constructor; vm_compute; reflexivity).
  split; [split; [exact Hnz | split; [exact Hpos | exact Hshort]] |].
  exact (short_pulses_put_nothing strict 1000000 10%nat [700; 50; 775; 20]%nat Hnz Hpos Hshort).
Defined.

(** ** Transactions in a row *)

(** The eight passes of the state machine over one well-formed transaction,
    from any decoder that waits for an attention pulse. *)
Lemma transaction_passes opt sr t cmd data label p0 gap more d :
  sr <> 0 -> List.length cmd = 8%nat -> List.length data = 16%nat ->
  well_timed opt sr t cmd data ->
  command_label (msb_first (firstn 2 (skipn 4 cmd))) = Some label ->
  samplerate d = Some sr -> options_tolerance d = opt ->
  state d = ATTENTION -> done d = false ->
  ahead d = run_edges false p0 (transaction_runs t ++ gap :: more) ->
  exists d',
    (forall fuel o,
        while fuel (fun _ => true) state_machine d' = o ->
        while (8 + fuel) (fun _ => true) state_machine d = o) /\
    samplerate d' = Some sr /\ options_tolerance d' = opt /\
    state d' = ATTENTION /\ done d' = false /\
    ahead d' = run_edges false
                 (cells_end (cells_end (p0 + Z.of_nat (t_attention t) + Z.of_nat (t_sync t))
                                       (t_command t)
                             + Z.of_nat (t_stop t) + Z.of_nat (t_tlt t)
                             + Z.of_nat (fst (t_start t)) + Z.of_nat (snd (t_start t)))
                            (t_data t)
                  + Z.of_nat (t_stop_data t) + Z.of_nat gap) more /\
    emitted d' = emitted d ++ transaction_annotations p0 t cmd data label.
Proof.
  intros Hnz Hlc Hld (Hatt & Hsync & Hcmd & Hstop & Htlt & Hstart & Hdata & Hstop2) Hlabel
         Hsr Hopt Hst Hdn Hah.
  destruct t as [att sync cmdc stop tlt [slo shi] datac stop2].
  cbn [t_attention t_sync t_command t_stop t_tlt t_start t_data t_stop_data] in *.
  destruct d as [o0 r0 st0 bt0 bc0 ad0 cm0 rg0 dw0 fl0 ri0 ts0 te0 a0 c0 g0 da0 dn0 sn0 ah0 em0 la0 lc0].
  cbn [samplerate options_tolerance state done ahead emitted] in Hsr, Hopt, Hst, Hdn, Hah |- *.
  subst o0 r0 st0 dn0 ah0.
  unfold transaction_annotations, transaction_runs.
  cbn [t_attention t_sync t_command t_stop t_tlt t_start t_data t_stop_data fst snd app
       cell_runs flat_map].
  fold (cell_runs cmdc). fold (cell_runs datac).
  rewrite <- !app_assoc. cbn [app]. rewrite <- !app_assoc. cbn [app].
  cbn [run_edges negb app].
  rewrite (run_edges_cons false (p0 + Z.of_nat att + Z.of_nat sync))
    by (destruct (cell_runs cmdc); discriminate).
  (* ATTENTION *)
  lazymatch goal with
  | |- exists d', (forall fuel o, _ -> while _ _ _ ?D = _) /\ _ =>
      eassert (H1 : state_machine D = Return tt _)
  end.
  { rewrite state_machine_unfold. cbn [state].
    etransitivity;
      [ eapply ATTENTION_state_spec with (sr := sr);
        [reflexivity | exact Hnz | exec; reflexivity]
      | rewrite Z.add_simpl_l, Hatt; rebuild ]. }
  (* SYNC *)
  lazymatch type of H1 with
  | _ = Return tt ?D => eassert (H2 : state_machine D = Return tt _)
  end.
  { rewrite state_machine_unfold. cbn [state].
    etransitivity;
      [ eapply SYNC_state_spec with (sr := sr);
        [reflexivity | exact Hnz | exec; reflexivity]
      | project; rewrite Z.add_simpl_l, Hsync; rebuild ]. }
  (* COMMAND *)
  lazymatch type of H2 with
  | _ = Return tt ?D =>
      destruct (COMMAND_state_spec D sr cmdc cmd stop
                  (tlt :: slo :: shi :: cell_runs datac ++ stop2 :: gap :: more) label)
        as (d3 & H3 & Hopt3 & Hsr3 & Hdn3 & Hst3 & Hdw3 & _ & _ & _ & Hsn3 & Hfl3 & Hah3 & Hem3);
      [ reflexivity | exact Hnz | exact Hcmd | exact Hlc | reflexivity | reflexivity
      | reflexivity | exact Hlabel | reflexivity | ]
  end.
  destruct d3 as [o3 r3 st3 bt3 bc3 ad3 cm3 rg3 dw3 fl3 ri3 ts3 te3 a3 c3 g3 da3 dn3 sn3 ah3 em3 la3 lc3].
  fields_in Hopt3; fields_in Hsr3; fields_in Hdn3; fields_in Hst3; fields_in Hdw3; fields_in Hsn3;
  fields_in Hfl3; fields_in Hah3; fields_in Hem3.
  cbn [tl run_edges negb] in Hah3.
  subst o3 r3 dn3 st3 dw3 sn3 fl3 ah3 em3.
  set (p3 := cells_end (p0 + Z.of_nat att + Z.of_nat sync) cmdc) in *.
  (* STOP_CMD *)
  lazymatch type of H3 with
  | _ = Return tt ?D => eassert (H4 : state_machine D = Return tt _)
  end.
  { rewrite state_machine_unfold. cbn [state].
    etransitivity;
      [ eapply STOP_CMD_state_spec with (sr := sr);
        [reflexivity | exact Hnz | exec; reflexivity
        | project; rewrite Z.add_simpl_l; exact Hstop ]
      | rebuild ]. }
  (* TLT *)
  lazymatch type of H4 with
  | _ = Return tt ?D => eassert (H5 : state_machine D = Return tt _)
  end.
  { rewrite state_machine_unfold. cbn [state].
    etransitivity;
      [ eapply TLT_state_spec with (sr := sr);
        [reflexivity | exact Hnz | exec; reflexivity
        | project; rewrite Z.add_simpl_l; exact Htlt ]
      | rebuild ]. }
  (* START_DATA *)
  lazymatch type of H5 with
  | _ = Return tt ?D => eassert (H6 : state_machine D = Return tt _)
  end.
  { rewrite state_machine_unfold. cbn [state].
    etransitivity;
      [ eapply START_DATA_state_spec with (sr := sr) (lo := slo) (hi := shi);
        [reflexivity | exact Hnz | | exact Hstart ]
      | rebuild ].
    project. rewrite (run_edges_cons false) by (destruct (cell_runs datac); discriminate).
    reflexivity. }
  (* DATA *)
  lazymatch type of H6 with
  | _ = Return tt ?D =>
      destruct (DATA_state_spec D sr datac data stop2 (gap :: more))
        as (d7 & H7 & Hopt7 & Hsr7 & Hdn7 & Hst7 & Hdw7 & Hsn7 & Hfl7 & Hah7 & Hem7);
      [ reflexivity | exact Hnz | exact Hdata | exact Hld | reflexivity | reflexivity | ]
  end.
  destruct d7 as [o7 r7 st7 bt7 bc7 ad7 cm7 rg7 dw7 fl7 ri7 ts7 te7 a7 c7 g7 da7 dn7 sn7 ah7 em7 la7 lc7].
  fields_in Hopt7; fields_in Hsr7; fields_in Hdn7; fields_in Hst7; fields_in Hdw7; fields_in Hsn7;
  fields_in Hfl7; fields_in Hah7; fields_in Hem7.
  cbn [tl run_edges negb] in Hah7.
  subst o7 r7 dn7 st7 dw7 sn7 fl7 ah7 em7.
  set (p6 := p3 + Z.of_nat stop + Z.of_nat tlt + Z.of_nat slo + Z.of_nat shi) in *.
  set (p7 := cells_end p6 datac) in *.
  (* STOP_DATA *)
  lazymatch type of H7 with
  | _ = Return tt ?D => eassert (H8 : state_machine D = Return tt _)
  end.
  { rewrite state_machine_unfold. cbn [state].
    etransitivity;
      [ eapply STOP_DATA_state_spec with (sr := sr);
        [reflexivity | exact Hnz | exec; reflexivity
        | project; rewrite Z.add_simpl_l; exact Hstop2 ]
      | rebuild ]. }
  lazymatch type of H8 with
  | _ = Return tt ?D => exists D
  end.
  split.
  { intros fuel o Ho. cbn [Nat.add].
    eapply while_step; [reflexivity | exact H1 |].
    eapply while_step; [reflexivity | exact H2 |].
    eapply while_step; [reflexivity | rewrite state_machine_unfold; exact H3 |].
    eapply while_step; [reflexivity | exact H4 |].
    eapply while_step; [reflexivity | exact H5 |].
    eapply while_step; [reflexivity | exact H6 |].
    eapply while_step; [reflexivity | rewrite state_machine_unfold; exact H7 |].
    eapply while_step; [reflexivity | exact H8 |].
    exact Ho. }
  project. unfold p7, p6, p3. rewrite <- !app_assoc.
  repeat split; reflexivity.
Qed.

Lemma stream_loop opt sr (Hnz : sr <> 0) : forall ss p d,
  Forall (well_sent opt sr) ss ->
  samplerate d = Some sr -> options_tolerance d = opt ->
  state d = ATTENTION -> done d = false ->
  ahead d = run_edges false p (stream_runs ss) ->
  exists d',
    while (8 * List.length ss + 1) (fun _ => true) state_machine d = EndOfStream d' /\
    emitted d' = emitted d ++ stream_annotations p ss /\
    state d' = ATTENTION.
Proof.
  induction ss as [| s ss IH]; intros p d Hall Hsr Hopt Hst Hdn Hah.
  - cbn [stream_runs run_edges] in Hah.
    exists (cleared d). split; [| split].
    + cbn [List.length Nat.mul Nat.add].
      eapply while_end; [reflexivity |].
      rewrite state_machine_unfold, Hst.
      apply ATTENTION_state_no_edge; [exact Hdn | rewrite Hah; reflexivity].
    + cbn [stream_annotations]. rewrite app_nil_r. reflexivity.
    + exact Hst.
  - apply Forall_cons_iff in Hall as [(Hlc & Hld & Hwt & Hlabel) Hrest].
    cbn [stream_runs] in Hah.
    assert (Hl : command_label (msb_first (firstn 2 (skipn 4 (s_cmd s))))
                 = Some (label_of (s_cmd s))).
    { unfold label_of. destruct (command_label _); [reflexivity | contradiction]. }
    destruct (transaction_passes opt sr (s_transaction s) (s_cmd s) (s_data s)
                (label_of (s_cmd s)) p (s_gap s) (stream_runs ss) d
                Hnz Hlc Hld Hwt Hl Hsr Hopt Hst Hdn Hah)
      as (d1 & Hpass & Hsr1 & Hopt1 & Hst1 & Hdn1 & Hah1 & Hem1).
    fold (transaction_end p (s_transaction s)) in Hah1.
    destruct (IH _ d1 Hrest Hsr1 Hopt1 Hst1 Hdn1 Hah1) as (d' & Hrun & Hem & Hst').
    exists d'. split; [| split; [| exact Hst']].
    + replace (8 * List.length (s :: ss) + 1)%nat
        with (8 + (8 * List.length ss + 1))%nat by (cbn [List.length]; lia).
      apply Hpass. exact Hrun.
    + rewrite Hem, Hem1. cbn [stream_annotations]. rewrite <- app_assoc. reflexivity.
Qed.

Lemma length_stream_runs ss :
  (8 * List.length ss <= List.length (stream_runs ss))%nat.
Proof.
  induction ss as [| s ss IH]; [cbn; lia |].
  cbn [stream_runs List.length]. unfold transaction_runs.
  rewrite !length_app. cbn [List.length cell_runs flat_map app]. lia.
Qed.

Lemma field_events_stream : forall ss p,
  field_events (stream_annotations p ss) = stream_events ss.
Proof.
  induction ss as [| s ss IH]; intros p; [reflexivity |].
  cbn [stream_annotations stream_events flat_map].
  rewrite field_events_app, field_events_transaction, IH. reflexivity.
Qed.

(** X12.  A capture of any number of transactions in a row, each with timing
    the decoder accepts and a command value that has a label, the line idle
    between them, is decoded to the end of the stream: after the sample-rate
    warning, if any, the annotations are those of the transactions one after
    the other, each at its place; above bit level, the ten events of each
    transaction, with the values its bits spell. *)
Theorem decode_stream_of_transactions opt sr idle ss :
  sr <> 0 ->
  Forall (fun n => (0 < n)%nat) (idle :: stream_runs ss) ->
  Forall (well_sent opt sr) ss ->
  exists d,
    session opt (Some sr) (edges_of_samples (runs true (idle :: stream_runs ss)))
      = EndOfStream d /\
    emitted d = samplerate_warnings sr ++ stream_annotations (Z.of_nat idle) ss /\
    field_events (emitted d) = map event (samplerate_warnings sr) ++ stream_events ss.
Proof.
  intros Hnz Hpos Hall.
  rewrite (edges_of_runs idle (stream_runs ss) Hpos).
  unfold session, metadata. rewrite Z.eqb_refl. cbn [negb].
  rewrite (decode_nonzero_samplerate _ sr) by (try reflexivity; exact Hnz).
  unfold bind at 1. rewrite (checks_warnings _ sr) by reflexivity.
  match goal with
  | |- exists d, while _ _ _ ?D = _ /\ _ =>
      destruct (stream_loop opt sr Hnz ss (Z.of_nat idle) D Hall)
        as (d' & Hrun & Hem & _); try reflexivity
  end.
  fields_in Hem.
  exists d'. split; [| split].
  - eapply while_more_fuel; [exact Hrun | discriminate |].
    cbn. rewrite length_run_edges.
    pose proof (length_stream_runs ss). lia.
  - exact Hem.
  - rewrite Hem.
    rewrite field_events_app, field_events_warnings, field_events_stream. reflexivity.
Qed.

Lemma decode_stream_of_transactions_witness :
  let ss := [ mkSent listen_transaction (bits_of 8 0x58) (bits_of 16 0x1234) 1000;
              mkSent talk_transaction (bits_of 8 0x5C) (bits_of 16 0x1234) 50 ] in
  (1000000 <> 0 /\
   Forall (fun n => (0 < n)%nat) (10%nat :: stream_runs ss) /\
   Forall (well_sent strict 1000000) ss) /\
  exists d,
    session strict (Some 1000000) (edges_of_samples (runs true (10%nat :: stream_runs ss)))
      = EndOfStream d /\
    emitted d = samplerate_warnings 1000000 ++ stream_annotations (Z.of_nat 10) ss /\
    field_events (emitted d) = map event (samplerate_warnings 1000000) ++ stream_events ss.
Proof.
  intros ss.
  assert (Hnz : 1000000 <> 0) by discriminate.
  assert (Hpos : Forall (fun n => (0 < n)%nat) (10%nat :: stream_runs ss)).
  { apply Forall_forall. intros n Hn. apply Nat.ltb_lt. revert n Hn.
    apply forallb_forall. vm_compute. reflexivity. }
  assert (Hall : Forall (well_sent strict 1000000) ss).
  { repeat constructor; try apply nominal_well_timed; cbn; discriminate. }
  split; [split; [exact Hnz | split; [exact Hpos | exact Hall]] |].
  exact (decode_stream_of_transactions strict 1000000 10%nat ss Hnz Hpos Hall).
Defined.

(** ** The command value without a label *)

Lemma while_then_raise {B} fuel cond body (k : M B) d e d' :
  cond d = true -> body d = Raised e d' ->
  (while (S fuel) cond body ;; k) d = Raised e d'.
Proof.
  intros Hc Hb. unfold bind. rewrite while_S, Hc. unfold bind. rewrite Hb. reflexivity.
Qed.

Lemma bind_raise {A B} (c : M A) (k : A -> M B) d e d1 :
  c d = Raised e d1 -> (x <- c ;; k x) d = Raised e d1.
Proof. intros Hc. unfold bind. rewrite Hc. reflexivity. Qed.

(** Runs a computation that raises, one statement at a time. *)
Ltac run_raise Hnz :=
  lazymatch goal with
  | |- bind _ _ _ = _ =>
      first [ eapply bind_then; [ solve [run Hnz] | cbv beta; run_raise Hnz ]
            | eapply bind_raise; run_raise Hnz ]
  | |- (if ?c then ?A else ?B) ?d = ?R =>
      let v := eval vm_compute in c in
      lazymatch v with
      | true => change (A d = R); run_raise Hnz
      | false => change (B d = R); run_raise Hnz
      end
  | |- _ => exec; project; reflexivity
  end.

(** X13.  The command value 1 (bits 01), for which the decoder has no label:
    the Command annotation is put with the label left by the last command
    that had one; when there is none, the COMMAND state raises
    [UnboundLocalError] where the Command annotation would be put, after the
    address bits, Address and the two command bits. *)
Theorem COMMAND_state_command_one d sr cells bits m more :
  samplerate d = Some sr -> sr <> 0 ->
  Forall2 (reads sr) cells bits -> List.length bits = 8%nat ->
  address d = 0 -> command d = 0 -> reg d = 0 ->
  firstn 2 (skipn 4 bits) = [false; true] ->
  ahead d = tl (run_edges false (samplenum d) (cell_runs cells ++ m :: more)) ->
  match local_command d with
  | Some stale =>
      exists d',
        COMMAND_state d = Return tt d' /\
        state d' = STOP_CMD /\ command d' = 1 /\ local_command d' = Some stale /\
        emitted d' = emitted d ++ COMMAND_annotations (samplenum d) cells bits stale
  | None =>
      exists d',
        COMMAND_state d = Raised UnboundLocalError d' /\
        command d' = 1 /\ bit_count d' = 6 /\
        emitted d' = emitted d ++ COMMAND_annotations_to_bit_6 (samplenum d) cells bits
  end.
Proof.
  intros Hsr Hnz Hall Hlen Had Hcm Hrg Hone Hah.
  destruct d as [opt sr0 st bt bc ad cm rg dw fl ri ts te s1 s2 s3 s4 dn sn ah em la lc].
  cbn [samplerate address command reg ahead samplenum local_command] in Hsr, Had, Hcm, Hrg, Hah |- *.
  subst sr0 ad cm rg ah.
  do 8 invert_cell Hall Hlen.
  destruct Hall; [| discriminate Hlen]. clear Hlen.
  cbn [firstn skipn] in Hone. injection Hone as -> ->.
  unfold COMMAND_state, COMMAND_annotations, COMMAND_annotations_to_bit_6.
  cbn [firstn skipn bit_annotations cells_end app fst snd cell_runs flat_map tl
       run_edges negb samplenum options_tolerance samplerate data_word emitted].
  name_cell sn Hrd. name_cell end_ Hrd0. name_cell end_0 Hrd1. name_cell end_1 Hrd2.
  name_cell end_2 Hrd3. name_cell end_3 Hrd4. name_cell end_4 Hrd5. name_cell end_5 Hrd6.
  clear Emid Eend Emid0 Eend0 Emid1 Eend1 Emid2 Eend2 Emid3 Eend3 Emid4 Eend4
        Emid5 Eend5 Emid6 Eend6.
  remember (run_edges true (end_6 + Z.of_nat m) more) as rest eqn:Erest. clear Erest.
  destruct lc as [stale |].
  - eexists; split;
      [ eapply bind_then; [exec; project; reflexivity | cbv beta];
        do 8 (eapply while_then_step; [reflexivity | command_bit Hnz |]);
        rewrite while_then_exit by reflexivity; run Hnz | ].
    project.
    rewrite <- ?app_assoc; cbn [app]; rewrite ?Z.add_0_l, ?nibble_value, ?pair_value.
    repeat split; reflexivity.
  - eexists; split;
      [ eapply bind_then; [exec; project; reflexivity | cbv beta];
        do 6 (eapply while_then_step; [reflexivity | command_bit Hnz |]);
        eapply while_then_raise; [reflexivity |];
        known_bits; unfold COMMAND_bit; run_raise Hnz | ].
    project.
    rewrite <- ?app_assoc; cbn [app]; rewrite ?Z.add_0_l, ?nibble_value, ?pair_value.
    repeat split; reflexivity.
Qed.

Lemma COMMAND_state_command_one_witness :
  let d := entering COMMAND (bits_of 8 0x54) in
  (samplerate d = Some 1000000 /\ 1000000 <> 0 /\
   Forall2 (reads 1000000) (map nominal_cell (bits_of 8 0x54)) (bits_of 8 0x54) /\
   List.length (bits_of 8 0x54) = 8%nat /\
   address d = 0 /\ command d = 0 /\ reg d = 0 /\
   firstn 2 (skipn 4 (bits_of 8 0x54)) = [false; true] /\
   ahead d = tl (run_edges false (samplenum d)
                   (cell_runs (map nominal_cell (bits_of 8 0x54)) ++ [70; 50]%nat))) /\
  exists d',
    COMMAND_state d = Raised UnboundLocalError d' /\
    command d' = 1 /\ bit_count d' = 6 /\
    emitted d' = emitted d ++ COMMAND_annotations_to_bit_6 (samplenum d)
                                (map nominal_cell (bits_of 8 0x54)) (bits_of 8 0x54).
Proof.
  cbv zeta.
  assert (Hrd : Forall2 (reads 1000000) (map nominal_cell (bits_of 8 0x54)) (bits_of 8 0x54))
    by apply nominal_cells_read.
  split.
  - repeat split; try reflexivity; try discriminate. exact Hrd.
  - apply (COMMAND_state_command_one (entering COMMAND (bits_of 8 0x54)) 1000000
             (map nominal_cell (bits_of 8 0x54)) (bits_of 8 0x54) 70%nat [50%nat]);
      try reflexivity; try discriminate. exact Hrd.
Defined.

(** ** A transaction without data *)

(** What the TLT state does when the time is out of tolerance. *)
Lemma TLT_state_timeout d sr f rest :
  samplerate d = Some sr -> sr <> 0 ->
  next_edge Falling (ahead d) = Some (f, rest) ->
  check_tolerance (options_tolerance d) (interval_us (f - rise d) sr) Timing.TLT = false ->
  TLT_state d =
    Return tt (set_done true (set_state ATTENTION (set_fall f (set_cursor f rest d)))).
Proof.
  intros Hsr Hnz Hedge Hok.
  unfold TLT_state, wait. unfold bind at 1. rewrite Hedge.
  cbn -[elapsed_us check_tolerance interval_us].
  erewrite bind_run by (apply elapsed_us_spec with (sr := sr); [exact Hsr | exact Hnz]).
  cbn -[elapsed_us check_tolerance interval_us]. rewrite Hok. reflexivity.
Qed.

(** X14.  A transaction without data.  When the time from the stop bit to
    the next falling edge is out of the Tlt tolerance, the decoder returns to
    ATTENTION with [self.done] set and takes that falling edge as the start
    of the next low pulse: the pulse is measured from it to the next rising
    edge, and an Attention annotation, if the pulse is long enough, spans
    from that falling edge. *)
Theorem TLT_timeout_starts_attention d sr f r rest :
  samplerate d = Some sr -> sr <> 0 ->
  state d = TLT ->
  next_edge Falling (ahead d) = Some (f, mkEdge Rising r :: rest) ->
  check_tolerance (options_tolerance d) (interval_us (f - rise d) sr) Timing.TLT = false ->
  exists d1 d2,
    state_machine d = Return tt d1 /\
    state d1 = ATTENTION /\ done d1 = true /\ emitted d1 = emitted d /\
    state_machine d1 = Return tt d2 /\
    done d2 = false /\ ahead d2 = rest /\
    if (timing Timing.ATTENTION - timing_TOL Timing.ATTENTION <=? interval_us (r - f) sr)%float
    then state d2 = SYNC /\ emitted d2 = emitted d ++ [mkAnn f r 1 attention_texts]
    else state d2 = ATTENTION /\ emitted d2 = emitted d.
Proof.
  intros Hsr Hnz Hst Hedge Hout.
  pose proof (TLT_state_timeout d sr f _ Hsr Hnz Hedge Hout) as H1.
  set (d1 := set_done true (set_state ATTENTION (set_fall f (set_cursor f (mkEdge Rising r :: rest) d)))) in *.
  assert (H2 := ATTENTION_state_spec d1 sr f r rest Hsr Hnz eq_refl).
  eexists d1, _. split; [rewrite state_machine_unfold, Hst; exact H1 |].
  split; [reflexivity |]. split; [reflexivity |]. split; [reflexivity |].
  split; [rewrite state_machine_unfold; exact H2 |].
  cbv zeta.
  destruct (_ <=? _)%float; repeat split; reflexivity.
Qed.

Lemma TLT_timeout_starts_attention_witness :
  let d := set_state TLT
             (start (metadata SRD_CONF_SAMPLERATE 1000000
                       (reset strict [mkEdge Falling 900; mkEdge Rising 1700;
                                      mkEdge Falling 1765]))) in
  (samplerate d = Some 1000000 /\ 1000000 <> 0 /\ state d = TLT /\
   next_edge Falling (ahead d) = Some (900, [mkEdge Rising 1700; mkEdge Falling 1765]) /\
   check_tolerance (options_tolerance d) (interval_us (900 - rise d) 1000000) Timing.TLT
     = false) /\
  exists d1 d2,
    state_machine d = Return tt d1 /\
    state d1 = ATTENTION /\ done d1 = true /\ emitted d1 = emitted d /\
    state_machine d1 = Return tt d2 /\
    done d2 = false /\ ahead d2 = [mkEdge Falling 1765] /\
    if (timing Timing.ATTENTION - timing_TOL Timing.ATTENTION
          <=? interval_us (1700 - 900) 1000000)%float
    then state d2 = SYNC /\ emitted d2 = emitted d ++ [mkAnn 900 1700 1 attention_texts]
    else state d2 = ATTENTION /\ emitted d2 = emitted d.
Proof.
  cbv zeta.
  split.
  - repeat split; try reflexivity; try discriminate.
  - apply (TLT_timeout_starts_attention _ 1000000 900 1700 [mkEdge Falling 1765]);
      try reflexivity; discriminate.
Defined.

(** ** The range of the address and of the register *)

Lemma address_room_le bc : 0 <= address_room bc <= 15.
Proof. unfold address_room. repeat destruct (_ <=? _); lia. Qed.

Lemma reg_room_le bc : 0 <= reg_room bc <= 3.
Proof. unfold reg_room. repeat destruct (_ <=? _); lia. Qed.

Lemma field_ok_other i texts ss es :
  i <> 12 -> i <> 13 -> field_ok (mkAnn ss es i texts).
Proof. intros H1 H2. split; cbn [ann_idx]; intros H; contradiction. Qed.

Lemma field_ok_address a ss es :
  0 <= a <= 15 -> field_ok (mkAnn ss es 12 ["Address: " ++ hex a]%string).
Proof.
  intros Ha. split; cbn [ann_idx ann_texts]; intros H; [| discriminate H].
  exists a. split; [exact Ha | reflexivity].
Qed.

Lemma field_ok_register r ss es :
  0 <= r <= 3 -> field_ok (mkAnn ss es 13 ["Register: " ++ hex r]%string).
Proof.
  intros Hr. split; cbn [ann_idx ann_texts]; intros H; [discriminate H |].
  exists r. split; [exact Hr | reflexivity].
Qed.

(** The rooms after one more bit, the bit added where the loop adds it. *)
Lemma rooms_step bc a r b :
  0 <= bc -> b = 0 \/ b = 1 ->
  0 <= a <= address_room bc -> 0 <= r <= reg_room bc ->
  (bc < 4 -> 0 <= a + Z.shiftl b (3 - bc) <= address_room (bc + 1)) /\
  (0 <= a <= address_room (bc + 1)) /\
  (6 <= bc < 8 -> 0 <= r + Z.shiftl b (7 - bc) <= reg_room (bc + 1)) /\
  (0 <= r <= reg_room (bc + 1)).
Proof.
  intros Hbc Hb Ha Hr.
  assert (Hcase : bc = 0 \/ bc = 1 \/ bc = 2 \/ bc = 3 \/ bc = 4 \/ bc = 5 \/ bc = 6
                  \/ bc = 7 \/ 8 <= bc) by lia.
  repeat (destruct Hcase as [-> | Hcase];
          [destruct Hb as [-> | ->]; cbn in *; repeat split; lia |]).
  unfold address_room, reg_room in *.
  repeat match goal with
         | H : context [?x <=? ?y] |- _ => destruct (Z.leb_spec x y); try lia
         | |- context [?x <=? ?y] => destruct (Z.leb_spec x y); try lia
         end.
Qed.

Ltac field_ok_close :=
  cbn [fst snd];
  first [ apply field_ok_address; lia
        | apply field_ok_register; lia
        | apply field_ok_other;
          first [ discriminate
                | match goal with
                  | H : forall i, _ = Some i -> 5 <= i <= 7, E : _ = Some ?a |- _ =>
                      specialize (H a E); lia
                  end ] ].

Ltac emitted_close :=
  rewrite ?Forall_app;
  repeat match goal with |- _ /\ _ => split end;
  first [ assumption | apply Forall_nil
        | apply Forall_cons; [field_ok_close | apply Forall_nil] ].

Ltac fields_prepare :=
  unfold in_COMMAND_fields, fields_within, fields_cleared, fields_core, fields_anyhow in *;
  repeat match goal with H : _ /\ _ |- _ => destruct H end;
  repeat match goal with
         | H : (_ =? _) = true |- _ => apply Z.eqb_eq in H
         | H : (_ =? _) = false |- _ => apply Z.eqb_neq in H
         | H : (_ <? _) = true |- _ => apply Z.ltb_lt in H
         | H : (_ <? _) = false |- _ => apply Z.ltb_ge in H
         end;
  fields.

Ltac core_close :=
  split; [ first [assumption | left; reflexivity | right; reflexivity] |];
  split; [ first [assumption | intros ? [= <-]; lia] |];
  emitted_close.

Lemma fields_COMMAND_bit d :
  in_COMMAND_fields d ->
  post COMMAND_bit (fun _ => in_COMMAND_fields) (fun _ => fields_anyhow) fields_anyhow d.
Proof.
  intros HI. unfold COMMAND_bit. do 4 post_step.
  apply post_cut with (I := fields_within (bit_count d)).
  - post_run; fields_prepare;
      pose proof (address_room_le (bit_count d));
      first [ emitted_close
            | split; [core_close | split; split; assumption] ].
  - intros _ d1 H1. post_run; fields_prepare;
      first [ emitted_close
            | match goal with
              | Ha : 0 <= address d1, Ha' : address d1 <= _,
                Hr : 0 <= reg d1, Hr' : reg d1 <= _, Hbc : 0 <= bit_count d |- _ =>
                  pose proof (rooms_step (bit_count d) (address d1) (reg d1) 0 Hbc
                                (or_introl eq_refl) (conj Ha Ha') (conj Hr Hr'));
                  pose proof (rooms_step (bit_count d) (address d1) (reg d1) 1 Hbc
                                (or_intror eq_refl) (conj Ha Ha') (conj Hr Hr'));
                  match goal with
                  | Hb : bit d1 = 0 \/ bit d1 = 1 |- _ =>
                      pose proof (rooms_step (bit_count d) (address d1) (reg d1) (bit d1) Hbc
                                    Hb (conj Ha Ha') (conj Hr Hr'))
                  end
              end;
              repeat match goal with H : _ /\ _ |- _ => destruct H end;
              split; [lia |]; split; [core_close |]; split; split; lia ].
Qed.

Lemma fields_DATA_bit d :
  fields_core d -> post DATA_bit (fun _ => fields_core) (fun _ => fields_anyhow) fields_anyhow d.
Proof.
  intros HI. unfold DATA_bit.
  post_run; fields_prepare; first [emitted_close | core_close].
Qed.

Ltac cleared_close Hst :=
  fields_prepare; try rewrite Hst in *;
  first [ emitted_close
        | split;
          [ core_close
          | first [ intros [Habs | Habs]; discriminate Habs
                  | intros _; split; reflexivity
                  | match goal with
                    | H : _ \/ _ -> _ /\ _ |- _ => intros _; apply H; auto
                    end ] ] ].

Lemma fields_state_machine d :
  fields_cleared d ->
  post state_machine (fun _ => fields_cleared) (fun _ => fields_anyhow) fields_anyhow d.
Proof.
  intros HB. unfold state_machine. apply post_bind, post_get. cbv beta.
  destruct (state d) eqn:Hst.
  - unfold ATTENTION_state. post_run; cleared_close Hst.
  - unfold SYNC_state. post_run; cleared_close Hst.
  - apply (post_COMMAND_state in_COMMAND_fields).
    + apply fields_COMMAND_bit.
    + fields_prepare.
      match goal with H : _ \/ _ -> _ /\ _ |- _ => destruct (H (or_intror Hst)) as [Ha Hr] end.
      split; [lia |]. split; [core_close |]. rewrite Ha, Hr. cbn. lia.
    + intros d1 H1. fields_prepare.
      pose proof (reg_room_le (bit_count d1)).
      split; [core_close |]. intros [Habs | Habs]; discriminate Habs.
  - unfold STOP_CMD_state. post_run; cleared_close Hst.
  - unfold TLT_state. post_run; cleared_close Hst.
  - unfold START_DATA_state. post_run; cbv zeta; post_run; cleared_close Hst.
  - apply (post_DATA_state fields_core).
    + apply fields_DATA_bit.
    + fields_prepare. core_close.
    + intros d1 H1. fields_prepare.
      split; [core_close |]. intros [Habs | Habs]; discriminate Habs.
  - unfold STOP_DATA_state. post_run; cleared_close Hst.
Qed.

Lemma fields_decode d :
  fields_cleared d -> fields_anyhow (final (decode d)).
Proof.
  intros HB.
  assert (H : post decode (fun _ _ => False) (fun _ => fields_anyhow) fields_anyhow d).
  { apply (post_decode fields_cleared).
    - apply fields_state_machine.
    - intros _. apply HB.
    - intros sr _ _. unfold samplerate_warnings.
      destruct (sr <? 400000); [| destruct (sr <? 1000000)];
        rewrite ?app_nil_r; fields_prepare;
        (split; [core_close | assumption]). }
  unfold post in H. destruct (decode d); try contradiction; exact H.
Qed.

(** X16.  Every Address annotation of a session names an address from 0 to
    15 and every Register annotation a register from 0 to 3, whatever the
    cells were: the COMMAND loop counts each cell once, and a malformed cell
    adds the bit read before it, which is 0 or 1. *)
Theorem address_and_register_in_range opt sr edges :
  Forall field_ok (emitted (final (session opt sr edges))).
Proof.
  unfold session.
  match goal with
  | |- context [decode ?D] => assert (HB : fields_cleared D)
  end.
  { unfold fields_cleared, fields_core.
    destruct sr as [v |]; unfold metadata; rewrite ?Z.eqb_refl; cbn [negb];
      unfold start, reset; fields;
      (split; [split; [left; reflexivity | split; [discriminate | constructor]] |]);
      intros [Habs | Habs]; discriminate Habs. }
  apply fields_decode in HB. exact HB.
Qed.
